(** * MOSDAC help bot: extractor, dialogue engine and their two collaborators

    A shallow embedding of [nlu_processor.py], [kg_manager.py],
    [bot_logic.py] and the schema of [config.py], followed by the
    properties of the design specification that concern them.

    Python text is modelled as [string], the sequence of its UTF-8 bytes;
    lower-casing maps the ASCII letters and the two signs that Python
    lower-cases to an ASCII letter.  Python dictionaries are association lists
    kept in insertion order.  Code that can raise returns a [pyres]. *)

From Stdlib Require Import String Ascii List Bool ZArith Lia DecimalString.
Import ListNotations.
Local Open Scope list_scope.
Local Open Scope string_scope.

(* ===================================================================== *)
(** ** Python runtime primitives used by the program *)
(* ===================================================================== *)

Module Py.

(** The ways a [requests] call fails; all are subclasses of
    [requests.exceptions.RequestException]. *)
Inductive request_error :=
| ConnectionError
| Timeout
| HTTPError (status : Z)
| InvalidJSONError.

(** Exceptions (all subclasses of [Exception]). *)
Inductive exn :=
| AttributeError
| KeyError
| IndexError
| TypeError
| ValueError
| RequestException (why : request_error)
| CypherSyntaxError.

Inductive pyres (A : Type) :=
| Ret (a : A)
| Raise (e : exn).
Arguments Ret {A} a.
Arguments Raise {A} e.

Definition bind {A B} (c : pyres A) (k : A -> pyres B) : pyres B :=
  match c with
  | Ret a => k a
  | Raise e => Raise e
  end.

Declare Scope py_scope.
Delimit Scope py_scope with py.
Notation "x <- c ;; k" := (bind c (fun x => k))
  (at level 61, c at next level, right associativity) : py_scope.

(** Dynamically typed values: what JSON payloads and database records hold.
    Numbers are the integers. *)
#[warnings="-register-all"]
Inductive pyval :=
| PNone
| PBool (b : bool)
| PInt (z : Z)
| PStr (s : string)
| PList (l : list pyval)
| PDict (d : list (string * pyval)).

(** *** Characters and strings *)

Definition chr (n : nat) : string := String (ascii_of_nat n) EmptyString.
Definition nl : string := chr 10.
Definition dquote : string := chr 34.
(** U+2728, in UTF-8. *)
Definition sparkles : string := chr 226 ++ chr 156 ++ chr 168.

Definition is_upper (c : ascii) : bool :=
  let n := nat_of_ascii c in (65 <=? n)%nat && (n <=? 90)%nat.
Definition is_lower (c : ascii) : bool :=
  let n := nat_of_ascii c in (97 <=? n)%nat && (n <=? 122)%nat.
Definition lower_ascii (c : ascii) : ascii :=
  if is_upper c then ascii_of_nat (nat_of_ascii c + 32) else c.
Definition upper_ascii (c : ascii) : ascii :=
  if is_lower c then ascii_of_nat (nat_of_ascii c - 32) else c.

(** U+0130, the capital I with a dot above, in UTF-8, and what
    [str.lower()] makes of it: "i" followed by U+0307. *)
Definition is_dotted_capital_i (c1 c2 : ascii) : bool :=
  Ascii.eqb c1 (ascii_of_nat 196) && Ascii.eqb c2 (ascii_of_nat 176).
Definition dotted_small_i : string := "i" ++ chr 204 ++ chr 135.
(** U+212A, the Kelvin sign, in UTF-8; [str.lower()] makes it "k". *)
Definition is_kelvin_sign (c1 c2 c3 : ascii) : bool :=
  Ascii.eqb c1 (ascii_of_nat 226) && Ascii.eqb c2 (ascii_of_nat 132)
  && Ascii.eqb c3 (ascii_of_nat 170).

(** [s.lower()], on the UTF-8 bytes of [s].  The letters A-Z become a-z.
    Of the code points outside ASCII, the two whose lower-case form has an
    ASCII letter are mapped as Python maps them.  The bytes of every other
    code point are kept: Python maps such a letter to a code point that is
    again outside ASCII, so the ASCII letters of the result, and with them
    the occurrences of an ASCII phrase, are those of Python's result. *)
Fixpoint lower (s : string) : string :=
  match s with
  | EmptyString => EmptyString
  | String c1 s1 =>
      match s1 with
      | String c2 s2 =>
          if is_dotted_capital_i c1 c2 then dotted_small_i ++ lower s2
          else
            match s2 with
            | String c3 s3 =>
                if is_kelvin_sign c1 c2 c3 then "k" ++ lower s3
                else String (lower_ascii c1) (lower s1)
            | EmptyString => String (lower_ascii c1) (lower s1)
            end
      | EmptyString => String (lower_ascii c1) (lower s1)
      end
  end.

(** [s.startswith(p)] *)
Fixpoint startswith (p s : string) : bool :=
  match p with
  | EmptyString => true
  | String a p' =>
      match s with
      | EmptyString => false
      | String b s' => Ascii.eqb a b && startswith p' s'
      end
  end.

(** [needle in hay] for two strings: substring containment. *)
Fixpoint str_in (needle hay : string) : bool :=
  startswith needle hay ||
  match hay with
  | EmptyString => false
  | String _ hay' => str_in needle hay'
  end.

(** [s.replace(a, b)] for one-character [a] and [b]. *)
Fixpoint replace_char (a b : ascii) (s : string) : string :=
  match s with
  | EmptyString => EmptyString
  | String c s' => String (if Ascii.eqb c a then b else c) (replace_char a b s')
  end.

(** [s.title()]: a letter is upper-cased when the previous character is
    not a letter and lower-cased when it is. *)
Fixpoint title_from (prev_cased : bool) (s : string) : string :=
  match s with
  | EmptyString => EmptyString
  | String c s' =>
      let cased := is_upper c || is_lower c in
      String (if cased then (if prev_cased then lower_ascii c else upper_ascii c) else c)
             (title_from cased s')
  end.
Definition title (s : string) : string := title_from false s.

(** [sep.join(parts)] for strings. *)
Fixpoint join (sep : string) (parts : list string) : string :=
  match parts with
  | [] => ""
  | [p] => p
  | p :: rest => p ++ sep ++ join sep rest
  end.

(** [x in xs] for a list of strings. *)
Definition in_list (x : string) (xs : list string) : bool :=
  existsb (String.eqb x) xs.

(** *** Dictionaries with string keys, in insertion order *)

Section Dict.
Context {V : Type}.

Fixpoint dict_get (k : string) (d : list (string * V)) : option V :=
  match d with
  | [] => None
  | (k', v) :: d' => if String.eqb k' k then Some v else dict_get k d'
  end.

(** [d[k] = v]: an existing key keeps its position. *)
Fixpoint dict_set (k : string) (v : V) (d : list (string * V)) : list (string * V) :=
  match d with
  | [] => [(k, v)]
  | (k', v') :: d' =>
      if String.eqb k' k then (k, v) :: d' else (k', v') :: dict_set k v d'
  end.

Definition dict_has (k : string) (d : list (string * V)) : bool :=
  match dict_get k d with Some _ => true | None => false end.

Definition keys (d : list (string * V)) : list string := map fst d.
Definition values (d : list (string * V)) : list V := map snd d.
End Dict.

(** *** Operations on dynamically typed values *)

(** Truth value of an object. *)
Definition truthy (v : pyval) : bool :=
  match v with
  | PNone => false
  | PBool b => b
  | PInt z => negb (z =? 0)%Z
  | PStr s => negb (s =? "")
  | PList l => match l with [] => false | _ => true end
  | PDict d => match d with [] => false | _ => true end
  end.

Definition truthy_str (s : string) : bool := negb (s =? "").

(** [v.get(k)] and [v.get(k, default)]: only a dict has [get]. *)
Definition py_get (v : pyval) (k : string) (default : pyval) : pyres pyval :=
  match v with
  | PDict d => Ret (match dict_get k d with Some x => x | None => default end)
  | _ => Raise AttributeError
  end.

(** [v[k]] with a string key. *)
Definition py_item (v : pyval) (k : string) : pyres pyval :=
  match v with
  | PDict d => match dict_get k d with Some x => Ret x | None => Raise KeyError end
  | _ => Raise TypeError
  end.

(** [v[0]] *)
Definition py_first (v : pyval) : pyres pyval :=
  match v with
  | PList (x :: _) => Ret x
  | PList [] => Raise IndexError
  | PStr (String c _) => Ret (PStr (String c EmptyString))
  | PStr EmptyString => Raise IndexError
  | PDict _ => Raise KeyError
  | _ => Raise TypeError
  end.

(** The items visited by [for x in v]. *)
Fixpoint chars (s : string) : list pyval :=
  match s with
  | EmptyString => []
  | String c s' => PStr (String c EmptyString) :: chars s'
  end.

Definition py_iter (v : pyval) : pyres (list pyval) :=
  match v with
  | PList l => Ret l
  | PDict d => Ret (map (fun kv => PStr (fst kv)) d)
  | PStr s => Ret (chars s)
  | _ => Raise TypeError
  end.

(** A [str] method called on [v]: other types have neither [lower] nor
    [replace]. *)
Definition as_str (v : pyval) : pyres string :=
  match v with
  | PStr s => Ret s
  | _ => Raise AttributeError
  end.

(** [v == s] for a string literal [s]. *)
Definition py_eq_str (v : pyval) (s : string) : bool :=
  match v with
  | PStr s' => String.eqb s' s
  | _ => false
  end.

(** [repr] of a string: single quotes unless the text has a single quote
    and no double quote. *)
Definition hex_digit (n : nat) : string :=
  chr (if (n <? 10)%nat then 48 + n else 87 + n).

Definition escape_char (quote : ascii) (c : ascii) : string :=
  let n := nat_of_ascii c in
  if Ascii.eqb c "\" then "\\"
  else if Ascii.eqb c quote then String "\" (String c EmptyString)
  else if (n =? 10)%nat then "\n"
  else if (n =? 13)%nat then "\r"
  else if (n =? 9)%nat then "\t"
  else if (n <? 32)%nat || (n =? 127)%nat
       then "\x" ++ hex_digit (n / 16) ++ hex_digit (n mod 16)
  else String c EmptyString.

Fixpoint escape (quote : ascii) (s : string) : string :=
  match s with
  | EmptyString => EmptyString
  | String c s' => escape_char quote c ++ escape quote s'
  end.

Definition repr_str (s : string) : string :=
  if str_in "'" s && negb (str_in dquote s)
  then dquote ++ escape (ascii_of_nat 34) s ++ dquote
  else "'" ++ escape "'" s ++ "'".

Fixpoint py_repr (v : pyval) : string :=
  match v with
  | PNone => "None"
  | PBool true => "True"
  | PBool false => "False"
  | PInt z => NilZero.string_of_int (Z.to_int z)
  | PStr s => repr_str s
  | PList l => "[" ++ join ", " (map py_repr l) ++ "]"
  | PDict d =>
      "{" ++ join ", " (map (fun kv => match kv with
                                       | (k, x) => repr_str k ++ ": " ++ py_repr x
                                       end) d) ++ "}"
  end.

(** [str(v)], which is what an f-string field [{v}] renders. *)
Definition py_str (v : pyval) : string :=
  match v with
  | PStr s => s
  | _ => py_repr v
  end.

(** [sep.join(items)]: every item must be a string. *)
Fixpoint join_values (sep : string) (items : list pyval) : pyres string :=
  match items with
  | [] => Ret ""
  | [x] => match x with PStr s => Ret s | _ => Raise TypeError end
  | x :: rest =>
      match x with
      | PStr s =>
          match join_values sep rest with
          | Ret t => Ret (s ++ sep ++ t)
          | Raise e => Raise e
          end
      | _ => Raise TypeError
      end
  end.

End Py.
Import Py.
Local Open Scope py_scope.

(* ===================================================================== *)
(** ** config.py *)
(* ===================================================================== *)

Module Config.

(** [KG_SCHEMA["nodes"]] *)
Definition KG_SCHEMA_nodes : list string :=
  [ "DataProduct"; "Satellite"; "Sensor"; "Parameter"; "DataFormat";
    "ApplicationArea"; "Service"; "TimeResolution"; "SpatialResolution";
    "Institution" ].

(** [KG_SCHEMA["relationships"]] *)
Definition KG_SCHEMA_relationships : list string :=
  [ "PROVIDES"; "OBSERVED_BY"; "FROM_SATELLITE"; "USES_SENSOR";
    "AVAILABLE_IN_FORMAT"; "APPLICABLE_FOR"; "HAS_TIME_RESOLUTION";
    "HAS_SPATIAL_RESOLUTION"; "OFFERS_SERVICE"; "PRODUCED_BY" ].

End Config.
Import Config.

(* ===================================================================== *)
(** ** nlu_processor.py *)
(* ===================================================================== *)

Module NLU.

(** One candidate entity: [{"text": ..., "label": ..., "type": ...}]. *)
Record entity := mk_entity { text : string; label : string; type : string }.

(** The result of [process_query]. *)
Record nlu_result := mk_result {
  original_query : string;
  main_intent : string;
  entities : list (string * string);
  raw_entities : list entity;
  keywords : list string;
  found_relationships : list string
}.

Definition known_entity_labels : list string := KG_SCHEMA_nodes.
Definition known_relationship_types : list string := KG_SCHEMA_relationships.

(** [self.mosdac_keywords], in the order of the dict literal. *)
Definition mosdac_keywords : list (string * string) :=
  [ ("sea surface temperature", "DataProduct");
    ("cloud top pressure", "DataProduct");
    ("rainfall data", "DataProduct");
    ("humidity data", "DataProduct");
    ("wind speed", "DataProduct");
    ("vegetation index", "DataProduct");
    ("soil moisture", "DataProduct");
    ("ozone concentration", "DataProduct");
    ("aerosol optical depth", "DataProduct");
    ("insat-3d", "Satellite");
    ("insat-3dr", "Satellite");
    ("kalpana-1", "Satellite");
    ("oceansat-2", "Satellite");
    ("megha-tropiques", "Satellite");
    ("scatsat-1", "Satellite");
    ("gisat-1", "Satellite");
    ("imager", "Sensor");
    ("sounder", "Sensor");
    ("scatterometer", "Sensor");
    ("temperature", "Parameter");
    ("pressure", "Parameter");
    ("wind", "Parameter");
    ("humidity", "Parameter");
    ("rainfall", "Parameter");
    ("ozone", "Parameter");
    ("aerosol", "Parameter");
    ("netcdf", "DataFormat");
    ("hdf", "DataFormat");
    ("jpeg", "DataFormat");
    ("geotiff", "DataFormat");
    ("cyclone forecasting", "ApplicationArea");
    ("weather forecasting", "ApplicationArea");
    ("climate study", "ApplicationArea");
    ("agricultural monitoring", "ApplicationArea");
    ("oceanography", "ApplicationArea");
    ("atmospheric research", "ApplicationArea");
    ("data download", "Service");
    ("visualization tool", "Service");
    ("what data", "Query_DataProducts");
    ("data on", "Query_DataProducts");
    ("information about", "Query_Details");
    ("details of", "Query_Details");
    ("what is", "Query_Details_Object");
    ("how to download", "Query_Download");
    ("format of", "Query_Format");
    ("time resolution", "Query_TimeResolution");
    ("spatial resolution", "Query_SpatialResolution");
    ("applications of", "Query_Applications");
    ("what services", "Query_Services");
    ("summarize", "Query_Summarize");
    ("summarize this", "Query_Summarize");
    ("make it concise", "Query_Summarize");
    ("can you summarize", "Query_Summarize");
    ("use cases", "Query_UseCases");
    ("application ideas", "Query_UseCases");
    ("how can I use this", "Query_UseCases") ].

(** The spaCy labels retained by the first loop. *)
Definition ner_labels : list string :=
  ["ORG"; "PRODUCT"; "LOC"; "GPE"; "NORP"; "DATE"].

(** The three lists filled by the first two loops. *)
Record scan := mk_scan {
  s_entities : list entity;
  s_intents : list string;
  s_keywords : list string
}.

(** Body of [for ent in doc.ents]. *)
Definition ner_step (acc : list entity) (ent : string * string) : list entity :=
  if in_list (snd ent) ner_labels
  then (acc ++ [mk_entity (fst ent) (snd ent) "NER"])%list
  else acc.

(** Body of [for keyword, type_label in self.mosdac_keywords.items()];
    [low] is [text.lower()]. *)
Definition keyword_step (low : string) (acc : scan) (kv : string * string) : scan :=
  let keyword := fst kv in
  let type_label := snd kv in
  if str_in keyword low then
    if startswith "Query_" type_label then
      mk_scan (s_entities acc) (s_intents acc ++ [type_label])%list (s_keywords acc)
    else if in_list type_label known_entity_labels then
      mk_scan (s_entities acc ++ [mk_entity keyword type_label "Keyword"])%list
              (s_intents acc) (s_keywords acc)
    else
      mk_scan (s_entities acc) (s_intents acc) (s_keywords acc ++ [keyword])%list
  else acc.

(** Body of [for rel_type in self.known_relationship_types]. *)
Definition relationship_step (low : string) (acc : list string) (rel_type : string)
  : list string :=
  if str_in (replace_char "_" " " (lower rel_type)) low
  then (acc ++ [rel_type])%list
  else acc.

(** The [if]/[elif] chain over [intents]. *)
Definition intent_chain (intents : list string) : string :=
  if in_list "Query_Download" intents then "get_download_info"
  else if in_list "Query_Format" intents then "get_data_format"
  else if in_list "Query_TimeResolution" intents then "get_time_resolution"
  else if in_list "Query_SpatialResolution" intents then "get_spatial_resolution"
  else if in_list "Query_Applications" intents then "get_applications"
  else if in_list "Query_Services" intents then "get_services"
  else if in_list "Query_DataProducts" intents then "list_data_products"
  else if in_list "Query_Summarize" intents then "summarize_info"
  else if in_list "Query_UseCases" intents then "generate_use_cases"
  else if in_list "Query_Details" intents || in_list "Query_Details_Object" intents
       then "get_details"
  else "general_query".

(** [if main_intent == "general_query": for ent_info in entities: ... break] *)
Definition upgrade_intent (main_intent : string) (ents : list entity) : string :=
  if main_intent =? "general_query" then
    if existsb (fun ent_info =>
                  in_list (label ent_info) KG_SCHEMA_nodes
                  || in_list (type ent_info) KG_SCHEMA_nodes) ents
    then "get_details"
    else main_intent
  else main_intent.

(** The inner loop that sets [is_specific_overlap]. *)
Definition is_specific_overlap (unique_entities : list (string * string))
           (ent_text : string) : bool :=
  existsb (fun kv => str_in (snd kv) ent_text && in_list (fst kv) known_entity_labels)
          unique_entities.

(** Body of [for ent in entities] that fills [unique_entities]. *)
Definition refine_step (unique_entities : list (string * string)) (ent : entity)
  : list (string * string) :=
  if in_list (label ent) known_entity_labels then
    dict_set (label ent) (text ent) unique_entities
  else if (type ent =? "NER") && negb (in_list (text ent) (values unique_entities)) then
    if negb (is_specific_overlap unique_entities (text ent))
    then dict_set (label ent) (text ent) unique_entities
    else unique_entities
  else unique_entities.

Section Extractor.
(** The named-entity recogniser [self.nlp]: for a text, the [(ent.text,
    ent.label_)] of [doc.ents], in order. *)
Variable nlp : string -> list (string * string).

Definition ner_entities (txt : string) : list entity :=
  fold_left ner_step (nlp (lower txt)) [].

Definition scan_keywords (txt : string) : scan :=
  fold_left (keyword_step (lower txt)) mosdac_keywords
            (mk_scan (ner_entities txt) [] []).

Definition process_query (txt : string) : nlu_result :=
  let sc := scan_keywords txt in
  let found := fold_left (relationship_step (lower txt)) known_relationship_types [] in
  let main := upgrade_intent (intent_chain (s_intents sc)) (s_entities sc) in
  let unique_entities := fold_left refine_step (s_entities sc) [] in
  mk_result txt main unique_entities (s_entities sc) (s_keywords sc) found.
End Extractor.

End NLU.

(* ===================================================================== *)
(** ** kg_manager.py *)
(* ===================================================================== *)

Module KG.

(** A row returned by the driver, and the parameters sent with a query.
    A graph node in a row is the [PDict] of its properties. *)
Definition record := list (string * pyval).
Definition params := list (string * pyval).

(** [session.run(query, parameters)] followed by the iteration over the
    result: the rows, or the exception the driver raises. *)
Definition session := string -> option params -> pyres (list record).

(** [{"node": ..., "relationships": ...}] *)
Record details := mk_details { node : list (string * pyval); relationships : pyval }.

(** [{"name": ..., "label": ..., "type": ...}] *)
Record related := mk_related { rel_name : pyval; rel_label : pyval; rel_type : pyval }.

Definition indent : string := "        ".

(** [match_clause = f"(n:{{label}})" if entity_label else "(n)"]: in an
    f-string a doubled brace is a literal brace. *)
Definition match_clause (entity_label : option string) : string :=
  match entity_label with
  | Some l => if truthy_str l then "(n:{label})" else "(n)"
  | None => "(n)"
  end.

(** The text of [query] in [get_entity_details]. *)
Definition details_query (entity_label : option string) : string :=
  nl ++ indent ++ "MATCH " ++ match_clause entity_label ++ nl
  ++ indent ++ "WHERE toLower(n.name) CONTAINS toLower($entity_name)" ++ nl
  ++ indent ++ "OPTIONAL MATCH (n)-[r]-(m)" ++ nl
  ++ indent ++ "RETURN n, COLLECT(DISTINCT {type: type(r), target_name: m.name, target_label: LABELS(m)[0], relationship_props: properties(r)}) AS relationships" ++ nl
  ++ indent ++ "LIMIT 1" ++ nl
  ++ indent.

Definition details_params (entity_name : string) (entity_label : option string) : params :=
  match entity_label with
  | Some l =>
      if truthy_str l
      then [("entity_name", PStr entity_name); ("label", PStr l)]
      else [("entity_name", PStr entity_name)]
  | None => [("entity_name", PStr entity_name)]
  end.

(** [f"{x}"] for an argument that is a string or [None]. *)
Definition fmt_opt (x : option string) : string :=
  match x with Some s => s | None => "None" end.

Definition truthy_opt (x : option string) : bool :=
  match x with Some s => truthy_str s | None => false end.

(** The text of [query] in [get_related_entities]. *)
Definition related_query (entity_label : string)
           (relationship_type target_label : option string) : string :=
  "MATCH (e:" ++ entity_label ++ ")"
  ++ (if truthy_opt relationship_type then
        if truthy_opt target_label
        then "-[r_type:" ++ fmt_opt relationship_type ++ "]->(r:" ++ fmt_opt target_label ++ ")"
        else "-[r_type:" ++ fmt_opt relationship_type ++ "]->(r)"
      else "-[r_type]->(r)")
  ++ " WHERE toLower(e.name) CONTAINS toLower($entity_name) "
  ++ "RETURN r.name AS related_name, LABELS(r)[0] AS related_label, type(r_type) AS relationship_type".

(** [record[key]] *)
Definition column (rec : record) (key : string) : pyres pyval :=
  match dict_get key rec with
  | Some v => Ret v
  | None => Raise KeyError
  end.

(** [dict(x)] for a graph node [x]. *)
Definition py_dict (v : pyval) : pyres (list (string * pyval)) :=
  match v with
  | PDict d => Ret d
  | _ => Raise TypeError
  end.

Fixpoint related_rows (records : list record) : pyres (list related) :=
  match records with
  | [] => Ret []
  | rec :: rest =>
      n <- column rec "related_name" ;;
      l <- column rec "related_label" ;;
      t <- column rec "relationship_type" ;;
      others <- related_rows rest ;;
      Ret (mk_related n l t :: others)
  end.

Section Manager.
(** [self.driver] as [_execute_query] finds it once it has tried to
    reconnect: [None] when no connection could be made. *)
Variable driver : option session.

(** Every exception of the driver is turned into an empty result. *)
Definition _execute_query (query : string) (parameters : option params) : list record :=
  match driver with
  | None => []
  | Some run =>
      match run query parameters with
      | Ret records => records
      | Raise _ => []
      end
  end.

Definition get_entity_details (entity_name : string) (entity_label : option string)
  : pyres (option details) :=
  let query := details_query entity_label in
  let params := details_params entity_name entity_label in
  match _execute_query query (Some params) with
  | record :: _ =>
      n <- column record "n" ;;
      node_data <- py_dict n ;;
      relationships_data <- column record "relationships" ;;
      Ret (Some (mk_details node_data relationships_data))
  | [] => Ret None
  end.

Definition get_related_entities (entity_name entity_label : string)
           (relationship_type target_label : option string) : pyres (list related) :=
  let query := related_query entity_label relationship_type target_label in
  let params := [("entity_name", PStr entity_name)] in
  related_rows (_execute_query query (Some params)).
End Manager.

End KG.

(* ===================================================================== *)
(** ** The graph database, for the query of [get_entity_details]

    A reference semantics of the Cypher text that [get_entity_details]
    sends: a node pattern is [(n)] or [(n:Label)] with [Label] a symbolic
    name (a letter or underscore followed by letters, digits or
    underscores); the rest of the text is the fixed [WHERE ... LIMIT 1]
    part.  Any other text is refused with a syntax error. *)
(* ===================================================================== *)

Module Neo4j.

Record gnode := mk_node { labels : list string; props : list (string * string) }.
Record gedge := mk_edge { src : nat; dst : nat; rtype : string;
                          rprops : list (string * string) }.
Record graph := mk_graph { nodes : list gnode; edges : list gedge }.

Definition is_name_start (c : ascii) : bool :=
  is_upper c || is_lower c || Ascii.eqb c "_".
Definition is_name_part (c : ascii) : bool :=
  is_name_start c || ((48 <=? nat_of_ascii c)%nat && (nat_of_ascii c <=? 57)%nat).

(** [strip p s]: what follows [p] when [s] starts with [p]. *)
Fixpoint strip (p s : string) : option string :=
  match p with
  | EmptyString => Some s
  | String a p' =>
      match s with
      | EmptyString => None
      | String b s' => if Ascii.eqb a b then strip p' s' else None
      end
  end.

(** Reads a symbolic name up to the closing parenthesis. *)
Fixpoint read_name (s : string) : option (string * string) :=
  match s with
  | EmptyString => None
  | String c s' =>
      if Ascii.eqb c ")" then Some (EmptyString, s')
      else if is_name_part c then
        match read_name s' with
        | Some (name, rest) => Some (String c name, rest)
        | None => None
        end
      else None
  end.

(** The label filter of a node pattern: [Some None] for [(n)], [Some (Some
    l)] for [(n:l)], [None] when the text is not a node pattern. *)
Definition node_pattern (s : string) : option (option string * string) :=
  match strip "(n" s with
  | Some (String c rest) =>
      if Ascii.eqb c ")" then Some (None, rest)
      else if Ascii.eqb c ":" then
        match rest with
        | String c0 _ =>
            if is_name_start c0 then
              match read_name rest with
              | Some (name, rest') => Some (Some name, rest')
              | None => None
              end
            else None
        | EmptyString => None
        end
      else None
  | _ => None
  end.

(** The part of the query text after the node pattern. *)
Definition query_tail : string :=
  match strip (nl ++ KG.indent ++ "MATCH (n)") (KG.details_query None) with
  | Some t => t
  | None => ""
  end.

Definition parse_details_query (q : string) : option (option string) :=
  match strip (nl ++ KG.indent ++ "MATCH ") q with
  | Some s =>
      match node_pattern s with
      | Some (lab, rest) => if rest =? query_tail then Some lab else None
      | None => None
      end
  | None => None
  end.

(** [WHERE toLower(n.name) CONTAINS toLower($entity_name)], with the label
    filter of the pattern. *)
Definition node_matches (lab : option string) (entity_name : string) (n : gnode) : bool :=
  match lab with Some l => in_list l (labels n) | None => true end
  && match dict_get "name" (props n) with
     | Some nm => str_in (lower entity_name) (lower nm)
     | None => false
     end.

Fixpoint find_index {A} (f : A -> bool) (l : list A) (i : nat) : option (nat * A) :=
  match l with
  | [] => None
  | x :: l' => if f x then Some (i, x) else find_index f l' (S i)
  end.

(** One element of the collected list: [{type, target_name, target_label,
    relationship_props}]. *)
Record relmap := mk_relmap {
  m_type : string; m_target_name : option string; m_target_label : option string;
  m_props : list (string * string)
}.

Definition opt_eqb (a b : option string) : bool :=
  match a, b with
  | Some x, Some y => x =? y
  | None, None => true
  | _, _ => false
  end.

Fixpoint props_eqb (a b : list (string * string)) : bool :=
  match a, b with
  | [], [] => true
  | (k, v) :: a', (k', v') :: b' => (k =? k') && (v =? v') && props_eqb a' b'
  | _, _ => false
  end.

Definition relmap_eqb (a b : relmap) : bool :=
  (m_type a =? m_type b) && opt_eqb (m_target_name a) (m_target_name b)
  && opt_eqb (m_target_label a) (m_target_label b) && props_eqb (m_props a) (m_props b).

(** [DISTINCT] *)
Fixpoint distinct (l : list relmap) (seen : list relmap) : list relmap :=
  match l with
  | [] => []
  | x :: l' =>
      if existsb (relmap_eqb x) seen then distinct l' seen
      else x :: distinct l' (x :: seen)
  end.

Definition str_props (p : list (string * string)) : pyval :=
  PDict (map (fun kv => (fst kv, PStr (snd kv))) p).

Definition opt_val (x : option string) : pyval :=
  match x with Some s => PStr s | None => PNone end.

Definition relmap_val (m : relmap) : pyval :=
  PDict [ ("type", PStr (m_type m)); ("target_name", opt_val (m_target_name m));
          ("target_label", opt_val (m_target_label m));
          ("relationship_props", str_props (m_props m)) ].

(** The row that [OPTIONAL MATCH] yields for a node without relationship:
    every entry of the map is null. *)
Definition null_relmap : pyval :=
  PDict [ ("type", PNone); ("target_name", PNone); ("target_label", PNone);
          ("relationship_props", PNone) ].

(** [(n)-[r]-(m)] for the node at index [i]: one map per incident
    relationship, in either direction. *)
Definition incident (g : graph) (i : nat) : list relmap :=
  flat_map (fun e =>
              let other := if (src e =? i)%nat then Some (dst e)
                           else if (dst e =? i)%nat then Some (src e) else None in
              match other with
              | Some j =>
                  match nth_error (nodes g) j with
                  | Some m => [mk_relmap (rtype e) (dict_get "name" (props m))
                                         (hd_error (labels m)) (rprops e)]
                  | None => []
                  end
              | None => []
              end) (edges g).

Definition details_rows (g : graph) (lab : option string) (entity_name : string)
  : list KG.record :=
  match find_index (node_matches lab entity_name) (nodes g) 0 with
  | Some (i, n) =>
      let rels := distinct (incident g i) [] in
      [ [ ("n", str_props (props n));
          ("relationships",
           PList (match rels with [] => [null_relmap] | _ => map relmap_val rels end)) ] ]
  | None => []
  end.

Definition run (g : graph) : KG.session :=
  fun query parameters =>
    match parse_details_query query with
    | Some lab =>
        match parameters with
        | Some ps =>
            match dict_get "entity_name" ps with
            | Some (PStr entity_name) => Ret (details_rows g lab entity_name)
            | _ => Raise ValueError
            end
        | None => Raise ValueError
        end
    | None => Raise CypherSyntaxError
    end.

(** Part of the store that the example of [kg_manager.py] builds. *)
Definition demo_graph : graph :=
  mk_graph
    [ mk_node ["DataProduct"]
        [ ("name", "Sea Surface Temperature");
          ("description", "Global daily sea surface temperature anomaly data.");
          ("coverage", "Global"); ("update_frequency", "Daily");
          ("link", "https://mosdac.gov.in/data/sst") ];
      mk_node ["Satellite"]
        [ ("name", "INSAT-3D"); ("mission_type", "Meteorological");
          ("status", "Operational"); ("launch_date", "2013-07-26") ];
      mk_node ["Parameter"] [ ("name", "Temperature"); ("unit", "Celsius") ];
      mk_node ["TimeResolution"] [ ("value", "Daily") ];
      mk_node ["Institution"] [ ("name", "MOSDAC"); ("type", "Data Centre") ] ]
    [ mk_edge 0 2 "PROVIDES" [];
      mk_edge 0 1 "FROM_SATELLITE" [];
      mk_edge 0 3 "HAS_TIME_RESOLUTION" [] ].

End Neo4j.

(* ===================================================================== *)
(** ** bot_logic.py *)
(* ===================================================================== *)

Module Bot.

(** *** The generative client *)

(** What [requests.post] gives back: the status and the outcome of
    [response.json()]. *)
Record response := mk_response { status_code : Z; json : pyres pyval }.

(** [response.raise_for_status()] *)
Definition raise_for_status (r : response) : pyres unit :=
  if ((400 <=? status_code r) && (status_code r <? 600))%Z
  then Raise (RequestException (HTTPError (status_code r)))
  else Ret tt.

Definition unexpected_format_message : string :=
  "I couldn't generate a response from the AI at this moment.".
Definition connectivity_apology : string :=
  "I'm having trouble connecting to the generative AI right now. Please try again later.".
Definition internal_error_message : string :=
  "An internal error occurred while processing your request.".

(** The attributes of a [list] object. *)
Definition list_attributes : list string :=
  [ "append"; "clear"; "copy"; "count"; "extend"; "index"; "insert"; "pop";
    "remove"; "reverse"; "sort" ].

(** Looking up [name] on a list. *)
Definition getattr_list (name : string) : pyres unit :=
  if in_list name list_attributes then Ret tt else Raise AttributeError.

Definition gemini_api_url (api_key : string) : string :=
  "https://generativelanguage.googleapis.com/v1beta/models/gemini-2.0-flash:generateContent?key="
  ++ api_key.

Section Client.
(** [requests.post(url, headers=..., data=json.dumps(payload), timeout=30)],
    indexed by the address and the payload. *)
Variable requests_post : string -> pyval -> pyres response.

(** The statements inside [try]. *)
Definition gemini_try (url : string) (payload : pyval) : pyres pyval :=
  response <- requests_post url payload ;;
  _ <- raise_for_status response ;;
  result <- json response ;;
  candidates <- py_get result "candidates" PNone ;;
  if truthy candidates then
    cs <- py_item result "candidates" ;;
    c0 <- py_first cs ;;
    content <- py_get c0 "content" PNone ;;
    if truthy content then
      content' <- py_item c0 "content" ;;
      parts <- py_get content' "parts" PNone ;;
      if truthy parts then
        parts' <- py_item content' "parts" ;;
        p0 <- py_first parts' ;;
        generated_text <- py_item p0 "text" ;;
        Ret generated_text
      else Ret (PStr unexpected_format_message)
    else Ret (PStr unexpected_format_message)
  else Ret (PStr unexpected_format_message).

(** The [try] statement with its two handlers. *)
Definition gemini_request (url : string) (payload : pyval) : pyres pyval :=
  match gemini_try url payload with
  | Ret v => Ret v
  | Raise (RequestException _) => Ret (PStr connectivity_apology)
  | Raise _ => Ret (PStr internal_error_message)
  end.

(** [_call_gemini_llm]: [chat_history.push(...)] comes before the [try]. *)
Definition _call_gemini_llm (prompt : string) (api_key : string) : pyres pyval :=
  let chat_history : list pyval := [] in
  let item := PDict [ ("role", PStr "user");
                      ("parts", PList [PDict [("text", PStr prompt)]]) ] in
  _ <- getattr_list "push" ;;
  let chat_history := (chat_history ++ [item])%list in
  let payload := PDict [("contents", PList chat_history)] in
  gemini_request (gemini_api_url api_key) payload.
End Client.

(** *** The dialogue engine *)

(** Calls made to the two collaborators, oldest first. *)
Inductive event :=
| EvDetails (entity_name : string) (entity_label : option string)
| EvRelated (entity_name entity_label : string) (relationship_type target_label : option string)
| EvQuery (query : string)
| EvLLM (prompt : string).

(** The bot instance: the two memory fields, and the calls it has made. *)
Record ISROBot := mk_bot {
  last_detailed_response_content : pyval;
  last_detailed_entity_name : pyval;
  calls : list event
}.

Definition set_memory (content name : pyval) (bot : ISROBot) : ISROBot :=
  mk_bot content name (calls bot).
Definition clear_memory (bot : ISROBot) : ISROBot := set_memory PNone PNone bot.
Definition log (ev : event) (bot : ISROBot) : ISROBot :=
  mk_bot (last_detailed_response_content bot) (last_detailed_entity_name bot)
         (calls bot ++ [ev])%list.
Definition memory (bot : ISROBot) : pyval * pyval :=
  (last_detailed_response_content bot, last_detailed_entity_name bot).

Definition default_response : string :=
  "I'm sorry, I couldn't find information on that. Could you please rephrase or ask about specific MOSDAC data products, satellites, or services?".

(** [find_primary_entity]; [None] stands for [(None, None)]. *)
Fixpoint first_preferred (entities_dict : list (string * string))
         (preferred_labels : list string) : option (string * string) :=
  match preferred_labels with
  | [] => None
  | l :: rest =>
      match dict_get l entities_dict with
      | Some name => Some (name, l)
      | None => first_preferred entities_dict rest
      end
  end.

Definition find_primary_entity (entities_dict : list (string * string))
           (preferred_labels : list string) : option (string * string) :=
  match first_preferred entities_dict preferred_labels with
  | Some r => Some r
  | None =>
      match find (fun kv => in_list (fst kv) KG_SCHEMA_nodes) entities_dict with
      | Some (l, name) => Some (name, l)
      | None => None
      end
  end.

(** The primary entity when its name is truthy. *)
Definition named (r : option (string * string)) : option (string * string) :=
  match r with
  | Some (name, l) => if truthy_str name then Some (name, l) else None
  | None => None
  end.

Definition dict_get_default (k : string) (d : list (string * pyval)) (default : pyval) : pyval :=
  match dict_get k d with Some v => v | None => default end.

(** The lines for the properties other than [name] and [description]. *)
Definition property_lines (node : list (string * pyval)) : list string :=
  flat_map (fun kv =>
              if in_list (fst kv) ["name"; "description"] then []
              else ["- " ++ title (replace_char "_" " " (fst kv)) ++ ": " ++ py_str (snd kv)])
           node.

(** The sentence for one relationship. *)
Definition relationship_line (rel : pyval) : pyres string :=
  t <- py_item rel "type" ;;
  if py_eq_str t "FROM_SATELLITE" then
    n <- py_item rel "target_name" ;;
    Ret ("  - It is derived from the " ++ py_str n ++ " satellite.")
  else if py_eq_str t "PROVIDES" then
    n <- py_item rel "target_name" ;;
    s <- as_str n ;;
    Ret ("  - It provides data on " ++ lower s ++ ".")
  else if py_eq_str t "AVAILABLE_IN_FORMAT" then
    n <- py_item rel "target_name" ;;
    Ret ("  - It is available in " ++ py_str n ++ " format.")
  else if py_eq_str t "APPLICABLE_FOR" then
    n <- py_item rel "target_name" ;;
    s <- as_str n ;;
    Ret ("  - It is applicable for " ++ lower s ++ ".")
  else if py_eq_str t "USES_SENSOR" then
    n <- py_item rel "target_name" ;;
    Ret ("  - It uses the " ++ py_str n ++ " sensor.")
  else if py_eq_str t "PRODUCED_BY" then
    n <- py_item rel "target_name" ;;
    Ret ("  - It is produced by " ++ py_str n ++ ".")
  else
    n <- py_item rel "target_name" ;;
    l <- py_item rel "target_label" ;;
    s <- as_str t ;;
    Ret ("  - Related to " ++ py_str n ++ " (" ++ py_str l ++ ") via "
         ++ lower (replace_char "_" " " s) ++ ".").

Fixpoint relationship_lines (rels : list pyval) : pyres (list string) :=
  match rels with
  | [] => Ret []
  | rel :: rest =>
      line <- relationship_line rel ;;
      others <- relationship_lines rest ;;
      Ret (line :: others)
  end.

(** [if details['relationships']: ...] *)
Definition related_information (relationships : pyval) : pyres (list string) :=
  if truthy relationships then
    rels <- py_iter relationships ;;
    lines <- relationship_lines rels ;;
    Ret ((nl ++ "Related Information:") :: lines)
  else Ret [].

(** [[x['name'] for x in rows]] joined with [', ']. *)
Definition joined_names (rows : list KG.related) : pyres string :=
  join_values ", " (map KG.rel_name rows).

Definition list_products_query : string :=
  "MATCH (p:DataProduct) RETURN p.name AS name, p.description AS description LIMIT 5".

Fixpoint product_lines (products : list KG.record) : pyres string :=
  match products with
  | [] => Ret ""
  | p :: rest =>
      n <- KG.column p "name" ;;
      others <- product_lines rest ;;
      Ret ("- " ++ py_str n ++ nl ++ others)
  end.

Definition summarize_prompt (name content : pyval) : string :=
  "Summarize the following information about " ++ py_str name
  ++ " concisely in a paragraph:" ++ nl ++ nl ++ py_str content.

Definition summary_header (name : pyval) : string :=
  sparkles ++ " Here's a summary of the previous information about " ++ py_str name
  ++ ":" ++ nl.

Definition use_case_prompt (target_entity_name target_entity_label context : string) : string :=
  "Generate 3-5 creative and practical use case ideas for '" ++ target_entity_name
  ++ "' (which is " ++ lower target_entity_label ++ "), considering its nature as "
  ++ context
  ++ ". Focus on meteorological, oceanographic, or environmental applications. Provide them as a bulleted list.".

Definition use_case_header (target_entity_name : string) : string :=
  sparkles ++ " Here are some use case ideas for " ++ target_entity_name ++ ":" ++ nl.

Definition please_specify_use_cases : string :=
  "Please specify which data product, satellite, or parameter you'd like use case ideas for.".

Definition nothing_to_summarize : string :=
  "I don't have a recent detailed piece of information to summarize. Please ask me about a specific data product or satellite first.".

Definition follow_up_offer : string :=
  nl ++ nl ++ sparkles
  ++ " Would you like me to summarize this, or generate use case ideas for this data?".

(** The outcome of a call on the bot: what it returns or raises, and the
    bot afterwards. *)
Definition outcome : Type := pyres string * ISROBot.

Section Engine.
Variable nlp : string -> list (string * string).
Variable driver : option KG.session.
(** The method [self._call_gemini_llm], called with a prompt. *)
Variable llm : string -> pyres pyval.

(** [if intent == "get_details": ...] *)
Definition handle_get_details (entities : list (string * string)) (bot : ISROBot) : outcome :=
  match named (find_primary_entity entities
                 ["DataProduct"; "Satellite"; "Sensor"; "Parameter";
                  "ApplicationArea"; "Service"; "Institution"]) with
  | Some (primary_entity_name, primary_entity_label) =>
      let bot1 := log (EvDetails primary_entity_name (Some primary_entity_label)) bot in
      match KG.get_entity_details driver primary_entity_name (Some primary_entity_label) with
      | Raise e => (Raise e, bot1)
      | Ret (Some details) =>
          let node := KG.node details in
          let shown := dict_get_default "name" node (PStr primary_entity_name) in
          let description_content := dict_get_default "description" node PNone in
          let bot2 := if truthy description_content
                      then set_memory description_content shown bot1
                      else clear_memory bot1 in
          let heading := "Here's what I know about " ++ py_str shown ++ ":" in
          let description_line :=
            if truthy description_content
            then ["- Description: " ++ py_str description_content] else [] in
          let response_parts :=
            List.app (heading :: description_line) (property_lines node) in
          match related_information (KG.relationships details) with
          | Raise e => (Raise e, bot2)
          | Ret lines =>
              let response_text := join nl (List.app response_parts lines) in
              (Ret (if truthy (last_detailed_response_content bot2)
                    then response_text ++ follow_up_offer else response_text),
               bot2)
          end
      | Ret None =>
          (Ret ("I couldn't find detailed information about '" ++ primary_entity_name
                ++ "'. It might not be in my knowledge base yet."),
           clear_memory bot1)
      end
  | None =>
      (Ret "Please specify which MOSDAC data product, satellite, or service you'd like to know about.",
       clear_memory bot)
  end.

(** [elif intent == "list_data_products": ...] *)
Definition handle_list_data_products (bot : ISROBot) : outcome :=
  let bot1 := log (EvQuery list_products_query) bot in
  let products := KG._execute_query driver list_products_query None in
  match products with
  | [] =>
      (Ret "I couldn't find a list of data products. The knowledge graph might be empty or the query needs refinement.",
       clear_memory bot1)
  | _ =>
      match product_lines products with
      | Raise e => (Raise e, bot1)
      | Ret lines =>
          (Ret ("MOSDAC provides various data products, including:" ++ nl ++ lines
                ++ "You can ask for more details about a specific product, e.g., 'Tell me about sea surface temperature data'."),
           clear_memory bot1)
      end
  end.

(** [elif intent == "get_data_format": ...] *)
Definition handle_get_data_format (entities : list (string * string)) (bot : ISROBot) : outcome :=
  match named (find_primary_entity entities ["DataProduct"]) with
  | Some (product_name, product_label) =>
      let bot1 := log (EvRelated product_name product_label
                                 (Some "AVAILABLE_IN_FORMAT") (Some "DataFormat")) bot in
      match KG.get_related_entities driver product_name product_label
              (Some "AVAILABLE_IN_FORMAT") (Some "DataFormat") with
      | Raise e => (Raise e, bot1)
      | Ret [] =>
          (Ret ("I don't have information on the specific data format for "
                ++ product_name ++ "."), clear_memory bot1)
      | Ret formats =>
          match joined_names formats with
          | Raise e => (Raise e, bot1)
          | Ret names =>
              (Ret ("The data for " ++ product_name
                    ++ " is typically available in the following formats: " ++ names ++ "."),
               clear_memory bot1)
          end
      end
  | None =>
      (Ret "Please specify which data product's format you are interested in.",
       clear_memory bot)
  end.

(** [elif intent == "get_download_info": ...] *)
Definition handle_get_download_info (entities : list (string * string)) (bot : ISROBot)
  : outcome :=
  match named (find_primary_entity entities ["DataProduct"; "Parameter"]) with
  | Some (product_name, product_label) =>
      let bot1 := log (EvDetails product_name (Some product_label)) bot in
      let no_link :=
        "I don't have direct download links for " ++ product_name
        ++ ". Please visit the MOSDAC website (mosdac.gov.in) and navigate to the data products section to find download options." in
      match KG.get_entity_details driver product_name (Some product_label) with
      | Raise e => (Raise e, bot1)
      | Ret (Some details) =>
          match dict_get "link" (KG.node details) with
          | Some link =>
              match dict_get "name" (KG.node details) with
              | Some name =>
                  (Ret ("You can usually download data for " ++ py_str name
                        ++ " from this link: " ++ py_str link
                        ++ ". Please visit the MOSDAC website for specific download procedures."),
                   clear_memory bot1)
              | None => (Raise KeyError, bot1)
              end
          | None => (Ret no_link, clear_memory bot1)
          end
      | Ret None => (Ret no_link, clear_memory bot1)
      end
  | None =>
      (Ret "Please specify which data product you'd like download information for.",
       clear_memory bot)
  end.

(** [elif intent == "get_applications": ...] *)
Definition handle_get_applications (entities : list (string * string)) (bot : ISROBot)
  : outcome :=
  match named (find_primary_entity entities ["DataProduct"; "Parameter"; "Satellite"]) with
  | Some (product_name, product_label) =>
      let bot1 := log (EvRelated product_name product_label
                                 (Some "APPLICABLE_FOR") (Some "ApplicationArea")) bot in
      match KG.get_related_entities driver product_name product_label
              (Some "APPLICABLE_FOR") (Some "ApplicationArea") with
      | Raise e => (Raise e, bot1)
      | Ret [] =>
          (Ret ("I don't have specific application information for " ++ product_name
                ++ " in my knowledge base."), clear_memory bot1)
      | Ret applications =>
          match joined_names applications with
          | Raise e => (Raise e, bot1)
          | Ret names =>
              (Ret ("The data/satellite '" ++ product_name
                    ++ "' is applicable for areas such as: " ++ names ++ "."),
               clear_memory bot1)
          end
      end
  | None =>
      (Ret "Please tell me which data product or satellite you'd like to know applications for.",
       clear_memory bot)
  end.

(** [elif intent == "get_services": ...] *)
Definition handle_get_services (entities : list (string * string)) (bot : ISROBot) : outcome :=
  let institution_name :=
    match dict_get "Institution" entities with Some n => n | None => "MOSDAC" end in
  let bot1 := log (EvRelated institution_name "Institution"
                             (Some "OFFERS_SERVICE") (Some "Service")) bot in
  match KG.get_related_entities driver institution_name "Institution"
          (Some "OFFERS_SERVICE") (Some "Service") with
  | Raise e => (Raise e, bot1)
  | Ret [] =>
      (Ret ("I couldn't find specific service information for " ++ institution_name ++ "."),
       clear_memory bot1)
  | Ret services =>
      match joined_names services with
      | Raise e => (Raise e, bot1)
      | Ret names =>
          (Ret (institution_name ++ " offers services like: " ++ names
                ++ ". You can often find visualization tools or data download portals."),
           clear_memory bot1)
      end
  end.

(** [elif intent == "summarize_info": ...] *)
Definition handle_summarize_info (bot : ISROBot) : outcome :=
  if truthy (last_detailed_response_content bot) then
    let prompt := summarize_prompt (last_detailed_entity_name bot)
                                   (last_detailed_response_content bot) in
    let bot1 := log (EvLLM prompt) bot in
    match llm prompt with
    | Raise e => (Raise e, bot1)
    | Ret llm_summary =>
        (Ret (summary_header (last_detailed_entity_name bot) ++ py_str llm_summary),
         clear_memory bot1)
    end
  else (Ret nothing_to_summarize, clear_memory bot).

(** [elif intent == "generate_use_cases": ...] *)
Definition handle_generate_use_cases (entities : list (string * string)) (bot : ISROBot)
  : outcome :=
  match named (find_primary_entity entities
                 ["DataProduct"; "Satellite"; "Parameter"; "ApplicationArea"]) with
  | Some (target_entity_name, target_entity_label) =>
      let bot1 := log (EvDetails target_entity_name (Some target_entity_label)) bot in
      match KG.get_entity_details driver target_entity_name (Some target_entity_label) with
      | Raise e => (Raise e, bot1)
      | Ret details =>
          let description :=
            match details with
            | Some d => dict_get_default "description" (KG.node d) PNone
            | None => PNone
            end in
          let context := if truthy description then py_str description
                         else "data related to " ++ target_entity_name in
          let prompt := use_case_prompt target_entity_name target_entity_label context in
          let bot2 := log (EvLLM prompt) bot1 in
          match llm prompt with
          | Raise e => (Raise e, bot2)
          | Ret llm_use_cases =>
              (Ret (use_case_header target_entity_name ++ py_str llm_use_cases),
               clear_memory bot2)
          end
      end
  | None => (Ret please_specify_use_cases, clear_memory bot)
  end.

(** [generate_response], for the client method [llm]. *)
Definition generate_response_with (user_query : string) (bot : ISROBot) : outcome :=
  let nlu_result := NLU.process_query nlp user_query in
  let intent := NLU.main_intent nlu_result in
  let entities := NLU.entities nlu_result in
  if intent =? "get_details" then handle_get_details entities bot
  else if intent =? "list_data_products" then handle_list_data_products bot
  else if intent =? "get_data_format" then handle_get_data_format entities bot
  else if intent =? "get_download_info" then handle_get_download_info entities bot
  else if intent =? "get_applications" then handle_get_applications entities bot
  else if intent =? "get_services" then handle_get_services entities bot
  else if intent =? "summarize_info" then handle_summarize_info bot
  else if intent =? "generate_use_cases" then handle_generate_use_cases entities bot
  else (Ret default_response, bot).
End Engine.

(** [ISROBot.generate_response]: the engine with the client of the class. *)
Definition generate_response (nlp : string -> list (string * string))
           (driver : option KG.session)
           (requests_post : string -> pyval -> pyres response)
           (user_query : string) (bot : ISROBot) : outcome :=
  generate_response_with nlp driver
    (fun prompt => _call_gemini_llm requests_post prompt "") user_query bot.

End Bot.

(* ===================================================================== *)
(** ** Notions in which the properties are stated *)
(* ===================================================================== *)

Module Spec.
Import NLU.

(** The entries of the keyword table that occur in the text. *)
Definition keyword_matches (txt : string) : list (string * string) :=
  filter (fun kv => str_in (fst kv) (lower txt)) mosdac_keywords.

(** The fixed priority order of the intent signals: download, format,
    time resolution, spatial resolution, applications, services, list of
    products, summarize, use cases, details. *)
Definition priority_order : list (list string * string) :=
  [ (["Query_Download"], "get_download_info");
    (["Query_Format"], "get_data_format");
    (["Query_TimeResolution"], "get_time_resolution");
    (["Query_SpatialResolution"], "get_spatial_resolution");
    (["Query_Applications"], "get_applications");
    (["Query_Services"], "get_services");
    (["Query_DataProducts"], "list_data_products");
    (["Query_Summarize"], "summarize_info");
    (["Query_UseCases"], "generate_use_cases");
    (["Query_Details"; "Query_Details_Object"], "get_details") ].

Definition signal_present (signals : list string) (entry : list string * string) : bool :=
  existsb (fun s => in_list s signals) (fst entry).

(** The first signal present, in priority order, decides; without one the
    intent is [general_query], raised to [get_details] when the label of a
    candidate entity is a known entity kind. *)
Definition resolve_main_intent (signals : list string) (candidates : list entity) : string :=
  match find (signal_present signals) priority_order with
  | Some (_, intent) => intent
  | None =>
      if existsb (fun e => in_list (label e) KG_SCHEMA_nodes) candidates
      then "get_details"
      else "general_query"
  end.

(** The keyword candidate for a table entry. *)
Definition keyword_entity (kv : string * string) : entity :=
  mk_entity (fst kv) (snd kv) "Keyword".

(** The table entries that give a candidate entity for the lower-cased
    text [low]. *)
Definition entity_keyword (low : string) (kv : string * string) : bool :=
  str_in (fst kv) low && negb (startswith "Query_" (snd kv))
  && in_list (snd kv) known_entity_labels.

(** The table entries that give an intent signal, and those that would
    give an unclassified keyword. *)
Definition is_signal (low : string) (kv : string * string) : bool :=
  str_in (fst kv) low && startswith "Query_" (snd kv).
Definition is_unclassified (low : string) (kv : string * string) : bool :=
  str_in (fst kv) low && negb (startswith "Query_" (snd kv))
  && negb (in_list (snd kv) known_entity_labels).

(** The text of the last candidate scanned that carries label [l]. *)
Definition last_with_label (l : string) (candidates : list entity) : option string :=
  option_map text (find (fun e => label e =? l) (rev candidates)).

(** A recognised span is added unless its very text is already mapped. *)
Definition add_unless_mapped (u : list (string * string)) (e : entity)
  : list (string * string) :=
  if in_list (text e) (values u) then u else dict_set (label e) (text e) u.

(** No key of the mapping is an entity kind of the schema: the state of
    the mapping while the recognised spans are scanned. *)
Definition no_known_key (u : list (string * string)) : Prop :=
  forall k, In k (keys u) -> in_list k known_entity_labels = false.

(** The intents that [generate_response] has a branch for. *)
Definition handled_intents : list string :=
  [ "get_details"; "list_data_products"; "get_data_format"; "get_download_info";
    "get_applications"; "get_services"; "summarize_info"; "generate_use_cases" ].

(** The memory after a successful [get_details] lookup with a description
    (description, name); [(None, None)] in every other case. *)
Definition memory_for (nlp : string -> list (string * string)) (driver : option KG.session)
           (txt : string) : pyval * pyval :=
  let r := process_query nlp txt in
  if main_intent r =? "get_details" then
    match Bot.named (Bot.find_primary_entity (entities r)
                       ["DataProduct"; "Satellite"; "Sensor"; "Parameter";
                        "ApplicationArea"; "Service"; "Institution"]) with
    | Some (name, l) =>
        match KG.get_entity_details driver name (Some l) with
        | Ret (Some d) =>
            let description := Bot.dict_get_default "description" (KG.node d) PNone in
            if truthy description
            then (description, Bot.dict_get_default "name" (KG.node d) (PStr name))
            else (PNone, PNone)
        | _ => (PNone, PNone)
        end
    | None => (PNone, PNone)
    end
  else (PNone, PNone).

End Spec.

(* ===================================================================== *)
(** ** Collaborators used in the examples *)
(* ===================================================================== *)

Module Fixtures.

(** A recogniser that finds no span. *)
Definition nlp_none : string -> list (string * string) := fun _ => [].

(** A recogniser that finds a country and an organisation whose name
    contains it. *)
Definition nlp_india : string -> list (string * string) :=
  fun _ => [("india", "GPE"); ("india meteorological department", "ORG")].

(** A store without any entity: every query has no row. *)
Definition empty_store : KG.session := fun _ _ => Ret [].

(** A store that answers every query with the row of one data product. *)
Definition one_product_store : KG.session :=
  fun _ _ =>
    Ret [ [ ("n", PDict [ ("name", PStr "Sea Surface Temperature");
                          ("description", PStr "Global daily sea surface temperature anomaly data.") ]);
            ("relationships", PList [ PDict [ ("type", PStr "FROM_SATELLITE");
                                              ("target_name", PStr "INSAT-3D");
                                              ("target_label", PStr "Satellite");
                                              ("relationship_props", PDict []) ] ]) ] ].

(** A network on which every request times out. *)
Definition post_timeout : string -> pyval -> pyres Bot.response :=
  fun _ _ => Raise (RequestException Timeout).

(** A client whose request part runs against [post_timeout]. *)
Definition llm_timeout : string -> pyres pyval :=
  fun prompt => Bot.gemini_request post_timeout (Bot.gemini_api_url "")
                  (PDict [("contents", PList [PDict [ ("role", PStr "user");
                                                      ("parts", PList [PDict [("text", PStr prompt)]]) ]])]).

(** A client that answers every prompt with the same text. *)
Definition llm_fixed (answer : string) : string -> pyres pyval :=
  fun _ => Ret (PStr answer).

Definition fresh_bot : Bot.ISROBot := Bot.mk_bot PNone PNone [].

(** A bot that has just described a data product. *)
Definition bot_after_details : Bot.ISROBot :=
  Bot.mk_bot (PStr "Global daily sea surface temperature anomaly data.")
             (PStr "Sea Surface Temperature") [].

End Fixtures.

(* ===================================================================== *)
(** ** app.py *)
(* ===================================================================== *)

Module App.

(** [chat()], for the parsed body [request.json]: the status and the JSON
    document of the answer, or the exception that leaves the view. *)
Definition chat (nlp : string -> list (string * string)) (driver : option KG.session)
           (requests_post : string -> pyval -> pyres Bot.response)
           (body : pyval) (bot : Bot.ISROBot) : pyres (Z * pyval) * Bot.ISROBot :=
  match py_get body "message" PNone with
  | Raise e => (Raise e, bot)
  | Ret user_message =>
      if negb (truthy user_message) then
        (Ret (400%Z, PDict [("error", PStr "No message provided")]), bot)
      else
        match user_message with
        | PStr s =>
            match Bot.generate_response nlp driver requests_post s bot with
            | (Ret bot_response, bot') =>
                (Ret (200%Z, PDict [("response", PStr bot_response)]), bot')
            | (Raise e, bot') => (Raise e, bot')
            end
        | _ =>
            (* [text.lower()] at the start of [process_query] *)
            (Raise AttributeError, bot)
        end
  end.

End App.

(* ===================================================================== *)
(** ** data_ingestion.py: the calls of [_ingest_data_product] *)
(* ===================================================================== *)

Module Ingest.

(** A call to [kg_manager.add_entity] or [kg_manager.add_relationship]. *)
Inductive kg_call :=
| AddEntity (label : string) (properties : list (string * string))
| AddRelationship (from_label : string) (from_props : list (string * string))
                  (to_label : string) (to_props : list (string * string))
                  (rel_type : string).

(** The body of each of the three loops: the target is added, then related
    to the product. *)
Definition add_and_relate (name to_label rel_type target : string) : list kg_call :=
  [ AddEntity to_label [("name", target)];
    AddRelationship "DataProduct" [("name", name)] to_label [("name", target)] rel_type ].

(** [if xs: for x in xs: ...] for an argument that is [None] or a list. *)
Definition for_each (xs : option (list string)) (body : string -> list kg_call)
  : list kg_call :=
  match xs with
  | Some l => flat_map body l
  | None => []
  end.

(** The calls of [_ingest_data_product], in order. *)
Definition _ingest_data_product (name description link : string)
           (satellites parameters data_formats : option (list string)) : list kg_call :=
  (AddEntity "DataProduct" [("name", name); ("description", description); ("link", link)]
   :: for_each satellites (add_and_relate name "Satellite" "FROM_SATELLITE")
   ++ for_each parameters (add_and_relate name "Parameter" "PROVIDES")
   ++ for_each data_formats (add_and_relate name "DataFormat" "AVAILABLE_IN_FORMAT")
   ++ [ AddEntity "Institution" [("name", "ISRO"); ("type", "Space Agency")];
        AddRelationship "DataProduct" [("name", name)] "Institution" [("name", "ISRO")]
                        "PRODUCED_BY" ])%list.

End Ingest.

(* ===================================================================== *)
(** ** Further notions in which properties are stated *)
(* ===================================================================== *)

Module Notions.
Import NLU.

(** The entries of a mapping whose label is an entity kind of the schema. *)
Definition known_part (d : list (string * string)) : list (string * string) :=
  filter (fun kv => in_list (fst kv) known_entity_labels) d.

(** What a candidate does to the known part of the mapping. *)
Definition keep_known_step (d : list (string * string)) (e : entity)
  : list (string * string) :=
  if in_list (label e) known_entity_labels then dict_set (label e) (text e) d else d.

(** The eleven intents. *)
Definition intent_names : list string :=
  [ "get_download_info"; "get_data_format"; "get_time_resolution";
    "get_spatial_resolution"; "get_applications"; "get_services";
    "list_data_products"; "summarize_info"; "generate_use_cases"; "get_details";
    "general_query" ].

(** The intents whose branch clears the memory whenever it returns. *)
Definition clearing_intents : list string :=
  [ "list_data_products"; "get_data_format"; "get_download_info"; "get_applications";
    "get_services"; "summarize_info"; "generate_use_cases" ].



(** A store that cannot answer: no driver, or a driver that raises or has
    no row for every query. *)
Definition unavailable (driver : option KG.session) : Prop :=
  match driver with
  | None => True
  | Some run => forall q p, run q p = Ret [] \/ exists e, run q p = Raise e
  end.

(** The calls made to the generative client. *)
Definition is_llm_call (ev : Bot.event) : bool :=
  match ev with
  | Bot.EvLLM _ => true
  | _ => false
  end.

(** A relationship map whose type and target name are strings. *)
Definition well_formed_relationship (rel : pyval) : Prop :=
  exists d t n l,
    rel = PDict d /\ dict_get "type" d = Some (PStr t)
    /\ dict_get "target_name" d = Some (PStr n) /\ dict_get "target_label" d = Some l.

(** A relationship map whose type is null, as the row of a node without
    relationship has it. *)
Definition null_typed_relationship (rel : pyval) : Prop :=
  exists d n l,
    rel = PDict d /\ dict_get "type" d = Some PNone
    /\ dict_get "target_name" d = Some n /\ dict_get "target_label" d = Some l.

(** In a list of store calls, every relationship starts at the product
    [name] and follows the call that adds its target. *)
Fixpoint relations_follow_targets (name : string) (calls : list Ingest.kg_call) : Prop :=
  match calls with
  | Ingest.AddEntity l props :: (Ingest.AddRelationship fl fp tl tp _ :: _) as rest =>
      (fl = "DataProduct" /\ fp = [("name", name)] /\ tl = l
       /\ dict_get "name" props = dict_get "name" tp)
      /\ relations_follow_targets name rest
  | Ingest.AddRelationship _ _ _ _ _ :: (Ingest.AddRelationship _ _ _ _ _ :: _) => False
  | _ :: rest => relations_follow_targets name rest
  | [] => True
  end.

(** A list of store calls that does not start with a relationship. *)
Definition entity_first (calls : list Ingest.kg_call) : Prop :=
  match calls with
  | Ingest.AddRelationship _ _ _ _ _ :: _ => False
  | _ => True
  end.

Definition count (xs : option (list string)) : nat :=
  match xs with
  | Some l => length l
  | None => 0
  end.

(** The labels that the branches of [generate_response] prefer. *)
Definition details_labels : list string :=
  [ "DataProduct"; "Satellite"; "Sensor"; "Parameter"; "ApplicationArea"; "Service";
    "Institution" ].

(** The intents whose branch only consults the store. *)
Definition store_intents : list string :=
  [ "get_details"; "list_data_products"; "get_data_format"; "get_download_info";
    "get_applications"; "get_services" ].

End Notions.

(* ===================================================================== *)
(** ** Further collaborators used in the examples *)
(* ===================================================================== *)

Module Examples.

(** A store whose only answer is a node without relationship: the list of
    relationships holds the one map of nulls. *)
Definition lonely_store : KG.session :=
  fun _ _ =>
    Ret [ [ ("n", PDict [ ("name", PStr "Rainfall Data");
                          ("description", PStr "Gridded rainfall data derived from INSAT satellites.") ]);
            ("relationships", PList [Neo4j.null_relmap]) ] ].

(** A store whose driver raises on every query. *)
Definition broken_store : KG.session := fun _ _ => Raise CypherSyntaxError.

(** A network that answers every request with one candidate text. *)
Definition post_answer (answer : string) : string -> pyval -> pyres Bot.response :=
  fun _ _ =>
    Ret (Bot.mk_response 200
           (Ret (PDict [ ("candidates",
                          PList [ PDict [ ("content",
                                           PDict [ ("parts",
                                                    PList [PDict [("text", PStr answer)]]) ]) ] ]) ]))).

(** A network that answers with a server error. *)
Definition post_server_error : string -> pyval -> pyres Bot.response :=
  fun _ _ => Ret (Bot.mk_response 503 (Ret PNone)).

End Examples.

(* ===================================================================== *)
(** ** Properties of the insertion-ordered dictionaries *)
(* ===================================================================== *)

Section DictFacts.
Context {V : Type}.
Implicit Types (d : list (string * V)) (k : string) (v : V).

Lemma dict_get_set_same k v d : dict_get k (dict_set k v d) = Some v.
Proof.
  induction d as [|[k' v'] d IH]; simpl.
  - now rewrite String.eqb_refl.
  - destruct (String.eqb k' k) eqn:E; simpl.
    + now rewrite String.eqb_refl.
    + now rewrite E.
Qed.

Lemma dict_get_set_other k k' v d :
  k <> k' -> dict_get k' (dict_set k v d) = dict_get k' d.
Proof.
  intros Hne. induction d as [|[k0 v0] d IH]; simpl.
  - destruct (String.eqb_spec k k'); [contradiction | reflexivity].
  - destruct (String.eqb_spec k0 k) as [->|Hk0]; simpl.
    + destruct (String.eqb_spec k k'); [contradiction | reflexivity].
    + destruct (String.eqb_spec k0 k'); [reflexivity | exact IH].
Qed.

Lemma keys_dict_set k v d :
  keys (dict_set k v d) = if in_list k (keys d) then keys d else (keys d ++ [k])%list.
Proof.
  unfold keys, in_list. induction d as [|[k0 v0] d IH]; simpl; [reflexivity|].
  rewrite (String.eqb_sym k k0).
  destruct (String.eqb_spec k0 k) as [->|Hk0]; simpl; [reflexivity|].
  rewrite IH. now destruct (existsb (String.eqb k) (map fst d)).
Qed.

Lemma in_list_In (x : string) (xs : list string) : in_list x xs = true <-> In x xs.
Proof.
  unfold in_list. rewrite existsb_exists. split.
  - intros [y [Hy E]]. apply String.eqb_eq in E. now subst.
  - intros H. exists x. split; [assumption | apply String.eqb_refl].
Qed.

Lemma in_list_not_In (x : string) (xs : list string) : in_list x xs = false <-> ~ In x xs.
Proof.
  rewrite <- in_list_In. destruct (in_list x xs); split; intros; congruence.
Qed.

Lemma NoDup_keys_dict_set k v d : NoDup (keys d) -> NoDup (keys (dict_set k v d)).
Proof.
  intros Hd. rewrite keys_dict_set.
  destruct (in_list k (keys d)) eqn:E; [assumption|].
  apply in_list_not_In in E.
  apply NoDup_app; repeat split; auto.
  - constructor; [intros [] | constructor].
  - intros x Hx [Hx'|[]]. subst. contradiction.
Qed.
End DictFacts.

(* ===================================================================== *)
(** ** The extractor: what the two scanning loops collect *)
(* ===================================================================== *)

Section ScanFacts.
Import NLU.
Variable nlp : string -> list (string * string).

Lemma fold_left_invariant {A B} (P : A -> Prop) (f : A -> B -> A) (l : list B) :
  forall a, P a -> (forall a x, In x l -> P a -> P (f a x)) -> P (fold_left f l a).
Proof.
  induction l as [|x l IH]; simpl; intros a Ha Hstep; [assumption|].
  apply IH; [apply Hstep; auto | intros; apply Hstep; auto].
Qed.

(** The first loop keeps the spans with a retained label, in order. *)
Lemma fold_ner_step (spans : list (string * string)) (acc : list entity) :
  fold_left ner_step spans acc
  = (acc ++ map (fun e => mk_entity (fst e) (snd e) "NER")
                (filter (fun e => in_list (snd e) ner_labels) spans))%list.
Proof.
  revert acc. induction spans as [|e spans IH]; intros acc; cbn [fold_left filter].
  - cbn [map]. now rewrite app_nil_r.
  - rewrite IH. unfold ner_step.
    destruct (in_list (snd e) ner_labels); cbn [map]; [|reflexivity].
    rewrite <- app_assoc. reflexivity.
Qed.

Lemma ner_entities_eq (txt : string) :
  ner_entities nlp txt
  = map (fun e => mk_entity (fst e) (snd e) "NER")
        (filter (fun e => in_list (snd e) ner_labels) (nlp (lower txt))).
Proof. unfold ner_entities. now rewrite fold_ner_step. Qed.

Lemma ner_entities_shape (txt : string) (e : entity) :
  In e (ner_entities nlp txt) ->
  type e = "NER" /\ in_list (label e) ner_labels = true.
Proof.
  rewrite ner_entities_eq, in_map_iff. intros [[t l] [<- Hin]].
  apply filter_In in Hin. simpl in *. tauto.
Qed.

(** The second loop, entry by entry. *)
Lemma fold_keyword_step (low : string) (table : list (string * string)) (acc : scan) :
  fold_left (keyword_step low) table acc
  = mk_scan
      (s_entities acc ++ map Spec.keyword_entity (filter (Spec.entity_keyword low) table))
      (s_intents acc ++ map snd (filter (Spec.is_signal low) table))
      (s_keywords acc ++ map fst (filter (Spec.is_unclassified low) table)).
Proof.
  revert acc.
  induction table as [|kv table IH]; intros [ents ints kws]; cbn [fold_left filter].
  - cbn. now rewrite !app_nil_r.
  - rewrite IH. unfold keyword_step, Spec.entity_keyword, Spec.is_signal, Spec.is_unclassified.
    destruct (str_in (fst kv) low); cbn [andb]; [|reflexivity].
    destruct (startswith "Query_" (snd kv)); cbn [andb negb].
    + cbn [s_entities s_intents s_keywords map]. now rewrite <- app_assoc.
    + destruct (in_list (snd kv) known_entity_labels);
        cbn [s_entities s_intents s_keywords map negb]; now rewrite <- app_assoc.
Qed.

(** Every label of the table is an intent signal or a known entity kind. *)
Lemma table_labels_classified :
  forallb (fun kv => startswith "Query_" (snd kv)
                     || in_list (snd kv) known_entity_labels) mosdac_keywords = true.
Proof. vm_compute. reflexivity. Qed.

Lemma no_unclassified_keyword (low : string) :
  filter (Spec.is_unclassified low) mosdac_keywords = [].
Proof.
  assert (H := table_labels_classified). rewrite forallb_forall in H.
  induction mosdac_keywords as [|kv table IH]; [reflexivity|].
  simpl. assert (Hkv := H kv (or_introl eq_refl)).
  rewrite IH by (intros x Hx; apply H; now right).
  unfold Spec.is_unclassified.
  destruct (startswith "Query_" (snd kv)), (in_list (snd kv) known_entity_labels);
    simpl in *; try discriminate; now rewrite ?andb_false_r.
Qed.

Lemma scan_keywords_eq (txt : string) :
  scan_keywords nlp txt
  = mk_scan
      (ner_entities nlp txt
       ++ map Spec.keyword_entity (filter (Spec.entity_keyword (lower txt)) mosdac_keywords))
      (map snd (filter (Spec.is_signal (lower txt)) mosdac_keywords))
      [].
Proof.
  unfold scan_keywords. rewrite fold_keyword_step, no_unclassified_keyword. reflexivity.
Qed.

(** A candidate is a recognised span or a keyword of a known kind. *)
Lemma candidate_shape (txt : string) (e : entity) :
  In e (s_entities (scan_keywords nlp txt)) ->
  (type e = "NER" /\ in_list (label e) ner_labels = true)
  \/ (type e = "Keyword" /\ in_list (label e) known_entity_labels = true).
Proof.
  rewrite scan_keywords_eq. cbn [s_entities]. rewrite in_app_iff. intros [H|H].
  - left. now apply ner_entities_shape with (txt := txt).
  - right. apply in_map_iff in H as [kv [<- Hkv]].
    apply filter_In in Hkv as [_ Hkv]. unfold Spec.entity_keyword in Hkv.
    apply andb_true_iff in Hkv as [_ Hkv]. now split.
Qed.
End ScanFacts.

(* ===================================================================== *)
(** ** The extractor: the mapping from labels to names *)
(* ===================================================================== *)

Section RefineFacts.
Import NLU.

Lemma find_app {A} (p : A -> bool) (l1 l2 : list A) :
  find p (l1 ++ l2) = match find p l1 with Some x => Some x | None => find p l2 end.
Proof.
  induction l1 as [|x l1 IH]; simpl; [reflexivity|].
  now destruct (p x).
Qed.

Lemma find_none_iff {A} (p : A -> bool) (l : list A) :
  find p l = None <-> forall x, In x l -> p x = false.
Proof.
  induction l as [|y l IH]; simpl.
  - split; [intros _ x [] | reflexivity].
  - destruct (p y) eqn:E.
    + split; [discriminate|]. intros H. specialize (H y (or_introl eq_refl)). congruence.
    + rewrite IH. split.
      * intros H x [<-|Hx]; auto.
      * intros H x Hx. apply H. now right.
Qed.

(** A retained recogniser label is not an entity kind of the schema. *)
Lemma ner_label_not_known (l : string) :
  in_list l ner_labels = true -> in_list l known_entity_labels = false.
Proof.
  intros H. apply in_list_In in H. simpl in H.
  repeat (destruct H as [<-|H]; [vm_compute; reflexivity|]). destruct H.
Qed.

(** One step of the third loop, seen from a known label. *)
Lemma refine_step_get (u : list (string * string)) (e : entity) (l : string) :
  in_list l known_entity_labels = true ->
  dict_get l (refine_step u e) = if label e =? l then Some (text e) else dict_get l u.
Proof.
  intros Hl. unfold refine_step.
  destruct (String.eqb_spec (label e) l) as [->|Hne].
  - rewrite Hl. apply dict_get_set_same.
  - destruct (in_list (label e) known_entity_labels);
      [now apply dict_get_set_other|].
    destruct ((type e =? "NER") && negb (in_list (text e) (values u))); [|reflexivity].
    destruct (negb (is_specific_overlap u (text e))); [|reflexivity].
    now apply dict_get_set_other.
Qed.

(** The last candidate scanned with a known label decides its name. *)
Lemma refine_fold_get (ents : list entity) (l : string) :
  in_list l known_entity_labels = true ->
  forall u,
    dict_get l (fold_left refine_step ents u)
    = match Spec.last_with_label l ents with
      | Some t => Some t
      | None => dict_get l u
      end.
Proof.
  intros Hl. unfold Spec.last_with_label.
  induction ents as [|e ents IH]; intros u; simpl; [reflexivity|].
  rewrite IH, find_app, refine_step_get by assumption. simpl.
  destruct (find (fun e0 => label e0 =? l) (rev ents)); simpl; [reflexivity|].
  now destruct (label e =? l).
Qed.

Lemma refine_step_NoDup (u : list (string * string)) (e : entity) :
  NoDup (keys u) -> NoDup (keys (refine_step u e)).
Proof.
  intros H. unfold refine_step.
  repeat match goal with
         | |- context [if ?b then _ else _] => destruct b
         end; auto using NoDup_keys_dict_set.
Qed.

Lemma no_overlap_without_known_key (u : list (string * string)) (t : string) :
  Spec.no_known_key u -> is_specific_overlap u t = false.
Proof.
  intros H. unfold is_specific_overlap.
  destruct (existsb _ u) eqn:E; [|reflexivity].
  apply existsb_exists in E as [[k v] [Hin E]]. cbn [fst snd] in E.
  apply andb_true_iff in E as [_ E].
  rewrite (H k) in E; [discriminate|].
  unfold keys. apply in_map_iff. now exists (k, v).
Qed.

Lemma refine_step_ner (u : list (string * string)) (e : entity) :
  type e = "NER" -> in_list (label e) ner_labels = true -> Spec.no_known_key u ->
  refine_step u e = Spec.add_unless_mapped u e /\ Spec.no_known_key (refine_step u e).
Proof.
  intros Ht Hl Hu. pose proof (ner_label_not_known _ Hl) as Hk.
  assert (E : refine_step u e = Spec.add_unless_mapped u e).
  { unfold refine_step, Spec.add_unless_mapped.
    rewrite Hk, Ht, (no_overlap_without_known_key u (text e) Hu). simpl.
    now destruct (in_list (text e) (values u)). }
  split; [exact E|]. rewrite E. unfold Spec.add_unless_mapped.
  destruct (in_list (text e) (values u)); [exact Hu|].
  intros k Hin. rewrite keys_dict_set in Hin.
  destruct (in_list (label e) (keys u)); [now apply Hu|].
  apply in_app_iff in Hin as [Hin|[<-|[]]]; [now apply Hu | exact Hk].
Qed.

Lemma refine_fold_ner (ents : list entity) :
  (forall e, In e ents -> type e = "NER" /\ in_list (label e) ner_labels = true) ->
  forall u, Spec.no_known_key u ->
    fold_left refine_step ents u = fold_left Spec.add_unless_mapped ents u.
Proof.
  induction ents as [|e ents IH]; intros Hents u Hu; simpl; [reflexivity|].
  destruct (Hents e (or_introl eq_refl)) as [Ht Hl].
  destruct (refine_step_ner u e Ht Hl Hu) as [E Hu'].
  rewrite <- E. apply IH; [|exact Hu']. intros x Hx. apply Hents. now right.
Qed.
End RefineFacts.

(* ===================================================================== *)
(** ** The extractor: intent resolution *)
(* ===================================================================== *)

Section IntentFacts.
Import NLU.

Lemma existsb_same_on {A} (p q : A -> bool) (l : list A) :
  (forall x, In x l -> p x = q x) -> existsb p l = existsb q l.
Proof.
  induction l as [|x l IH]; intros H; simpl; [reflexivity|].
  rewrite (H x (or_introl eq_refl)), IH; [reflexivity|].
  intros y Hy. apply H. now right.
Qed.

Lemma filter_nil_iff {A} (p : A -> bool) (l : list A) :
  filter p l = [] <-> forall x, In x l -> p x = false.
Proof.
  induction l as [|y l IH]; simpl.
  - split; [intros _ x [] | reflexivity].
  - destruct (p y) eqn:E.
    + split; [discriminate|]. intros H. specialize (H y (or_introl eq_refl)). congruence.
    + rewrite IH. split.
      * intros H x [<-|Hx]; auto.
      * intros H x Hx. apply H. now right.
Qed.

Lemma keyword_matches_nil (txt : string) :
  Spec.keyword_matches txt = [] ->
  forall kv, In kv mosdac_keywords -> str_in (fst kv) (lower txt) = false.
Proof. unfold Spec.keyword_matches. now rewrite filter_nil_iff. Qed.

(** The chain of tests is the search through the priority order. *)
Lemma chain_follows_priority (signals : list string) (candidates : list entity) :
  (forall e, In e candidates -> in_list (type e) KG_SCHEMA_nodes = false) ->
  upgrade_intent (intent_chain signals) candidates
  = Spec.resolve_main_intent signals candidates.
Proof.
  intros Htypes.
  unfold Spec.resolve_main_intent, Spec.priority_order, Spec.signal_present, intent_chain.
  cbn [find fst snd existsb]. rewrite !orb_false_r.
  repeat match goal with
         | |- context [in_list ?s signals] =>
             destruct (in_list s signals); [vm_compute; reflexivity|]
         end.
  cbn [orb]. unfold upgrade_intent. rewrite String.eqb_refl.
  rewrite (existsb_same_on _ (fun e => in_list (label e) KG_SCHEMA_nodes)); [reflexivity|].
  intros e He. rewrite (Htypes e He). apply orb_false_r.
Qed.

Lemma candidate_type_not_kind (nlp : string -> list (string * string)) (txt : string)
      (e : entity) :
  In e (s_entities (scan_keywords nlp txt)) -> in_list (type e) KG_SCHEMA_nodes = false.
Proof.
  intros H. destruct (candidate_shape nlp txt e H) as [[-> _]|[-> _]];
    vm_compute; reflexivity.
Qed.

(** Every intent signal of the table has a place in the priority order. *)
Lemma table_signals_ordered :
  forallb (fun kv => negb (startswith "Query_" (snd kv))
                     || in_list (snd kv) (concat (map fst Spec.priority_order)))
          mosdac_keywords = true.
Proof. vm_compute. reflexivity. Qed.

Lemma fired_signal_ordered (nlp : string -> list (string * string)) (txt s : string) :
  In s (s_intents (scan_keywords nlp txt)) ->
  exists entry, In entry Spec.priority_order /\ In s (fst entry).
Proof.
  rewrite scan_keywords_eq. cbn [s_intents]. rewrite in_map_iff.
  intros [kv [<- Hkv]]. apply filter_In in Hkv as [Hin Hsig].
  unfold Spec.is_signal in Hsig. apply andb_true_iff in Hsig as [_ Hq].
  pose proof table_signals_ordered as H. rewrite forallb_forall in H.
  specialize (H kv Hin). rewrite Hq in H. cbn [negb orb] in H.
  apply in_list_In in H. apply in_concat in H as [sigs [Hsigs Hs]].
  apply in_map_iff in Hsigs as [entry [<- Hentry]]. now exists entry.
Qed.

Lemma no_ordered_signal_iff (nlp : string -> list (string * string)) (txt : string) :
  find (Spec.signal_present (s_intents (scan_keywords nlp txt))) Spec.priority_order = None
  <-> s_intents (scan_keywords nlp txt) = [].
Proof.
  split.
  - intros H. rewrite find_none_iff in H.
    destruct (s_intents (scan_keywords nlp txt)) as [|s rest] eqn:E; [reflexivity|].
    destruct (fired_signal_ordered nlp txt s) as [entry [Hentry Hs]];
      [rewrite E; now left|].
    specialize (H entry Hentry). unfold Spec.signal_present in H.
    assert (Ht : existsb (fun x => in_list x (s :: rest)) (fst entry) = true).
    { apply existsb_exists. exists s. split; [exact Hs|].
      apply in_list_In. now left. }
    congruence.
  - intros ->. vm_compute. reflexivity.
Qed.
End IntentFacts.

(* ===================================================================== *)
(** ** Claims about the extractor *)
(* ===================================================================== *)

(** C6.  For every text, [main_intent] is the intent of the first signal
    present in the order download, format, time resolution, spatial
    resolution, applications, services, list of products, summarize, use
    cases, details; no signal of that order is present exactly when no
    signal fired, and then the intent is [general_query], raised to
    [get_details] exactly when the label of some candidate entity is a known
    entity kind.  In particular "What data products does MOSDAC provide?"
    resolves to [list_data_products], whatever the recogniser tags. *)
Theorem main_intent_follows_priority_order :
  forall (nlp : string -> list (string * string)) (txt : string),
    let sc := NLU.scan_keywords nlp txt in
    NLU.main_intent (NLU.process_query nlp txt)
    = Spec.resolve_main_intent (NLU.s_intents sc) (NLU.s_entities sc)
    /\ (find (Spec.signal_present (NLU.s_intents sc)) Spec.priority_order = None
        <-> NLU.s_intents sc = [])
    /\ NLU.main_intent (NLU.process_query nlp "What data products does MOSDAC provide?")
       = "list_data_products".
Proof.
  intros nlp txt sc. split; [|split].
  - unfold NLU.process_query. cbn [NLU.main_intent]. fold sc.
    apply chain_follows_priority. intros e He.
    now apply candidate_type_not_kind with (nlp := nlp) (txt := txt).
  - apply no_ordered_signal_iff.
  - unfold NLU.process_query. cbn [NLU.main_intent].
    rewrite scan_keywords_eq. cbn [NLU.s_intents NLU.s_entities].
    vm_compute. reflexivity.
Qed.

(** C8.  A text in which no entry of the keyword table occurs and in which
    the recogniser finds no retained span has intent [general_query] and an
    empty mapping of entities. *)
Theorem no_match_gives_general_query :
  forall (nlp : string -> list (string * string)) (txt : string),
    Spec.keyword_matches txt = [] ->
    NLU.ner_entities nlp txt = [] ->
    NLU.main_intent (NLU.process_query nlp txt) = "general_query"
    /\ NLU.entities (NLU.process_query nlp txt) = [].
Proof.
  intros nlp txt Hkw Hner.
  pose proof (keyword_matches_nil txt Hkw) as Hno.
  assert (He : filter (Spec.entity_keyword (lower txt)) NLU.mosdac_keywords = []).
  { apply filter_nil_iff. intros kv Hin. unfold Spec.entity_keyword.
    now rewrite (Hno kv Hin). }
  assert (Hs : filter (Spec.is_signal (lower txt)) NLU.mosdac_keywords = []).
  { apply filter_nil_iff. intros kv Hin. unfold Spec.is_signal.
    now rewrite (Hno kv Hin). }
  unfold NLU.process_query. cbn [NLU.main_intent NLU.entities].
  rewrite scan_keywords_eq, Hner, He, Hs.
  split; reflexivity.
Qed.

(** The empty text, with a recogniser that finds nothing in it. *)
Lemma no_match_gives_general_query_witness :
  Spec.keyword_matches "" = []
  /\ NLU.ner_entities Fixtures.nlp_none "" = []
  /\ NLU.main_intent (NLU.process_query Fixtures.nlp_none "") = "general_query"
  /\ NLU.entities (NLU.process_query Fixtures.nlp_none "") = [].
Proof.
  split; [reflexivity|]. split; [reflexivity|].
  apply (no_match_gives_general_query Fixtures.nlp_none ""); reflexivity.
Defined.

(** C10.  For every text the [keywords] field is the empty list: each label
    of the keyword table that is not an intent signal is a known entity
    kind, so no keyword is ever left unclassified. *)
Theorem keywords_field_is_empty :
  (forall (nlp : string -> list (string * string)) (txt : string),
      NLU.keywords (NLU.process_query nlp txt) = [])
  /\ (forall kv,
        In kv NLU.mosdac_keywords ->
        startswith "Query_" (snd kv) = false ->
        in_list (snd kv) NLU.known_entity_labels = true).
Proof.
  split.
  - intros nlp txt. unfold NLU.process_query. cbn [NLU.keywords].
    now rewrite scan_keywords_eq.
  - intros kv Hin Hq. pose proof table_labels_classified as H.
    rewrite forallb_forall in H. specialize (H kv Hin).
    now rewrite Hq in H.
Qed.

Section MappingFacts.
Import NLU.
Variable nlp : string -> list (string * string).

Lemma keyword_candidates_known (low : string) (e : entity) :
  In e (map Spec.keyword_entity (filter (Spec.entity_keyword low) mosdac_keywords)) ->
  in_list (label e) known_entity_labels = true.
Proof.
  rewrite in_map_iff. intros [kv [<- Hkv]]. apply filter_In in Hkv as [_ Hkv].
  unfold Spec.entity_keyword in Hkv. now apply andb_true_iff in Hkv as [_ Hkv].
Qed.

(** Candidates with a known label leave the other labels alone. *)
Lemma refine_fold_other (ents : list entity) (l : string) :
  (forall e, In e ents -> in_list (label e) known_entity_labels = true) ->
  in_list l known_entity_labels = false ->
  forall u, dict_get l (fold_left refine_step ents u) = dict_get l u.
Proof.
  intros Hents Hl. induction ents as [|e ents IH]; intros u; simpl; [reflexivity|].
  rewrite IH by (intros x Hx; apply Hents; now right).
  unfold refine_step. rewrite (Hents e (or_introl eq_refl)).
  apply dict_get_set_other. intros E. rewrite <- E in Hl.
  rewrite (Hents e (or_introl eq_refl)) in Hl. discriminate.
Qed.

Lemma last_with_label_ner (txt l : string) :
  in_list l known_entity_labels = true ->
  Spec.last_with_label l (ner_entities nlp txt) = None.
Proof.
  intros Hl. unfold Spec.last_with_label.
  destruct (find _ (rev (ner_entities nlp txt))) as [e|] eqn:E; [|reflexivity].
  apply find_some in E as [Hin E]. apply in_rev in Hin.
  apply ner_entities_shape in Hin as [_ Hner].
  apply String.eqb_eq in E. subst l.
  rewrite (ner_label_not_known _ Hner) in Hl. discriminate.
Qed.

Lemma last_with_label_app (l : string) (a b : list entity) :
  Spec.last_with_label l (a ++ b)
  = match Spec.last_with_label l b with
    | Some t => Some t
    | None => Spec.last_with_label l a
    end.
Proof.
  unfold Spec.last_with_label. rewrite rev_app_distr, find_app.
  now destruct (find _ (rev b)).
Qed.

(** The mapping: the recognised spans first, each added unless its text is
    already mapped, then the keyword matches in table order. *)
Lemma entities_eq (txt : string) :
  entities (process_query nlp txt)
  = fold_left refine_step
      (map Spec.keyword_entity (filter (Spec.entity_keyword (lower txt)) mosdac_keywords))
      (fold_left Spec.add_unless_mapped (ner_entities nlp txt) []).
Proof.
  unfold process_query. cbn [entities]. rewrite scan_keywords_eq. cbn [s_entities].
  rewrite fold_left_app. f_equal. apply refine_fold_ner.
  - intros e He. now apply ner_entities_shape with (nlp := nlp) (txt := txt).
  - intros k [].
Qed.

Lemma raw_entities_eq (txt : string) :
  raw_entities (process_query nlp txt)
  = (ner_entities nlp txt
     ++ map Spec.keyword_entity
          (filter (Spec.entity_keyword (lower txt)) mosdac_keywords))%list.
Proof.
  unfold process_query. cbn [raw_entities]. now rewrite scan_keywords_eq.
Qed.

Lemma entities_NoDup (txt : string) : NoDup (keys (entities (process_query nlp txt))).
Proof.
  unfold process_query. cbn [entities].
  apply fold_left_invariant; [constructor|].
  intros u e _. apply refine_step_NoDup.
Qed.

(** A candidate of type NER is a retained span: its label is not an entity
    kind of the schema. *)
Lemma ner_candidate_label (txt : string) (e : entity) :
  In e (raw_entities (process_query nlp txt)) -> type e = "NER" ->
  in_list (label e) known_entity_labels = false.
Proof.
  rewrite raw_entities_eq, in_app_iff. intros [H|H] Ht.
  - apply ner_entities_shape in H as [_ Hl]. now apply ner_label_not_known.
  - apply in_map_iff in H as [kv [<- _]]. discriminate Ht.
Qed.

Lemma entities_known_label (txt l : string) :
  in_list l known_entity_labels = true ->
  dict_get l (entities (process_query nlp txt))
  = Spec.last_with_label l
      (map Spec.keyword_entity (filter (Spec.entity_keyword (lower txt)) mosdac_keywords)).
Proof.
  intros Hl. unfold process_query. cbn [entities].
  rewrite scan_keywords_eq. cbn [s_entities].
  rewrite refine_fold_get by assumption.
  rewrite last_with_label_app, last_with_label_ner by assumption.
  now destruct (Spec.last_with_label l _).
Qed.

Lemma entities_other_label (txt l : string) :
  in_list l known_entity_labels = false ->
  dict_get l (entities (process_query nlp txt))
  = dict_get l (fold_left Spec.add_unless_mapped (ner_entities nlp txt) []).
Proof.
  intros Hl. rewrite entities_eq. apply refine_fold_other; [|assumption].
  intros e He. now apply keyword_candidates_known with (low := lower txt).
Qed.
End MappingFacts.

(** C7, as the code has it.  For every text the mapping holds one name per
    label; the candidates are the retained spans followed by the keyword
    matches in table order, and under a known entity kind the mapping holds
    the last candidate scanned, so a later table entry overwrites an earlier
    one with the same label.  A recognised span is added under its own label
    only if its text is not yet a mapped value and no value mapped under a
    known entity kind is a substring of its text; otherwise the mapping is
    left as it is. *)
Theorem entities_mapping_shape :
  forall (nlp : string -> list (string * string)) (txt : string),
    NoDup (keys (NLU.entities (NLU.process_query nlp txt)))
    /\ NLU.raw_entities (NLU.process_query nlp txt)
       = (NLU.ner_entities nlp txt
          ++ map Spec.keyword_entity
               (filter (Spec.entity_keyword (lower txt)) NLU.mosdac_keywords))%list
    /\ (forall l,
          in_list l NLU.known_entity_labels = true ->
          dict_get l (NLU.entities (NLU.process_query nlp txt))
          = Spec.last_with_label l
              (map Spec.keyword_entity
                   (filter (Spec.entity_keyword (lower txt)) NLU.mosdac_keywords)))
    /\ (forall pre e post,
          NLU.raw_entities (NLU.process_query nlp txt) = (pre ++ e :: post)%list ->
          NLU.type e = "NER" ->
          let u := fold_left NLU.refine_step pre [] in
          NLU.refine_step u e
          = if in_list (NLU.text e) (values u) || NLU.is_specific_overlap u (NLU.text e)
            then u
            else dict_set (NLU.label e) (NLU.text e) u).
Proof.
  intros nlp txt. split; [|split; [|split]].
  - apply entities_NoDup.
  - apply raw_entities_eq.
  - intros l Hl. now apply entities_known_label.
  - intros pre e post Hraw Ht u.
    assert (Hk : in_list (NLU.label e) NLU.known_entity_labels = false).
    { apply ner_candidate_label with (nlp := nlp) (txt := txt); [|exact Ht].
      rewrite Hraw. apply in_elt. }
    unfold NLU.refine_step. rewrite Hk, Ht, String.eqb_refl. cbn [andb].
    destruct (in_list (NLU.text e) (values u)); cbn [negb orb]; [reflexivity|].
    now destruct (NLU.is_specific_overlap u (NLU.text e)).
Qed.

(** The second span of a recogniser that tags "india" and then "india
    meteorological department". *)
Lemma entities_mapping_shape_witness :
  NLU.refine_step [("GPE", "india")]
    (NLU.mk_entity "india meteorological department" "ORG" "NER")
  = [("GPE", "india"); ("ORG", "india meteorological department")].
Proof.
  exact (proj2 (proj2 (proj2
           (entities_mapping_shape Fixtures.nlp_india
              "india and india meteorological department")))
           [NLU.mk_entity "india" "GPE" "NER"]
           (NLU.mk_entity "india meteorological department" "ORG" "NER")
           [] eq_refl eq_refl).
Defined.

(** C7, as stated, fails: the recogniser tags "india" and then "india
    meteorological department"; when the second span is scanned the first
    is already mapped and is a substring of it, yet the second is added. *)
Lemma ner_span_added_despite_mapped_substring :
  let r := NLU.process_query Fixtures.nlp_india "india and india meteorological department" in
  NLU.raw_entities r
  = [ NLU.mk_entity "india" "GPE" "NER";
      NLU.mk_entity "india meteorological department" "ORG" "NER" ]
  /\ fold_left NLU.refine_step [NLU.mk_entity "india" "GPE" "NER"] [] = [("GPE", "india")]
  /\ str_in "india" "india meteorological department" = true
  /\ NLU.entities r = [("GPE", "india"); ("ORG", "india meteorological department")].
Proof. vm_compute. repeat split. Qed.

(* ===================================================================== *)
(** ** The generative client *)
(* ===================================================================== *)

Section ClientFacts.
Variable requests_post : string -> pyval -> pyres Bot.response.

(** The [try] statement never lets an exception through. *)
Lemma gemini_request_returns (url : string) (payload : pyval) :
  exists v, Bot.gemini_request requests_post url payload = Ret v.
Proof.
  unfold Bot.gemini_request.
  destruct (Bot.gemini_try requests_post url payload) as [v|e]; [now exists v|].
  destruct e; eexists; reflexivity.
Qed.

(** A failed request, whatever the failure, gives the connectivity apology. *)
Lemma gemini_request_network_failure (url : string) (payload : pyval) (why : request_error) :
  requests_post url payload = Raise (RequestException why) ->
  Bot.gemini_request requests_post url payload = Ret (PStr Bot.connectivity_apology).
Proof.
  intros H. unfold Bot.gemini_request, Bot.gemini_try. now rewrite H.
Qed.

(** So does a status in the 4xx and 5xx ranges. *)
Lemma gemini_request_bad_status (url : string) (payload : pyval) (r : Bot.response) :
  requests_post url payload = Ret r ->
  (400 <= Bot.status_code r < 600)%Z ->
  Bot.gemini_request requests_post url payload = Ret (PStr Bot.connectivity_apology).
Proof.
  intros H Hs. unfold Bot.gemini_request, Bot.gemini_try, Bot.raise_for_status.
  rewrite H. cbn [bind].
  replace ((400 <=? Bot.status_code r)%Z && (Bot.status_code r <? 600)%Z) with true;
    [reflexivity|].
  symmetry. apply andb_true_iff. split; [apply Z.leb_le | apply Z.ltb_lt]; lia.
Qed.

(** A body without candidates gives the fixed "couldn't generate" text. *)
Lemma gemini_request_no_candidates (url : string) (payload : pyval) (d : list (string * pyval)) :
  requests_post url payload = Ret (Bot.mk_response 200 (Ret (PDict d))) ->
  dict_get "candidates" d = None ->
  Bot.gemini_request requests_post url payload = Ret (PStr Bot.unexpected_format_message).
Proof.
  intros H Hd. unfold Bot.gemini_request, Bot.gemini_try.
  rewrite H. cbn. now rewrite Hd.
Qed.
End ClientFacts.

(** C1, on the code.  [_call_gemini_llm] raises [AttributeError] for every
    prompt, key and network: a list has no [push], and the call comes
    before the [try] statement that turns failures into apologies. *)
Theorem call_gemini_llm_raises :
  forall (requests_post : string -> pyval -> pyres Bot.response) (prompt api_key : string),
    Bot._call_gemini_llm requests_post prompt api_key = Raise AttributeError.
Proof. intros. reflexivity. Qed.

(* ===================================================================== *)
(** ** The dialogue engine *)
(* ===================================================================== *)

Ltac break_outcome :=
  repeat match goal with
         | H : (_, _) = (_, _) |- _ => inversion H; subst; clear H
         | H : context [match ?x with _ => _ end] |- _ => destruct x eqn:?
         end; try discriminate.

Section EngineFacts.
Variable nlp : string -> list (string * string).
Variable driver : option KG.session.
Variable llm : string -> pyres pyval.

Lemma list_data_products_clears (bot bot' : Bot.ISROBot) (r : string) :
  Bot.handle_list_data_products driver bot = (Ret r, bot') ->
  Bot.memory bot' = (PNone, PNone).
Proof. unfold Bot.handle_list_data_products. cbv zeta. intros H. break_outcome; reflexivity. Qed.

Lemma get_data_format_clears (ents : list (string * string)) (bot bot' : Bot.ISROBot)
      (r : string) :
  Bot.handle_get_data_format driver ents bot = (Ret r, bot') ->
  Bot.memory bot' = (PNone, PNone).
Proof. unfold Bot.handle_get_data_format. cbv zeta. intros H. break_outcome; reflexivity. Qed.

Lemma get_download_info_clears (ents : list (string * string)) (bot bot' : Bot.ISROBot)
      (r : string) :
  Bot.handle_get_download_info driver ents bot = (Ret r, bot') ->
  Bot.memory bot' = (PNone, PNone).
Proof. unfold Bot.handle_get_download_info. cbv zeta. intros H. break_outcome; reflexivity. Qed.

Lemma get_applications_clears (ents : list (string * string)) (bot bot' : Bot.ISROBot)
      (r : string) :
  Bot.handle_get_applications driver ents bot = (Ret r, bot') ->
  Bot.memory bot' = (PNone, PNone).
Proof. unfold Bot.handle_get_applications. cbv zeta. intros H. break_outcome; reflexivity. Qed.

Lemma get_services_clears (ents : list (string * string)) (bot bot' : Bot.ISROBot)
      (r : string) :
  Bot.handle_get_services driver ents bot = (Ret r, bot') ->
  Bot.memory bot' = (PNone, PNone).
Proof. unfold Bot.handle_get_services. cbv zeta. intros H. break_outcome; reflexivity. Qed.

Lemma summarize_info_clears (bot bot' : Bot.ISROBot) (r : string) :
  Bot.handle_summarize_info llm bot = (Ret r, bot') ->
  Bot.memory bot' = (PNone, PNone).
Proof. unfold Bot.handle_summarize_info. cbv zeta. intros H. break_outcome; reflexivity. Qed.

Lemma generate_use_cases_clears (ents : list (string * string)) (bot bot' : Bot.ISROBot)
      (r : string) :
  Bot.handle_generate_use_cases driver llm ents bot = (Ret r, bot') ->
  Bot.memory bot' = (PNone, PNone).
Proof. unfold Bot.handle_generate_use_cases. cbv zeta. intros H. break_outcome; reflexivity. Qed.

(** After [get_details] the memory holds the description and the name
    when the lookup gave a description, and nothing otherwise. *)
Lemma get_details_memory (ents : list (string * string)) (bot bot' : Bot.ISROBot)
      (r : string) :
  Bot.handle_get_details driver ents bot = (Ret r, bot') ->
  Bot.memory bot'
  = match Bot.named (Bot.find_primary_entity ents
                       ["DataProduct"; "Satellite"; "Sensor"; "Parameter";
                        "ApplicationArea"; "Service"; "Institution"]) with
    | Some (name, l) =>
        match KG.get_entity_details driver name (Some l) with
        | Ret (Some d) =>
            let description := Bot.dict_get_default "description" (KG.node d) PNone in
            if truthy description
            then (description, Bot.dict_get_default "name" (KG.node d) (PStr name))
            else (PNone, PNone)
        | _ => (PNone, PNone)
        end
    | None => (PNone, PNone)
    end.
Proof.
  unfold Bot.handle_get_details. cbv zeta. intros H.
  destruct (Bot.named _) as [[name l]|]; [|now inversion H].
  destruct (KG.get_entity_details driver name (Some l)) as [[d|]|e];
    [| now inversion H | now inversion H].
  destruct (Bot.related_information (KG.relationships d)); [|now inversion H].
  inversion H; subst; clear H.
  now destruct (truthy (Bot.dict_get_default "description" (KG.node d) PNone)).
Qed.
End EngineFacts.

(** C9.  When the extractor classifies the text as [get_time_resolution] or
    [get_spatial_resolution], [generate_response] takes no branch: it
    returns the default "I'm sorry, I couldn't find information..." text and
    the bot is as before, so the memory is unchanged and no call to the
    store (or to the client) was made. *)
Theorem resolution_intents_fall_through :
  forall (nlp : string -> list (string * string)) (driver : option KG.session)
         (llm : string -> pyres pyval) (txt : string) (bot : Bot.ISROBot),
    NLU.main_intent (NLU.process_query nlp txt) = "get_time_resolution"
    \/ NLU.main_intent (NLU.process_query nlp txt) = "get_spatial_resolution" ->
    Bot.generate_response_with nlp driver llm txt bot = (Ret Bot.default_response, bot).
Proof.
  intros nlp driver llm txt bot H.
  unfold Bot.generate_response_with. cbv zeta.
  destruct H as [-> | ->]; reflexivity.
Qed.

(** A question about time resolution, put to a bot that remembers a
    description. *)
Lemma resolution_intents_fall_through_witness :
  NLU.main_intent
    (NLU.process_query Fixtures.nlp_none "what is the time resolution of insat-3d")
  = "get_time_resolution"
  /\ Bot.generate_response Fixtures.nlp_none (Some Fixtures.one_product_store)
       Fixtures.post_timeout "what is the time resolution of insat-3d"
       Fixtures.bot_after_details
     = (Ret Bot.default_response, Fixtures.bot_after_details).
Proof.
  split; [reflexivity|].
  apply (resolution_intents_fall_through Fixtures.nlp_none (Some Fixtures.one_product_store)
           (fun prompt => Bot._call_gemini_llm Fixtures.post_timeout prompt "")
           "what is the time resolution of insat-3d" Fixtures.bot_after_details).
  left. reflexivity.
Defined.

(** C2, as the code has it.  When [generate_response] returns, the memory
    depends on the intent: for the eight intents with a branch it holds the
    description and name of the entity when the intent is [get_details] and
    the lookup gave a non-empty description, and [(None, None)] otherwise;
    for any other intent it is what it was before the call. *)
Theorem memory_after_response :
  forall (nlp : string -> list (string * string)) (driver : option KG.session)
         (llm : string -> pyres pyval) (txt : string) (bot bot' : Bot.ISROBot) (r : string),
    Bot.generate_response_with nlp driver llm txt bot = (Ret r, bot') ->
    Bot.memory bot'
    = if in_list (NLU.main_intent (NLU.process_query nlp txt)) Spec.handled_intents
      then Spec.memory_for nlp driver txt
      else Bot.memory bot.
Proof.
  intros nlp driver llm txt bot bot' r.
  unfold Bot.generate_response_with, Spec.memory_for. cbv zeta.
  remember (NLU.main_intent (NLU.process_query nlp txt)) as i eqn:Hi.
  remember (NLU.entities (NLU.process_query nlp txt)) as ents eqn:Hents.
  unfold in_list, Spec.handled_intents. cbn [existsb].
  destruct (i =? "get_details") eqn:E1.
  { intros H. cbn [orb]. now apply get_details_memory with (r := r) (bot := bot). }
  destruct (i =? "list_data_products") eqn:E2.
  { intros H. cbn [orb]. now apply list_data_products_clears in H. }
  destruct (i =? "get_data_format") eqn:E3.
  { intros H. cbn [orb]. now apply get_data_format_clears in H. }
  destruct (i =? "get_download_info") eqn:E4.
  { intros H. cbn [orb]. now apply get_download_info_clears in H. }
  destruct (i =? "get_applications") eqn:E5.
  { intros H. cbn [orb]. now apply get_applications_clears in H. }
  destruct (i =? "get_services") eqn:E6.
  { intros H. cbn [orb]. now apply get_services_clears in H. }
  destruct (i =? "summarize_info") eqn:E7.
  { intros H. cbn [orb]. now apply summarize_info_clears in H. }
  destruct (i =? "generate_use_cases") eqn:E8.
  { intros H. cbn [orb]. now apply generate_use_cases_clears in H. }
  intros H. cbn [orb]. now inversion H.
Qed.

(** A successful [get_details] on a fresh bot. *)
Lemma memory_after_response_witness :
  let out := Bot.generate_response Fixtures.nlp_none (Some Fixtures.one_product_store)
               Fixtures.post_timeout "Tell me about sea surface temperature data"
               Fixtures.fresh_bot in
  (exists r, out = (Ret r, snd out))
  /\ Bot.memory (snd out)
     = (PStr "Global daily sea surface temperature anomaly data.",
        PStr "Sea Surface Temperature").
Proof.
  intros out.
  assert (E : exists r, out = (Ret r, snd out)) by (eexists; vm_compute; reflexivity).
  split; [exact E|]. destruct E as [r E].
  rewrite (memory_after_response Fixtures.nlp_none (Some Fixtures.one_product_store)
             (fun prompt => Bot._call_gemini_llm Fixtures.post_timeout prompt "")
             "Tell me about sea surface temperature data" Fixtures.fresh_bot (snd out) r E).
  vm_compute. reflexivity.
Defined.

(** C2, as stated, fails: "hello there" has intent [general_query], the
    engine returns its default text, and a memory that held a description
    still holds it. *)
Lemma memory_kept_on_general_query :
  let out := Bot.generate_response Fixtures.nlp_none None Fixtures.post_timeout
               "hello there" Fixtures.bot_after_details in
  NLU.main_intent (NLU.process_query Fixtures.nlp_none "hello there") = "general_query"
  /\ fst out = Ret Bot.default_response
  /\ Bot.memory (snd out)
     = (PStr "Global daily sea surface temperature anomaly data.",
        PStr "Sea Surface Temperature")
  /\ Bot.memory (snd out) <> (PNone, PNone).
Proof. vm_compute. repeat split. discriminate. Qed.

(** C3, as the code has it.  When the intent is [summarize_info], the
    memory holds content and the call to the client returns the
    connectivity apology, [generate_response] returns the summary heading
    for the remembered name followed by that apology, and both memory
    fields are [None] afterwards. *)
Theorem summarize_with_apology :
  forall (nlp : string -> list (string * string)) (driver : option KG.session)
         (llm : string -> pyres pyval) (txt : string) (bot : Bot.ISROBot),
    NLU.main_intent (NLU.process_query nlp txt) = "summarize_info" ->
    truthy (Bot.last_detailed_response_content bot) = true ->
    llm (Bot.summarize_prompt (Bot.last_detailed_entity_name bot)
                              (Bot.last_detailed_response_content bot))
    = Ret (PStr Bot.connectivity_apology) ->
    let out := Bot.generate_response_with nlp driver llm txt bot in
    fst out = Ret (Bot.summary_header (Bot.last_detailed_entity_name bot)
                   ++ Bot.connectivity_apology)
    /\ Bot.memory (snd out) = (PNone, PNone).
Proof.
  intros nlp driver llm txt bot Hi Hc Hllm.
  unfold Bot.generate_response_with. cbv zeta. rewrite Hi.
  change ("summarize_info" =? "get_details") with false.
  change ("summarize_info" =? "list_data_products") with false.
  change ("summarize_info" =? "get_data_format") with false.
  change ("summarize_info" =? "get_download_info") with false.
  change ("summarize_info" =? "get_applications") with false.
  change ("summarize_info" =? "get_services") with false.
  change ("summarize_info" =? "summarize_info") with true.
  cbv iota. unfold Bot.handle_summarize_info. cbv zeta.
  rewrite Hc, Hllm. split; reflexivity.
Qed.

(** The request part of the client on a network where every request times
    out, asked to summarize a remembered description. *)
Lemma summarize_with_apology_witness :
  let out := Bot.generate_response_with Fixtures.nlp_none None Fixtures.llm_timeout
               "summarize that" Fixtures.bot_after_details in
  fst out = Ret (Bot.summary_header (PStr "Sea Surface Temperature")
                 ++ Bot.connectivity_apology)
  /\ Bot.memory (snd out) = (PNone, PNone).
Proof.
  apply (summarize_with_apology Fixtures.nlp_none None Fixtures.llm_timeout
           "summarize that" Fixtures.bot_after_details); reflexivity.
Defined.

(** C3, as stated, fails.  With the request part of the client timing out,
    the response to "summarize that" is the summary heading followed by the
    apology, not the apology alone; and with the client of the class the
    call raises before any request is made, the memory being left as it
    was. *)
Lemma summarize_after_timeout_is_not_the_bare_apology :
  let out := Bot.generate_response_with Fixtures.nlp_none None Fixtures.llm_timeout
               "summarize that" Fixtures.bot_after_details in
  let out' := Bot.generate_response Fixtures.nlp_none None Fixtures.post_timeout
                "summarize that" Fixtures.bot_after_details in
  NLU.main_intent (NLU.process_query Fixtures.nlp_none "summarize that") = "summarize_info"
  /\ truthy (Bot.last_detailed_response_content Fixtures.bot_after_details) = true
  /\ fst out = Ret (Bot.summary_header (PStr "Sea Surface Temperature")
                    ++ Bot.connectivity_apology)
  /\ fst out <> Ret Bot.connectivity_apology
  /\ fst out' = Raise AttributeError
  /\ Bot.memory (snd out') = Bot.memory Fixtures.bot_after_details.
Proof. vm_compute. repeat split. discriminate. Qed.

Section RainfallQuery.
Variable nlp : string -> list (string * string).

(** Whatever the recogniser tags, the text asks for use cases and names
    the data product "rainfall data". *)
Lemma rainfall_query_extraction :
  NLU.main_intent (NLU.process_query nlp "generate use cases for rainfall data")
  = "generate_use_cases"
  /\ dict_get "DataProduct"
       (NLU.entities (NLU.process_query nlp "generate use cases for rainfall data"))
     = Some "rainfall data".
Proof.
  split.
  - unfold NLU.process_query. cbn [NLU.main_intent].
    rewrite scan_keywords_eq. cbn [NLU.s_intents NLU.s_entities].
    vm_compute. reflexivity.
  - rewrite entities_known_label by reflexivity. vm_compute. reflexivity.
Qed.
End RainfallQuery.

(** The heading of a use-case answer never is the "please specify" text. *)
Lemma use_case_answer_is_not_the_fallback (name rest : string) :
  Bot.use_case_header name ++ rest <> Bot.please_specify_use_cases.
Proof.
  unfold Bot.use_case_header, sparkles, Bot.please_specify_use_cases.
  cbn [chr append]. intros H. apply (f_equal (fun s => String.get 0 s)) in H.
  cbn [String.get] in H. discriminate H.
Qed.

(** C4, as the code has it.  For "generate use cases for rainfall data" the
    extractor names the data product "rainfall data", so the engine does not
    take the "please specify" branch.  When the store has no matching entity
    it builds the prompt with the context "data related to rainfall data"
    and calls the client with it, for every client: the calls made are the
    lookup and then the client, and the answer is not the "please specify"
    text.  When the client returns a text the answer is the use-case heading
    followed by it, the memory being cleared; when the client raises, the
    exception goes through after the call and the memory is left as it was,
    which with the client of the class is what always happens. *)
Theorem rainfall_use_cases_call_the_client :
  forall (nlp : string -> list (string * string)) (driver : option KG.session)
         (llm : string -> pyres pyval) (bot : Bot.ISROBot),
    KG.get_entity_details driver "rainfall data" (Some "DataProduct") = Ret None ->
    let prompt :=
      Bot.use_case_prompt "rainfall data" "DataProduct" "data related to rainfall data" in
    let called :=
      Bot.log (Bot.EvLLM prompt)
        (Bot.log (Bot.EvDetails "rainfall data" (Some "DataProduct")) bot) in
    let out :=
      Bot.generate_response_with nlp driver llm "generate use cases for rainfall data" bot in
    Bot.calls (snd out)
    = (Bot.calls bot
       ++ [Bot.EvDetails "rainfall data" (Some "DataProduct"); Bot.EvLLM prompt])%list
    /\ fst out <> Ret Bot.please_specify_use_cases
    /\ out = match llm prompt with
             | Ret answer =>
                 (Ret (Bot.use_case_header "rainfall data" ++ py_str answer),
                  Bot.clear_memory called)
             | Raise e => (Raise e, called)
             end
    /\ (forall requests_post : string -> pyval -> pyres Bot.response,
          Bot.generate_response nlp driver requests_post
            "generate use cases for rainfall data" bot
          = (Raise AttributeError, called)).
Proof.
  intros nlp driver llm bot Hkg prompt called out.
  assert (Hout : forall client : string -> pyres pyval,
             Bot.generate_response_with nlp driver client
               "generate use cases for rainfall data" bot
             = match client prompt with
               | Ret answer =>
                   (Ret (Bot.use_case_header "rainfall data" ++ py_str answer),
                    Bot.clear_memory called)
               | Raise e => (Raise e, called)
               end).
  { intros client. destruct (rainfall_query_extraction nlp) as [Hi Hdp].
    unfold Bot.generate_response_with. cbv zeta. rewrite Hi.
    change ("generate_use_cases" =? "get_details") with false.
    change ("generate_use_cases" =? "list_data_products") with false.
    change ("generate_use_cases" =? "get_data_format") with false.
    change ("generate_use_cases" =? "get_download_info") with false.
    change ("generate_use_cases" =? "get_applications") with false.
    change ("generate_use_cases" =? "get_services") with false.
    change ("generate_use_cases" =? "summarize_info") with false.
    change ("generate_use_cases" =? "generate_use_cases") with true.
    cbv iota. unfold Bot.handle_generate_use_cases, Bot.find_primary_entity.
    cbn [Bot.first_preferred]. rewrite Hdp. cbv zeta.
    change (Bot.named (Some ("rainfall data", "DataProduct")))
      with (Some ("rainfall data", "DataProduct")).
    cbv iota beta. rewrite Hkg.
    change (truthy PNone) with false. cbv iota.
    change ("data related to " ++ "rainfall data") with "data related to rainfall data".
    reflexivity. }
  assert (Hcalls : Bot.calls called
                   = (Bot.calls bot
                      ++ [Bot.EvDetails "rainfall data" (Some "DataProduct");
                          Bot.EvLLM prompt])%list).
  { unfold called, Bot.log. cbn [Bot.calls]. rewrite <- app_assoc. reflexivity. }
  repeat split.
  - unfold out. rewrite Hout. destruct (llm prompt); exact Hcalls.
  - unfold out. rewrite Hout. destruct (llm prompt) as [answer|e]; cbn [fst].
    + intros H. apply (use_case_answer_is_not_the_fallback "rainfall data" (py_str answer)).
      congruence.
    + discriminate.
  - exact (Hout llm).
  - intros requests_post. unfold Bot.generate_response. rewrite Hout. reflexivity.
Qed.

(** An empty store and a client that answers. *)
Lemma rainfall_use_cases_call_the_client_witness :
  KG.get_entity_details (Some Fixtures.empty_store) "rainfall data" (Some "DataProduct")
  = Ret None
  /\ Bot.generate_response_with Fixtures.nlp_none (Some Fixtures.empty_store)
       (Fixtures.llm_fixed "- flood warning") "generate use cases for rainfall data"
       Fixtures.fresh_bot
     = (Ret (Bot.use_case_header "rainfall data" ++ "- flood warning"),
        Bot.clear_memory
          (Bot.log (Bot.EvLLM (Bot.use_case_prompt "rainfall data" "DataProduct"
                                 "data related to rainfall data"))
             (Bot.log (Bot.EvDetails "rainfall data" (Some "DataProduct"))
                Fixtures.fresh_bot))).
Proof.
  assert (Hkg : KG.get_entity_details (Some Fixtures.empty_store) "rainfall data"
                  (Some "DataProduct") = Ret None) by reflexivity.
  split; [exact Hkg|].
  destruct (rainfall_use_cases_call_the_client Fixtures.nlp_none
              (Some Fixtures.empty_store) (Fixtures.llm_fixed "- flood warning")
              Fixtures.fresh_bot Hkg) as (_ & _ & Hout & _).
  exact Hout.
Defined.

(** C4, as stated, fails.  On an empty store the response to "generate use
    cases for rainfall data" is not the "please specify" text, and the calls
    made are the lookup and then the client, with the prompt about
    "rainfall data". *)
Lemma rainfall_use_cases_reach_the_client :
  let out := Bot.generate_response Fixtures.nlp_none (Some Fixtures.empty_store)
               Fixtures.post_timeout "generate use cases for rainfall data"
               Fixtures.fresh_bot in
  let out' := Bot.generate_response_with Fixtures.nlp_none (Some Fixtures.empty_store)
                (Fixtures.llm_fixed "- flood warning")
                "generate use cases for rainfall data" Fixtures.fresh_bot in
  KG.get_entity_details (Some Fixtures.empty_store) "rainfall data" (Some "DataProduct")
  = Ret None
  /\ fst out <> Ret Bot.please_specify_use_cases
  /\ Bot.calls (snd out)
     = [ Bot.EvDetails "rainfall data" (Some "DataProduct");
         Bot.EvLLM (Bot.use_case_prompt "rainfall data" "DataProduct"
                      "data related to rainfall data") ]
  /\ fst out' = Ret (Bot.use_case_header "rainfall data" ++ "- flood warning")
  /\ fst out' <> Ret Bot.please_specify_use_cases
  /\ Bot.calls (snd out') = Bot.calls (snd out).
Proof. vm_compute. repeat split; discriminate. Qed.

(* ===================================================================== *)
(** ** The store adapter *)
(* ===================================================================== *)

(** C5, on the code.  With a label argument the query text carries the
    literal [{label}] in place of the label, for every label; the database
    refuses that text, [_execute_query] turns the refusal into an empty
    result, and [get_entity_details] returns [None] although the store has
    an entity whose name contains the query string: the same lookup without
    a label finds it, with its neighbours. *)
Theorem get_entity_details_with_label_finds_nothing :
  (forall l : string,
      KG.match_clause (Some l) = if truthy_str l then "(n:{label})" else "(n)")
  /\ Neo4j.parse_details_query (KG.details_query (Some "DataProduct")) = None
  /\ KG.get_entity_details (Some (Neo4j.run Neo4j.demo_graph))
       "Sea Surface Temperature" (Some "DataProduct") = Ret None
  /\ KG.get_entity_details (Some (Neo4j.run Neo4j.demo_graph))
       "Sea Surface Temperature" None
     = Ret (Some (KG.mk_details
                    [ ("name", PStr "Sea Surface Temperature");
                      ("description", PStr "Global daily sea surface temperature anomaly data.");
                      ("coverage", PStr "Global"); ("update_frequency", PStr "Daily");
                      ("link", PStr "https://mosdac.gov.in/data/sst") ]
                    (PList
                       [ PDict [ ("type", PStr "PROVIDES");
                                 ("target_name", PStr "Temperature");
                                 ("target_label", PStr "Parameter");
                                 ("relationship_props", PDict []) ];
                         PDict [ ("type", PStr "FROM_SATELLITE");
                                 ("target_name", PStr "INSAT-3D");
                                 ("target_label", PStr "Satellite");
                                 ("relationship_props", PDict []) ];
                         PDict [ ("type", PStr "HAS_TIME_RESOLUTION");
                                 ("target_name", PNone);
                                 ("target_label", PStr "TimeResolution");
                                 ("relationship_props", PDict []) ] ]))).
Proof.
  split; [|vm_compute; repeat split].
  intros l. reflexivity.
Qed.

(* ===================================================================== *)
(** ** Further properties of the extractor *)
(* ===================================================================== *)

Section KnownPartFacts.
Import NLU.

Lemma dict_get_known_part (d : list (string * string)) (l : string) :
  in_list l known_entity_labels = true ->
  dict_get l (Notions.known_part d) = dict_get l d.
Proof.
  intros Hl. induction d as [|[k v] d IH]; [reflexivity|].
  cbn [Notions.known_part filter fst]. fold (Notions.known_part d).
  destruct (in_list k known_entity_labels) eqn:Ek; cbn [dict_get].
  - now rewrite IH.
  - destruct (String.eqb_spec k l) as [->|_]; [congruence | exact IH].
Qed.

Lemma find_known_part (d : list (string * string)) :
  find (fun kv => in_list (fst kv) KG_SCHEMA_nodes) (Notions.known_part d)
  = find (fun kv => in_list (fst kv) KG_SCHEMA_nodes) d.
Proof.
  induction d as [|[k v] d IH]; [reflexivity|].
  cbn [Notions.known_part filter fst find]. fold (Notions.known_part d).
  change known_entity_labels with KG_SCHEMA_nodes.
  destruct (in_list k KG_SCHEMA_nodes) eqn:Ek; cbn [find fst]; rewrite ?Ek; [reflexivity|].
  exact IH.
Qed.

Lemma first_preferred_known_part (d : list (string * string)) (prefs : list string) :
  forallb (fun l => in_list l known_entity_labels) prefs = true ->
  Bot.first_preferred (Notions.known_part d) prefs = Bot.first_preferred d prefs.
Proof.
  induction prefs as [|l prefs IH]; intros H; [reflexivity|].
  cbn [forallb] in H. apply andb_true_iff in H as [Hl H].
  cbn [Bot.first_preferred]. rewrite (dict_get_known_part d l Hl), (IH H). reflexivity.
Qed.

(** [find_primary_entity] only looks at the entries with a known label. *)
Lemma find_primary_entity_known_part (d : list (string * string)) (prefs : list string) :
  forallb (fun l => in_list l known_entity_labels) prefs = true ->
  Bot.find_primary_entity (Notions.known_part d) prefs = Bot.find_primary_entity d prefs.
Proof.
  intros H. unfold Bot.find_primary_entity.
  now rewrite (first_preferred_known_part d prefs H), find_known_part.
Qed.

Lemma known_part_dict_set (k v : string) (d : list (string * string)) :
  Notions.known_part (dict_set k v d)
  = if in_list k known_entity_labels
    then dict_set k v (Notions.known_part d)
    else Notions.known_part d.
Proof.
  induction d as [|[k0 v0] d IH].
  - cbn. now destruct (in_list k known_entity_labels).
  - cbn [dict_set]. destruct (String.eqb_spec k0 k) as [->|Hne].
    + cbn [Notions.known_part filter fst]. fold (Notions.known_part d).
      destruct (in_list k known_entity_labels); [|reflexivity].
      cbn [dict_set]. now rewrite String.eqb_refl.
    + cbn [Notions.known_part filter fst].
      fold (Notions.known_part d). fold (Notions.known_part (dict_set k v d)).
      rewrite IH.
      destruct (in_list k0 known_entity_labels), (in_list k known_entity_labels);
        try reflexivity.
      cbn [dict_set]. destruct (String.eqb_spec k0 k); [contradiction | reflexivity].
Qed.

Lemma known_part_refine_step (u : list (string * string)) (e : entity) :
  Notions.known_part (refine_step u e) = Notions.keep_known_step (Notions.known_part u) e.
Proof.
  unfold refine_step, Notions.keep_known_step.
  destruct (in_list (label e) known_entity_labels) eqn:E.
  - now rewrite known_part_dict_set, E.
  - destruct ((type e =? "NER") && negb (in_list (text e) (values u))); [|reflexivity].
    destruct (negb (is_specific_overlap u (text e))); [|reflexivity].
    now rewrite known_part_dict_set, E.
Qed.

Lemma known_part_refine_fold (ents : list entity) :
  forall u,
    Notions.known_part (fold_left refine_step ents u)
    = fold_left Notions.keep_known_step ents (Notions.known_part u).
Proof.
  induction ents as [|e ents IH]; intros u; [reflexivity|].
  cbn [fold_left]. now rewrite IH, known_part_refine_step.
Qed.

Lemma keep_known_fold_ner (nlp : string -> list (string * string)) (txt : string) :
  forall d, fold_left Notions.keep_known_step (ner_entities nlp txt) d = d.
Proof.
  assert (H : forall e, In e (ner_entities nlp txt) ->
                        in_list (label e) known_entity_labels = false).
  { intros e He. apply ner_entities_shape in He as [_ Hl]. now apply ner_label_not_known. }
  induction (ner_entities nlp txt) as [|e ents IH]; intros d; [reflexivity|].
  cbn [fold_left]. unfold Notions.keep_known_step at 2.
  rewrite (H e (or_introl eq_refl)). apply IH. intros x Hx. apply H. now right.
Qed.

(** The known part of the mapping is built from the keyword matches alone. *)
Lemma known_part_entities (nlp : string -> list (string * string)) (txt : string) :
  Notions.known_part (entities (process_query nlp txt))
  = fold_left Notions.keep_known_step
      (map Spec.keyword_entity (filter (Spec.entity_keyword (lower txt)) mosdac_keywords))
      [].
Proof.
  unfold process_query. cbn [entities]. rewrite scan_keywords_eq. cbn [s_entities].
  rewrite known_part_refine_fold, fold_left_app, keep_known_fold_ner. reflexivity.
Qed.

Lemma existsb_ner_false (nlp : string -> list (string * string)) (txt : string) :
  existsb (fun ent_info => in_list (label ent_info) KG_SCHEMA_nodes
                           || in_list (type ent_info) KG_SCHEMA_nodes)
          (ner_entities nlp txt) = false.
Proof.
  destruct (existsb _ (ner_entities nlp txt)) eqn:E; [|reflexivity].
  apply existsb_exists in E as [e [He E]].
  apply ner_entities_shape in He as [Ht Hl].
  rewrite Ht in E. apply ner_label_not_known in Hl.
  change known_entity_labels with KG_SCHEMA_nodes in Hl. rewrite Hl in E.
  vm_compute in E. discriminate.
Qed.

(** The intent is decided by the keyword table alone. *)
Lemma main_intent_eq (nlp : string -> list (string * string)) (txt : string) :
  main_intent (process_query nlp txt)
  = upgrade_intent
      (intent_chain (map snd (filter (Spec.is_signal (lower txt)) mosdac_keywords)))
      (map Spec.keyword_entity (filter (Spec.entity_keyword (lower txt)) mosdac_keywords)).
Proof.
  unfold process_query. cbn [main_intent]. rewrite scan_keywords_eq.
  cbn [s_intents s_entities]. unfold upgrade_intent.
  now rewrite existsb_app, existsb_ner_false.
Qed.
End KnownPartFacts.

Section HandlerKnownPart.
Variable driver : option KG.session.
Variable llm : string -> pyres pyval.

Lemma handle_get_details_known_part (d : list (string * string)) (bot : Bot.ISROBot) :
  Bot.handle_get_details driver (Notions.known_part d) bot
  = Bot.handle_get_details driver d bot.
Proof.
  unfold Bot.handle_get_details.
  now rewrite find_primary_entity_known_part by reflexivity.
Qed.

Lemma handle_get_data_format_known_part (d : list (string * string)) (bot : Bot.ISROBot) :
  Bot.handle_get_data_format driver (Notions.known_part d) bot
  = Bot.handle_get_data_format driver d bot.
Proof.
  unfold Bot.handle_get_data_format.
  now rewrite find_primary_entity_known_part by reflexivity.
Qed.

Lemma handle_get_download_info_known_part (d : list (string * string)) (bot : Bot.ISROBot) :
  Bot.handle_get_download_info driver (Notions.known_part d) bot
  = Bot.handle_get_download_info driver d bot.
Proof.
  unfold Bot.handle_get_download_info.
  now rewrite find_primary_entity_known_part by reflexivity.
Qed.

Lemma handle_get_applications_known_part (d : list (string * string)) (bot : Bot.ISROBot) :
  Bot.handle_get_applications driver (Notions.known_part d) bot
  = Bot.handle_get_applications driver d bot.
Proof.
  unfold Bot.handle_get_applications.
  now rewrite find_primary_entity_known_part by reflexivity.
Qed.

Lemma handle_get_services_known_part (d : list (string * string)) (bot : Bot.ISROBot) :
  Bot.handle_get_services driver (Notions.known_part d) bot
  = Bot.handle_get_services driver d bot.
Proof.
  unfold Bot.handle_get_services.
  now rewrite dict_get_known_part by reflexivity.
Qed.

Lemma handle_generate_use_cases_known_part (d : list (string * string)) (bot : Bot.ISROBot) :
  Bot.handle_generate_use_cases driver llm (Notions.known_part d) bot
  = Bot.handle_generate_use_cases driver llm d bot.
Proof.
  unfold Bot.handle_generate_use_cases.
  now rewrite find_primary_entity_known_part by reflexivity.
Qed.
End HandlerKnownPart.

(** X1.  The spans of the recogniser never change what the bot does: for
    every text, store, client and bot, [generate_response] with any
    recogniser gives the outcome it gives with a recogniser that finds
    nothing.  The intent and the entity handed to a branch come from the
    keyword table alone. *)
Theorem recogniser_is_irrelevant :
  forall (nlp : string -> list (string * string)) (driver : option KG.session)
         (llm : string -> pyres pyval) (txt : string) (bot : Bot.ISROBot),
    Bot.generate_response_with nlp driver llm txt bot
    = Bot.generate_response_with (fun _ => []) driver llm txt bot.
Proof.
  intros nlp driver llm txt bot.
  unfold Bot.generate_response_with. cbv zeta. rewrite !main_intent_eq.
  set (e1 := NLU.entities (NLU.process_query nlp txt)).
  set (e2 := NLU.entities (NLU.process_query (fun _ => []) txt)).
  assert (Hk : Notions.known_part e1 = Notions.known_part e2)
    by (unfold e1, e2; now rewrite !known_part_entities).
  rewrite <- (handle_get_details_known_part driver e1),
          <- (handle_get_data_format_known_part driver e1),
          <- (handle_get_download_info_known_part driver e1),
          <- (handle_get_applications_known_part driver e1),
          <- (handle_get_services_known_part driver e1),
          <- (handle_generate_use_cases_known_part driver llm e1).
  rewrite <- (handle_get_details_known_part driver e2),
          <- (handle_get_data_format_known_part driver e2),
          <- (handle_get_download_info_known_part driver e2),
          <- (handle_get_applications_known_part driver e2),
          <- (handle_get_services_known_part driver e2),
          <- (handle_generate_use_cases_known_part driver llm e2).
  rewrite Hk. reflexivity.
Qed.

Section IntentMoreFacts.
Import NLU.

Lemma upgrade_intent_cases (i : string) (ents : list entity) :
  upgrade_intent i ents = i
  \/ (i = "general_query" /\ upgrade_intent i ents = "get_details").
Proof.
  unfold upgrade_intent. destruct (String.eqb_spec i "general_query") as [->|_]; [|now left].
  destruct (existsb _ ents); [right; split; reflexivity | now left].
Qed.

Lemma intent_chain_names (signals : list string) :
  In (intent_chain signals) Notions.intent_names.
Proof.
  unfold intent_chain.
  repeat match goal with
         | |- context [in_list ?s signals] =>
             destruct (in_list s signals); [cbn; tauto|]
         end.
  cbn. tauto.
Qed.

(** A signal that fired keeps the chain away from its default. *)
Lemma intent_chain_general (signals : list string) (s : string) :
  intent_chain signals = "general_query" ->
  In s (concat (map fst Spec.priority_order)) ->
  in_list s signals = false.
Proof.
  unfold intent_chain. intros H Hs.
  repeat match type of H with
         | context [in_list ?x signals] =>
             let E := fresh "E" in
             destruct (in_list x signals) eqn:E; [cbn in H; discriminate H|]
         end.
  cbn in Hs.
  repeat (destruct Hs as [<-|Hs]; [assumption|]). destruct Hs.
Qed.

Lemma signal_fires (low : string) (kv : string * string) :
  In kv mosdac_keywords -> str_in (fst kv) low = true ->
  startswith "Query_" (snd kv) = true ->
  in_list (snd kv) (map snd (filter (Spec.is_signal low) mosdac_keywords)) = true.
Proof.
  intros Hin Hs Hq. apply in_list_In, in_map. apply filter_In. split; [exact Hin|].
  unfold Spec.is_signal. now rewrite Hs, Hq.
Qed.

Lemma keyword_entity_fires (low : string) (kv : string * string) :
  In kv mosdac_keywords -> str_in (fst kv) low = true ->
  startswith "Query_" (snd kv) = false ->
  existsb (fun e => in_list (label e) KG_SCHEMA_nodes || in_list (type e) KG_SCHEMA_nodes)
          (map Spec.keyword_entity (filter (Spec.entity_keyword low) mosdac_keywords))
  = true.
Proof.
  intros Hin Hs Hq. apply existsb_exists. exists (Spec.keyword_entity kv).
  pose proof table_labels_classified as H. rewrite forallb_forall in H.
  specialize (H kv Hin). rewrite Hq in H. cbn [orb] in H.
  split.
  - apply in_map, filter_In. split; [exact Hin|].
    unfold Spec.entity_keyword. now rewrite Hs, Hq, H.
  - cbn [Spec.keyword_entity label]. change KG_SCHEMA_nodes with known_entity_labels.
    now rewrite H.
Qed.
End IntentMoreFacts.

Lemma keyword_matches_nil_intro (txt : string) :
  (forall kv, In kv NLU.mosdac_keywords -> str_in (fst kv) (lower txt) = false) ->
  Spec.keyword_matches txt = [].
Proof. unfold Spec.keyword_matches. now rewrite filter_nil_iff. Qed.

Lemma upgrade_chain_general (signals : list string) (ents : list NLU.entity) :
  NLU.upgrade_intent (NLU.intent_chain signals) ents = "general_query" ->
  NLU.intent_chain signals = "general_query"
  /\ existsb (fun e => in_list (NLU.label e) KG_SCHEMA_nodes
                       || in_list (NLU.type e) KG_SCHEMA_nodes) ents = false.
Proof.
  unfold NLU.upgrade_intent.
  destruct (String.eqb_spec (NLU.intent_chain signals) "general_query") as [E|E].
  - rewrite E. destruct (existsb _ ents); [discriminate | now split].
  - intros H. contradiction.
Qed.

(** X2.  The intent is [general_query] exactly when no entry of the keyword
    table occurs in the lower-cased text, whatever the recogniser finds. *)
Theorem general_query_iff_no_keyword :
  forall (nlp : string -> list (string * string)) (txt : string),
    NLU.main_intent (NLU.process_query nlp txt) = "general_query"
    <-> Spec.keyword_matches txt = [].
Proof.
  intros nlp txt. rewrite main_intent_eq. split.
  - intros H. apply upgrade_chain_general in H as [Hc He].
    apply keyword_matches_nil_intro. intros kv Hin.
    destruct (str_in (fst kv) (lower txt)) eqn:Hs; [exfalso|reflexivity].
    destruct (startswith "Query_" (snd kv)) eqn:Hq.
    + pose proof (signal_fires (lower txt) kv Hin Hs Hq) as Hf.
      rewrite (intent_chain_general _ (snd kv) Hc) in Hf; [discriminate|].
      pose proof table_signals_ordered as Ho. rewrite forallb_forall in Ho.
      specialize (Ho kv Hin). rewrite Hq in Ho.
      now apply in_list_In.
    + pose proof (keyword_entity_fires (lower txt) kv Hin Hs Hq) as Hf.
      rewrite He in Hf. discriminate.
  - intros H. pose proof (keyword_matches_nil txt H) as Hno.
    assert (He : filter (Spec.entity_keyword (lower txt)) NLU.mosdac_keywords = []).
    { apply filter_nil_iff. intros kv Hin. unfold Spec.entity_keyword.
      now rewrite (Hno kv Hin). }
    assert (Hs : filter (Spec.is_signal (lower txt)) NLU.mosdac_keywords = []).
    { apply filter_nil_iff. intros kv Hin. unfold Spec.is_signal.
      now rewrite (Hno kv Hin). }
    rewrite He, Hs. reflexivity.
Qed.

(** X3.  The intent is always one of eleven names. *)
Theorem main_intent_is_one_of_eleven :
  forall (nlp : string -> list (string * string)) (txt : string),
    In (NLU.main_intent (NLU.process_query nlp txt)) Notions.intent_names.
Proof.
  intros nlp txt. rewrite main_intent_eq.
  match goal with
  | |- In (NLU.upgrade_intent ?i ?ents) _ =>
      destruct (upgrade_intent_cases i ents) as [->|[_ ->]];
        [apply intent_chain_names | cbn; tauto]
  end.
Qed.

(** X4.  A text that contains "how to download", in any letter case, has
    intent [get_download_info], whatever else it contains. *)
Theorem how_to_download_wins :
  forall (nlp : string -> list (string * string)) (txt : string),
    str_in "how to download" (lower txt) = true ->
    NLU.main_intent (NLU.process_query nlp txt) = "get_download_info".
Proof.
  intros nlp txt H. rewrite main_intent_eq.
  pose proof (signal_fires (lower txt) ("how to download", "Query_Download")) as Hf.
  cbn [fst snd] in Hf. unfold NLU.intent_chain.
  rewrite Hf; [reflexivity | | exact H | reflexivity].
  vm_compute. tauto.
Qed.

Lemma how_to_download_wins_witness :
  NLU.main_intent
    (NLU.process_query Fixtures.nlp_india
       "What is the format of rainfall data and How To Download it?")
  = "get_download_info".
Proof.
  apply (how_to_download_wins Fixtures.nlp_india
           "What is the format of rainfall data and How To Download it?").
  reflexivity.
Defined.

Section LowerCaseFacts.

(** The three ways in which [lower] treats the first character. *)
Lemma lower_cases (c : ascii) (s : string) :
  (exists s2, s = String (ascii_of_nat 176) s2 /\ c = ascii_of_nat 196
              /\ lower (String c s) = dotted_small_i ++ lower s2)
  \/ (exists s3, s = String (ascii_of_nat 132) (String (ascii_of_nat 170) s3)
                 /\ c = ascii_of_nat 226
                 /\ lower (String c s) = "k" ++ lower s3)
  \/ lower (String c s) = String (lower_ascii c) (lower s).
Proof.
  destruct s as [|c2 s2]; [right; right; reflexivity|].
  destruct (is_dotted_capital_i c c2) eqn:Ed.
  - left. unfold is_dotted_capital_i in Ed. apply andb_true_iff in Ed as [E1 E2].
    apply Ascii.eqb_eq in E1, E2. subst c c2. exists s2. repeat split.
  - destruct s2 as [|c3 s3].
    + right; right. set (r := lower (String c2 "")). cbn [lower]. rewrite Ed.
      subst r. reflexivity.
    + destruct (is_kelvin_sign c c2 c3) eqn:Ek.
      * right; left. unfold is_kelvin_sign in Ek.
        apply andb_true_iff in Ek as [Ek E3]. apply andb_true_iff in Ek as [E1 E2].
        apply Ascii.eqb_eq in E1, E2, E3. subst c c2 c3. exists s3. repeat split.
      * right; right. set (r := lower (String c2 (String c3 s3))).
        cbn [lower]. rewrite Ed, Ek. subst r. reflexivity.
Qed.




Lemma lower_ascii_idempotent (c : ascii) : lower_ascii (lower_ascii c) = lower_ascii c.
Proof. destruct c as [[] [] [] [] [] [] [] []]; reflexivity. Qed.

(** [lower_ascii] neither makes nor changes a byte outside ASCII. *)
Lemma lower_ascii_high (c b : ascii) :
  (128 <=? nat_of_ascii b)%nat = true -> lower_ascii c = b -> c = b.
Proof.
  destruct c as [[] [] [] [] [] [] [] []];
    (intros Hb <-; first [reflexivity | discriminate Hb]).
Qed.

(** A continuation byte at the head of a lower-cased text was there
    before. *)
Lemma lower_head_inv (b : ascii) (s t : string) :
  (128 <=? nat_of_ascii b)%nat = true ->
  lower s = String b t -> exists t', s = String b t' /\ t = lower t'.
Proof.
  intros Hb H. destruct s as [|c s]; [discriminate H|].
  destruct (lower_cases c s) as [(s2 & _ & _ & Hl) | [(s3 & _ & _ & Hl) | Hl]];
    rewrite Hl in H.
  - unfold dotted_small_i, chr in H. cbn [append] in H.
    apply (f_equal (String.get 0)) in H. cbn [String.get] in H.
    injection H as <-. discriminate Hb.
  - cbn [append] in H. apply (f_equal (String.get 0)) in H. cbn [String.get] in H.
    injection H as <-. discriminate Hb.
  - assert (Hc : lower_ascii c = b) by congruence.
    assert (Ht : lower s = t) by congruence.
    apply (lower_ascii_high c b Hb) in Hc. subst c. exists s. split; congruence.
Qed.

Lemma lower_idempotent_upto (n : nat) :
  forall s : string, (String.length s <= n)%nat -> lower (lower s) = lower s.
Proof.
  induction n as [|n IH]; intros s Hn.
  - destruct s; [reflexivity | cbn [String.length] in Hn; lia].
  - destruct s as [|c s]; [reflexivity|]. cbn [String.length] in Hn.
    destruct (lower_cases c s) as [(s2 & Hs & _ & Hl) | [(s3 & Hs & _ & Hl) | Hl]].
    + rewrite Hl. subst s. cbn [String.length] in Hn.
      unfold dotted_small_i, chr. cbn [append].
      destruct (lower_cases "i" (String (ascii_of_nat 204)
                                   (String (ascii_of_nat 135) (lower s2))))
        as [(? & _ & Hc & _) | [(? & _ & Hc & _) | ->]]; try discriminate Hc.
      destruct (lower_cases (ascii_of_nat 204) (String (ascii_of_nat 135) (lower s2)))
        as [(? & _ & Hc & _) | [(? & _ & Hc & _) | ->]]; try discriminate Hc.
      destruct (lower_cases (ascii_of_nat 135) (lower s2))
        as [(? & _ & Hc & _) | [(? & _ & Hc & _) | ->]]; try discriminate Hc.
      rewrite (IH s2) by lia. reflexivity.
    + rewrite Hl. subst s. cbn [String.length] in Hn. cbn [append].
      destruct (lower_cases "k" (lower s3))
        as [(? & _ & Hc & _) | [(? & _ & Hc & _) | ->]]; try discriminate Hc.
      rewrite (IH s3) by lia. reflexivity.
    + rewrite Hl.
      destruct (lower_cases (lower_ascii c) (lower s))
        as [(t & Ht & Hc & _) | [(t & Ht & Hc & _) | ->]].
      * exfalso. apply lower_ascii_high in Hc; [|reflexivity].
        apply lower_head_inv in Ht as (t' & -> & _); [|reflexivity].
        subst c. cbn in Hl. discriminate Hl.
      * exfalso. apply lower_ascii_high in Hc; [|reflexivity].
        apply lower_head_inv in Ht as (t' & -> & Ht); [|reflexivity].
        symmetry in Ht. apply lower_head_inv in Ht as (t'' & -> & _); [|reflexivity].
        subst c. cbn in Hl. discriminate Hl.
      * rewrite lower_ascii_idempotent, (IH s) by lia. reflexivity.
Qed.

Lemma lower_idempotent (s : string) : lower (lower s) = lower s.
Proof. exact (lower_idempotent_upto (String.length s) s (le_n _)). Qed.

(** The Kelvin sign and the dotted capital I in front of a keyword. *)
Lemma lower_of_the_two_signs :
  lower (chr 226 ++ chr 132 ++ chr 170 ++ "ALPANA-1") = "kalpana-1"
  /\ lower (chr 196 ++ chr 176 ++ "NSAT-3D") = "i" ++ chr 204 ++ chr 135 ++ "nsat-3d".
Proof. split; reflexivity. Qed.



End LowerCaseFacts.





Section RelationshipScanFacts.
Import NLU.

Lemma fold_relationship_step (low : string) (rels acc : list string) :
  fold_left (relationship_step low) rels acc
  = (acc ++ filter (fun r => str_in (replace_char "_" " " (lower r)) low) rels)%list.
Proof.
  revert acc. induction rels as [|r rels IH]; intros acc; cbn [fold_left filter].
  - now rewrite app_nil_r.
  - rewrite IH. unfold relationship_step.
    destruct (str_in (replace_char "_" " " (lower r)) low); [|reflexivity].
    now rewrite <- app_assoc.
Qed.

Lemma found_relationships_eq (nlp : string -> list (string * string)) (txt : string) :
  found_relationships (process_query nlp txt)
  = filter (fun r => str_in (replace_char "_" " " (lower r)) (lower txt))
           KG_SCHEMA_relationships.
Proof.
  unfold process_query. cbn [found_relationships].
  now rewrite fold_relationship_step.
Qed.
End RelationshipScanFacts.

(** X7.  [found_relationships] lists, without repetition, exactly the
    relationship kinds of the schema whose name, with underscores read as
    spaces, occurs in the text in any letter case. *)
Theorem found_relationships_are_the_phrases_present :
  forall (nlp : string -> list (string * string)) (txt : string),
    NoDup (NLU.found_relationships (NLU.process_query nlp txt))
    /\ (forall r,
          In r (NLU.found_relationships (NLU.process_query nlp txt))
          <-> In r KG_SCHEMA_relationships
              /\ str_in (replace_char "_" " " (lower r)) (lower txt) = true).
Proof.
  intros nlp txt. rewrite found_relationships_eq. split.
  - apply NoDup_filter.
    repeat (constructor; [cbn; intuition discriminate|]). constructor.
  - intros r. rewrite filter_In. reflexivity.
Qed.

Section PrimaryEntityFacts.
Import NLU.

Lemma find_by_key (p : string -> bool) (d : list (string * string)) (l v : string) :
  find (fun kv => p (fst kv)) d = Some (l, v) -> dict_get l d = Some v /\ p l = true.
Proof.
  induction d as [|[k v0] d IH]; cbn [find fst dict_get]; [discriminate|].
  destruct (p k) eqn:Ep.
  - intros H. inversion H; subst. now rewrite String.eqb_refl.
  - intros H. destruct (IH H) as [Hg Hp]. split; [|exact Hp].
    destruct (String.eqb_spec k l) as [->|_]; [congruence | exact Hg].
Qed.

Lemma first_preferred_sound (d : list (string * string)) (prefs : list string)
      (n l : string) :
  Bot.first_preferred d prefs = Some (n, l) -> dict_get l d = Some n /\ In l prefs.
Proof.
  induction prefs as [|p prefs IH]; cbn [Bot.first_preferred]; [discriminate|].
  destruct (dict_get p d) as [name|] eqn:E.
  - intros H. inversion H; subst. split; [exact E | now left].
  - intros H. destruct (IH H). split; [assumption | now right].
Qed.

(** What [find_primary_entity] returns is an entry of the mapping, under a
    preferred label or an entity kind of the schema. *)
Lemma find_primary_entity_sound (d : list (string * string)) (prefs : list string)
      (n l : string) :
  Bot.find_primary_entity d prefs = Some (n, l) ->
  dict_get l d = Some n /\ (In l prefs \/ in_list l KG_SCHEMA_nodes = true).
Proof.
  unfold Bot.find_primary_entity.
  destruct (Bot.first_preferred d prefs) as [[n0 l0]|] eqn:E.
  - intros H. inversion H; subst. apply first_preferred_sound in E as [? ?]. tauto.
  - destruct (find _ d) as [[l0 n0]|] eqn:F; [|discriminate].
    intros H. inversion H; subst.
    apply (find_by_key (fun k => in_list k KG_SCHEMA_nodes)) in F as [? ?]. tauto.
Qed.

Lemma last_with_label_some (l t : string) (ents : list entity) :
  Spec.last_with_label l ents = Some t ->
  exists e, In e ents /\ label e = l /\ text e = t.
Proof.
  unfold Spec.last_with_label.
  destruct (find _ (rev ents)) as [e|] eqn:E; [|discriminate].
  cbn [option_map]. intros H. inversion H; subst.
  apply find_some in E as [Hin E]. apply in_rev in Hin. apply String.eqb_eq in E.
  now exists e.
Qed.

(** A name mapped under an entity kind of the schema is a keyword of the
    table, with that label, that occurs in the text. *)
Lemma known_entry_is_table_row (nlp : string -> list (string * string))
      (txt l n : string) :
  in_list l known_entity_labels = true ->
  dict_get l (entities (process_query nlp txt)) = Some n ->
  In (n, l) mosdac_keywords /\ str_in n (lower txt) = true.
Proof.
  intros Hl H. rewrite entities_known_label in H by assumption.
  apply last_with_label_some in H as [e [Hin [<- <-]]].
  apply in_map_iff in Hin as [[k s] [<- Hkv]].
  apply filter_In in Hkv as [Hin Hkv]. unfold Spec.entity_keyword in Hkv.
  apply andb_true_iff in Hkv as [Hkv _]. apply andb_true_iff in Hkv as [Hkv _].
  now split.
Qed.
End PrimaryEntityFacts.

(** X8.  The entity that a branch of [generate_response] works on is always
    a row of the keyword table: whenever [find_primary_entity], with
    preferred labels that are entity kinds of the schema, returns a name and
    a label for the extracted mapping, the pair is an entry of
    [mosdac_keywords] whose keyword occurs in the lower-cased text. *)
Theorem primary_entity_is_a_table_row :
  forall (nlp : string -> list (string * string)) (txt : string)
         (prefs : list string) (n l : string),
    forallb (fun p => in_list p NLU.known_entity_labels) prefs = true ->
    Bot.find_primary_entity (NLU.entities (NLU.process_query nlp txt)) prefs = Some (n, l) ->
    In (n, l) NLU.mosdac_keywords /\ str_in n (lower txt) = true.
Proof.
  intros nlp txt prefs n l Hp H.
  apply find_primary_entity_sound in H as [Hg Hl].
  apply known_entry_is_table_row with (nlp := nlp); [|exact Hg].
  destruct Hl as [Hl|Hl]; [|exact Hl].
  rewrite forallb_forall in Hp. now apply Hp.
Qed.

Lemma primary_entity_is_a_table_row_witness :
  In ("insat-3dr", "Satellite") NLU.mosdac_keywords
  /\ str_in "insat-3dr" (lower "Applications of INSAT-3DR imagery") = true.
Proof.
  apply (primary_entity_is_a_table_row Fixtures.nlp_india
           "Applications of INSAT-3DR imagery"
           ["DataProduct"; "Parameter"; "Satellite"] "insat-3dr" "Satellite");
    reflexivity.
Defined.

Section InstitutionFacts.
Import NLU.

Lemma no_institution_keyword :
  forallb (fun kv => negb (snd kv =? "Institution")) mosdac_keywords = true.
Proof. vm_compute. reflexivity. Qed.

(** No text gives an entity of kind [Institution]. *)
Lemma institution_never_extracted (nlp : string -> list (string * string)) (txt : string) :
  dict_get "Institution" (entities (process_query nlp txt)) = None.
Proof.
  destruct (dict_get "Institution" (entities (process_query nlp txt))) as [n|] eqn:E;
    [exfalso | reflexivity].
  apply known_entry_is_table_row in E as [Hin _]; [|reflexivity].
  pose proof no_institution_keyword as H. rewrite forallb_forall in H.
  specialize (H _ Hin). discriminate H.
Qed.
End InstitutionFacts.

(** X9.  A request with intent [get_services] always asks the store about
    "MOSDAC": no text yields an entity of kind [Institution], so the default
    of [entities.get("Institution", "MOSDAC")] is always taken, and the one
    call made is the lookup of the services that MOSDAC offers. *)
Theorem services_are_always_those_of_mosdac :
  forall (nlp : string -> list (string * string)) (driver : option KG.session)
         (llm : string -> pyres pyval) (txt : string) (bot : Bot.ISROBot),
    NLU.main_intent (NLU.process_query nlp txt) = "get_services" ->
    Bot.calls (snd (Bot.generate_response_with nlp driver llm txt bot))
    = (Bot.calls bot
       ++ [Bot.EvRelated "MOSDAC" "Institution" (Some "OFFERS_SERVICE") (Some "Service")])%list.
Proof.
  intros nlp driver llm txt bot Hi.
  unfold Bot.generate_response_with. cbv zeta. rewrite Hi.
  change ("get_services" =? "get_details") with false.
  change ("get_services" =? "list_data_products") with false.
  change ("get_services" =? "get_data_format") with false.
  change ("get_services" =? "get_download_info") with false.
  change ("get_services" =? "get_applications") with false.
  change ("get_services" =? "get_services") with true.
  cbv iota. unfold Bot.handle_get_services. cbv zeta.
  rewrite institution_never_extracted.
  destruct (KG.get_related_entities driver "MOSDAC" "Institution"
              (Some "OFFERS_SERVICE") (Some "Service")) as [[|s rest]|e];
    try reflexivity.
  destruct (Bot.joined_names (s :: rest)); reflexivity.
Qed.

Lemma services_are_always_those_of_mosdac_witness :
  Bot.calls
    (snd (Bot.generate_response_with Fixtures.nlp_india (Some Fixtures.empty_store)
            Fixtures.llm_timeout "What services does ISRO offer?" Fixtures.fresh_bot))
  = [Bot.EvRelated "MOSDAC" "Institution" (Some "OFFERS_SERVICE") (Some "Service")].
Proof.
  apply (services_are_always_those_of_mosdac Fixtures.nlp_india (Some Fixtures.empty_store)
           Fixtures.llm_timeout "What services does ISRO offer?" Fixtures.fresh_bot).
  reflexivity.
Defined.

(* ===================================================================== *)
(** ** Further properties of the dialogue engine *)
(* ===================================================================== *)

Ltac decide_dispatch :=
  repeat match goal with
         | |- context [String.eqb ?a ?b] =>
             let v := eval vm_compute in (String.eqb a b) in
             change (String.eqb a b) with v
         end;
  cbv iota.

Section DispatchFacts.
Variable nlp : string -> list (string * string).
Variable driver : option KG.session.
Variable llm : string -> pyres pyval.

Lemma dispatch_get_details (txt : string) (bot : Bot.ISROBot) :
  NLU.main_intent (NLU.process_query nlp txt) = "get_details" ->
  Bot.generate_response_with nlp driver llm txt bot
  = Bot.handle_get_details driver (NLU.entities (NLU.process_query nlp txt)) bot.
Proof.
  intros Hi. unfold Bot.generate_response_with. cbv zeta. rewrite Hi.
  decide_dispatch. reflexivity.
Qed.

Lemma dispatch_list_data_products (txt : string) (bot : Bot.ISROBot) :
  NLU.main_intent (NLU.process_query nlp txt) = "list_data_products" ->
  Bot.generate_response_with nlp driver llm txt bot = Bot.handle_list_data_products driver bot.
Proof.
  intros Hi. unfold Bot.generate_response_with. cbv zeta. rewrite Hi.
  decide_dispatch. reflexivity.
Qed.

Lemma dispatch_get_data_format (txt : string) (bot : Bot.ISROBot) :
  NLU.main_intent (NLU.process_query nlp txt) = "get_data_format" ->
  Bot.generate_response_with nlp driver llm txt bot
  = Bot.handle_get_data_format driver (NLU.entities (NLU.process_query nlp txt)) bot.
Proof.
  intros Hi. unfold Bot.generate_response_with. cbv zeta. rewrite Hi.
  decide_dispatch. reflexivity.
Qed.

Lemma dispatch_get_download_info (txt : string) (bot : Bot.ISROBot) :
  NLU.main_intent (NLU.process_query nlp txt) = "get_download_info" ->
  Bot.generate_response_with nlp driver llm txt bot
  = Bot.handle_get_download_info driver (NLU.entities (NLU.process_query nlp txt)) bot.
Proof.
  intros Hi. unfold Bot.generate_response_with. cbv zeta. rewrite Hi.
  decide_dispatch. reflexivity.
Qed.

Lemma dispatch_get_applications (txt : string) (bot : Bot.ISROBot) :
  NLU.main_intent (NLU.process_query nlp txt) = "get_applications" ->
  Bot.generate_response_with nlp driver llm txt bot
  = Bot.handle_get_applications driver (NLU.entities (NLU.process_query nlp txt)) bot.
Proof.
  intros Hi. unfold Bot.generate_response_with. cbv zeta. rewrite Hi.
  decide_dispatch. reflexivity.
Qed.

Lemma dispatch_get_services (txt : string) (bot : Bot.ISROBot) :
  NLU.main_intent (NLU.process_query nlp txt) = "get_services" ->
  Bot.generate_response_with nlp driver llm txt bot
  = Bot.handle_get_services driver (NLU.entities (NLU.process_query nlp txt)) bot.
Proof.
  intros Hi. unfold Bot.generate_response_with. cbv zeta. rewrite Hi.
  decide_dispatch. reflexivity.
Qed.

Lemma dispatch_summarize_info (txt : string) (bot : Bot.ISROBot) :
  NLU.main_intent (NLU.process_query nlp txt) = "summarize_info" ->
  Bot.generate_response_with nlp driver llm txt bot = Bot.handle_summarize_info llm bot.
Proof.
  intros Hi. unfold Bot.generate_response_with. cbv zeta. rewrite Hi.
  decide_dispatch. reflexivity.
Qed.

Lemma dispatch_generate_use_cases (txt : string) (bot : Bot.ISROBot) :
  NLU.main_intent (NLU.process_query nlp txt) = "generate_use_cases" ->
  Bot.generate_response_with nlp driver llm txt bot
  = Bot.handle_generate_use_cases driver llm (NLU.entities (NLU.process_query nlp txt)) bot.
Proof.
  intros Hi. unfold Bot.generate_response_with. cbv zeta. rewrite Hi.
  decide_dispatch. reflexivity.
Qed.

Lemma dispatch_default (txt : string) (bot : Bot.ISROBot) :
  NLU.main_intent (NLU.process_query nlp txt) = "general_query" ->
  Bot.generate_response_with nlp driver llm txt bot = (Ret Bot.default_response, bot).
Proof.
  intros Hi. unfold Bot.generate_response_with. cbv zeta. rewrite Hi.
  decide_dispatch. reflexivity.
Qed.

(** A call with one of the seven clearing intents that returns leaves an
    empty memory. *)
Lemma clearing_intent_clears (txt : string) (bot bot' : Bot.ISROBot) (r : string) :
  in_list (NLU.main_intent (NLU.process_query nlp txt)) Notions.clearing_intents = true ->
  Bot.generate_response_with nlp driver llm txt bot = (Ret r, bot') ->
  Bot.memory bot' = (PNone, PNone).
Proof.
  intros Hi H. apply in_list_In in Hi. cbn in Hi.
  destruct Hi as [Hi|[Hi|[Hi|[Hi|[Hi|[Hi|[Hi|[]]]]]]]]; symmetry in Hi.
  - rewrite (dispatch_list_data_products _ _ Hi) in H.
    now apply list_data_products_clears in H.
  - rewrite (dispatch_get_data_format _ _ Hi) in H.
    now apply get_data_format_clears in H.
  - rewrite (dispatch_get_download_info _ _ Hi) in H.
    now apply get_download_info_clears in H.
  - rewrite (dispatch_get_applications _ _ Hi) in H.
    now apply get_applications_clears in H.
  - rewrite (dispatch_get_services _ _ Hi) in H.
    now apply get_services_clears in H.
  - rewrite (dispatch_summarize_info _ _ Hi) in H.
    now apply summarize_info_clears in H.
  - rewrite (dispatch_generate_use_cases _ _ Hi) in H.
    now apply generate_use_cases_clears in H.
Qed.

Lemma summarize_on_empty_memory (bot : Bot.ISROBot) :
  Bot.memory bot = (PNone, PNone) ->
  Bot.handle_summarize_info llm bot = (Ret Bot.nothing_to_summarize, bot).
Proof.
  destruct bot as [c n cs]. unfold Bot.memory. cbn. intros H. inversion H; subst.
  reflexivity.
Qed.
End DispatchFacts.

(** X10.  After any returned answer to a request other than [get_details]
    (a list, a format, a download, an application, a service, a summary or
    a use-case request), a request to summarize is answered with the fixed
    "nothing to summarize" text: the client is not called and the bot is
    left as it was.  In particular a second summary in a row has nothing to
    summarize. *)
Theorem summary_needs_a_fresh_description :
  forall (nlp : string -> list (string * string)) (driver : option KG.session)
         (llm : string -> pyres pyval) (t1 t2 : string) (bot bot1 : Bot.ISROBot)
         (r1 : string),
    in_list (NLU.main_intent (NLU.process_query nlp t1)) Notions.clearing_intents = true ->
    Bot.generate_response_with nlp driver llm t1 bot = (Ret r1, bot1) ->
    NLU.main_intent (NLU.process_query nlp t2) = "summarize_info" ->
    Bot.generate_response_with nlp driver llm t2 bot1
    = (Ret Bot.nothing_to_summarize, bot1).
Proof.
  intros nlp driver llm t1 t2 bot bot1 r1 Hi H1 H2.
  rewrite (dispatch_summarize_info nlp driver llm t2 bot1 H2).
  apply summarize_on_empty_memory.
  exact (clearing_intent_clears nlp driver llm t1 bot bot1 r1 Hi H1).
Qed.

(** Two requests to summarize, the first on a remembered description. *)
Lemma summary_needs_a_fresh_description_witness :
  let first := Bot.generate_response_with Fixtures.nlp_none None
                 (Fixtures.llm_fixed "Daily sea temperatures.") "summarize that"
                 Fixtures.bot_after_details in
  fst first
  = Ret (Bot.summary_header (PStr "Sea Surface Temperature") ++ "Daily sea temperatures.")
  /\ Bot.generate_response_with Fixtures.nlp_none None
       (Fixtures.llm_fixed "Daily sea temperatures.") "can you summarize again"
       (snd first)
     = (Ret Bot.nothing_to_summarize, snd first).
Proof.
  intros first. split; [reflexivity|].
  apply (summary_needs_a_fresh_description Fixtures.nlp_none None
           (Fixtures.llm_fixed "Daily sea temperatures.") "summarize that"
           "can you summarize again" Fixtures.bot_after_details (snd first)
           (Bot.summary_header (PStr "Sea Surface Temperature") ++ "Daily sea temperatures."));
    reflexivity.
Defined.

(** X11.  The description found by [get_details] is what the next summary
    is asked about: when a [get_details] request returns after a lookup that
    gave a non-empty description [d] for the entity named [n], a following
    request to summarize calls the client once, with the summarization
    prompt for [n] and [d]; the answer is the summary heading for [n]
    followed by the client's text, and an exception of the client leaves
    the call as it is. *)
Theorem summary_is_about_the_last_details :
  forall (nlp : string -> list (string * string)) (driver : option KG.session)
         (llm : string -> pyres pyval) (t1 t2 : string) (bot bot1 : Bot.ISROBot)
         (r1 : string) (d n : pyval),
    NLU.main_intent (NLU.process_query nlp t1) = "get_details" ->
    Bot.generate_response_with nlp driver llm t1 bot = (Ret r1, bot1) ->
    Spec.memory_for nlp driver t1 = (d, n) ->
    truthy d = true ->
    NLU.main_intent (NLU.process_query nlp t2) = "summarize_info" ->
    Bot.generate_response_with nlp driver llm t2 bot1
    = match llm (Bot.summarize_prompt n d) with
      | Ret s =>
          (Ret (Bot.summary_header n ++ py_str s),
           Bot.clear_memory (Bot.log (Bot.EvLLM (Bot.summarize_prompt n d)) bot1))
      | Raise e => (Raise e, Bot.log (Bot.EvLLM (Bot.summarize_prompt n d)) bot1)
      end.
Proof.
  intros nlp driver llm t1 t2 bot bot1 r1 d n Hi H1 Hm Hd H2.
  rewrite (dispatch_get_details nlp driver llm t1 bot Hi) in H1.
  apply get_details_memory in H1.
  assert (Hmem : Bot.memory bot1 = (d, n)).
  { rewrite H1, <- Hm. unfold Spec.memory_for. cbv zeta. rewrite Hi.
    now rewrite String.eqb_refl. }
  rewrite (dispatch_summarize_info nlp driver llm t2 bot1 H2).
  unfold Bot.handle_summarize_info. cbv zeta.
  unfold Bot.memory in Hmem. injection Hmem as Hc Hn.
  rewrite Hc, Hn, Hd. reflexivity.
Qed.

(** A description is found, then summarized. *)
Lemma summary_is_about_the_last_details_witness :
  let first := Bot.generate_response_with Fixtures.nlp_none
                 (Some Fixtures.one_product_store) (Fixtures.llm_fixed "Daily sea temperatures.")
                 "Tell me about sea surface temperature data" Fixtures.fresh_bot in
  fst (Bot.generate_response_with Fixtures.nlp_none (Some Fixtures.one_product_store)
         (Fixtures.llm_fixed "Daily sea temperatures.") "summarize that" (snd first))
  = Ret (Bot.summary_header (PStr "Sea Surface Temperature") ++ "Daily sea temperatures.").
Proof.
  intros first.
  assert (E : exists r, first = (Ret r, snd first)) by (eexists; vm_compute; reflexivity).
  destruct E as [r E].
  rewrite (summary_is_about_the_last_details Fixtures.nlp_none
             (Some Fixtures.one_product_store) (Fixtures.llm_fixed "Daily sea temperatures.")
             "Tell me about sea surface temperature data" "summarize that"
             Fixtures.fresh_bot (snd first) r
             (PStr "Global daily sea surface temperature anomaly data.")
             (PStr "Sea Surface Temperature")
             eq_refl E eq_refl eq_refl eq_refl).
  reflexivity.
Defined.

Section ClassClientFacts.
Variable nlp : string -> list (string * string).
Variable driver : option KG.session.
Variable requests_post : string -> pyval -> pyres Bot.response.

Lemma llm_calls_log (ev : Bot.event) (bot : Bot.ISROBot) :
  filter Notions.is_llm_call (Bot.calls (Bot.log ev bot))
  = (filter Notions.is_llm_call (Bot.calls bot)
     ++ if Notions.is_llm_call ev then [ev] else [])%list.
Proof.
  cbn [Bot.log Bot.calls]. rewrite filter_app. cbn [filter].
  now destruct (Notions.is_llm_call ev).
Qed.

Ltac same_llm_calls :=
  repeat match goal with
         | |- context [if ?b then _ else _] => destruct b
         end;
  cbn [Bot.clear_memory Bot.set_memory Bot.calls];
  rewrite ?llm_calls_log; cbn [Notions.is_llm_call];
  rewrite ?app_nil_r; reflexivity.

Lemma store_handlers_make_no_llm_call (i : string) (ents : list (string * string))
      (bot bot' : Bot.ISROBot) (res : pyres string) :
  (Bot.handle_get_details driver ents bot = (res, bot')
   \/ Bot.handle_list_data_products driver bot = (res, bot')
   \/ Bot.handle_get_data_format driver ents bot = (res, bot')
   \/ Bot.handle_get_download_info driver ents bot = (res, bot')
   \/ Bot.handle_get_applications driver ents bot = (res, bot')
   \/ Bot.handle_get_services driver ents bot = (res, bot')) ->
  filter Notions.is_llm_call (Bot.calls bot') = filter Notions.is_llm_call (Bot.calls bot).
Proof.
  unfold Bot.handle_get_details, Bot.handle_list_data_products,
    Bot.handle_get_data_format, Bot.handle_get_download_info,
    Bot.handle_get_applications, Bot.handle_get_services.
  cbv zeta.
  intros [H|[H|[H|[H|[H|H]]]]]; break_outcome; same_llm_calls.
Qed.

(** With the client of the class, a branch that reaches the client does not
    return. *)
Lemma class_summarize_returns (bot bot' : Bot.ISROBot) (r : string) :
  Bot.handle_summarize_info (fun prompt => Bot._call_gemini_llm requests_post prompt "") bot
  = (Ret r, bot') ->
  filter Notions.is_llm_call (Bot.calls bot') = filter Notions.is_llm_call (Bot.calls bot).
Proof.
  unfold Bot.handle_summarize_info. cbv zeta.
  change (Bot._call_gemini_llm requests_post ?p "") with (@Raise pyval AttributeError).
  intros H. break_outcome. same_llm_calls.
Qed.

Lemma class_use_cases_returns (ents : list (string * string)) (bot bot' : Bot.ISROBot)
      (r : string) :
  Bot.handle_generate_use_cases driver
    (fun prompt => Bot._call_gemini_llm requests_post prompt "") ents bot
  = (Ret r, bot') ->
  filter Notions.is_llm_call (Bot.calls bot') = filter Notions.is_llm_call (Bot.calls bot).
Proof.
  unfold Bot.handle_generate_use_cases. cbv zeta.
  change (Bot._call_gemini_llm requests_post ?p "") with (@Raise pyval AttributeError).
  intros H. break_outcome. same_llm_calls.
Qed.
End ClassClientFacts.

(** X12.  With the client of the class, an answer that [generate_response]
    returns never comes from the generative client: whenever the call
    returns, the calls recorded for the client are those recorded before
    it.  (A request that reaches the client raises instead.) *)
Theorem returned_answers_never_use_the_client :
  forall (nlp : string -> list (string * string)) (driver : option KG.session)
         (requests_post : string -> pyval -> pyres Bot.response)
         (txt : string) (bot bot' : Bot.ISROBot) (r : string),
    Bot.generate_response nlp driver requests_post txt bot = (Ret r, bot') ->
    filter Notions.is_llm_call (Bot.calls bot') = filter Notions.is_llm_call (Bot.calls bot).
Proof.
  intros nlp driver requests_post txt bot bot' r.
  unfold Bot.generate_response, Bot.generate_response_with. cbv zeta.
  remember (NLU.main_intent (NLU.process_query nlp txt)) as i eqn:Hi.
  remember (NLU.entities (NLU.process_query nlp txt)) as ents eqn:Hents.
  destruct (i =? "get_details").
  { intros H. apply (store_handlers_make_no_llm_call driver i ents bot bot' (Ret r)). tauto. }
  destruct (i =? "list_data_products").
  { intros H. apply (store_handlers_make_no_llm_call driver i ents bot bot' (Ret r)). tauto. }
  destruct (i =? "get_data_format").
  { intros H. apply (store_handlers_make_no_llm_call driver i ents bot bot' (Ret r)). tauto. }
  destruct (i =? "get_download_info").
  { intros H. apply (store_handlers_make_no_llm_call driver i ents bot bot' (Ret r)). tauto. }
  destruct (i =? "get_applications").
  { intros H. apply (store_handlers_make_no_llm_call driver i ents bot bot' (Ret r)). tauto. }
  destruct (i =? "get_services").
  { intros H. apply (store_handlers_make_no_llm_call driver i ents bot bot' (Ret r)). tauto. }
  destruct (i =? "summarize_info").
  { intros H. now apply class_summarize_returns in H. }
  destruct (i =? "generate_use_cases").
  { intros H. now apply class_use_cases_returns in H. }
  intros H. now inversion H.
Qed.

(** A summary asked of a bot that remembers nothing. *)
Lemma returned_answers_never_use_the_client_witness :
  filter Notions.is_llm_call
    (Bot.calls (snd (Bot.generate_response Fixtures.nlp_none None Fixtures.post_timeout
                       "summarize that" Fixtures.fresh_bot)))
  = [].
Proof.
  apply (returned_answers_never_use_the_client Fixtures.nlp_none None Fixtures.post_timeout
           "summarize that" Fixtures.fresh_bot
           (snd (Bot.generate_response Fixtures.nlp_none None Fixtures.post_timeout
                   "summarize that" Fixtures.fresh_bot))
           Bot.nothing_to_summarize).
  reflexivity.
Defined.

Section UnavailableStoreFacts.
Variable driver : option KG.session.
Hypothesis Hdown : Notions.unavailable driver.

Lemma execute_query_unavailable (q : string) (p : option KG.params) :
  KG._execute_query driver q p = [].
Proof.
  unfold KG._execute_query. destruct driver as [run|]; [|reflexivity].
  destruct (Hdown q p) as [E|[e E]]; now rewrite E.
Qed.

Lemma get_entity_details_unavailable (name : string) (l : option string) :
  KG.get_entity_details driver name l = Ret None.
Proof. unfold KG.get_entity_details. now rewrite execute_query_unavailable. Qed.

Lemma get_related_entities_unavailable (name l : string) (rel target : option string) :
  KG.get_related_entities driver name l rel target = Ret [].
Proof. unfold KG.get_related_entities. now rewrite execute_query_unavailable. Qed.
End UnavailableStoreFacts.

(** X13.  When the store cannot answer (no driver, or a driver that raises
    or has no row for every query), a request whose branch only consults
    the store is still answered: [generate_response] returns a text and
    does not raise, and the memory is empty afterwards. *)
Theorem store_failure_is_answered :
  forall (nlp : string -> list (string * string)) (driver : option KG.session)
         (llm : string -> pyres pyval) (txt : string) (bot : Bot.ISROBot),
    Notions.unavailable driver ->
    in_list (NLU.main_intent (NLU.process_query nlp txt)) Notions.store_intents = true ->
    (exists r, fst (Bot.generate_response_with nlp driver llm txt bot) = Ret r)
    /\ Bot.memory (snd (Bot.generate_response_with nlp driver llm txt bot)) = (PNone, PNone).
Proof.
  intros nlp driver llm txt bot Hdown Hi. apply in_list_In in Hi. cbn in Hi.
  destruct Hi as [Hi|[Hi|[Hi|[Hi|[Hi|[Hi|[]]]]]]]; symmetry in Hi.
  - rewrite (dispatch_get_details _ _ _ _ _ Hi). unfold Bot.handle_get_details. cbv zeta.
    destruct (Bot.named _) as [[n l]|]; [|split; [eexists|]; reflexivity].
    rewrite (get_entity_details_unavailable driver Hdown).
    split; [eexists|]; reflexivity.
  - rewrite (dispatch_list_data_products _ _ _ _ _ Hi).
    unfold Bot.handle_list_data_products. cbv zeta.
    rewrite (execute_query_unavailable driver Hdown).
    split; [eexists|]; reflexivity.
  - rewrite (dispatch_get_data_format _ _ _ _ _ Hi).
    unfold Bot.handle_get_data_format. cbv zeta.
    destruct (Bot.named _) as [[n l]|]; [|split; [eexists|]; reflexivity].
    rewrite (get_related_entities_unavailable driver Hdown).
    split; [eexists|]; reflexivity.
  - rewrite (dispatch_get_download_info _ _ _ _ _ Hi).
    unfold Bot.handle_get_download_info. cbv zeta.
    destruct (Bot.named _) as [[n l]|]; [|split; [eexists|]; reflexivity].
    rewrite (get_entity_details_unavailable driver Hdown).
    split; [eexists|]; reflexivity.
  - rewrite (dispatch_get_applications _ _ _ _ _ Hi).
    unfold Bot.handle_get_applications. cbv zeta.
    destruct (Bot.named _) as [[n l]|]; [|split; [eexists|]; reflexivity].
    rewrite (get_related_entities_unavailable driver Hdown).
    split; [eexists|]; reflexivity.
  - rewrite (dispatch_get_services _ _ _ _ _ Hi).
    unfold Bot.handle_get_services. cbv zeta.
    rewrite (get_related_entities_unavailable driver Hdown).
    split; [eexists|]; reflexivity.
Qed.

(** A driver that raises on every query, asked about a data product. *)
Lemma store_failure_is_answered_witness :
  (exists r,
      fst (Bot.generate_response_with Fixtures.nlp_none (Some Examples.broken_store)
             Fixtures.llm_timeout "Tell me about rainfall data" Fixtures.bot_after_details)
      = Ret r)
  /\ Bot.memory
       (snd (Bot.generate_response_with Fixtures.nlp_none (Some Examples.broken_store)
               Fixtures.llm_timeout "Tell me about rainfall data"
               Fixtures.bot_after_details))
     = (PNone, PNone).
Proof.
  apply (store_failure_is_answered Fixtures.nlp_none (Some Examples.broken_store)
           Fixtures.llm_timeout "Tell me about rainfall data" Fixtures.bot_after_details).
  - intros q p. right. now exists CypherSyntaxError.
  - reflexivity.
Defined.

Section RelationshipLineFacts.

Lemma relationship_line_well_formed (rel : pyval) :
  Notions.well_formed_relationship rel -> exists s, Bot.relationship_line rel = Ret s.
Proof.
  intros [d [t [n [l [-> [Ht [Hn Hl]]]]]]].
  unfold Bot.relationship_line. cbn [py_item bind]. rewrite Ht. cbn [bind].
  repeat match goal with
         | |- context [if ?b then _ else _] =>
             destruct b; [rewrite ?Hn, ?Hl; cbn; eexists; reflexivity|]
         end.
  rewrite Hn, Hl. cbn. eexists. reflexivity.
Qed.

Lemma relationship_line_null_type (rel : pyval) :
  Notions.null_typed_relationship rel -> Bot.relationship_line rel = Raise AttributeError.
Proof.
  intros [d [n [l [-> [Ht [Hn Hl]]]]]].
  unfold Bot.relationship_line. cbn [py_item bind]. rewrite Ht. cbn [bind py_eq_str].
  rewrite Hn, Hl. reflexivity.
Qed.
End RelationshipLineFacts.

(** X14.  When every relationship map of a lookup has a string type, a
    string target name and a target label, the "Related Information" part is
    rendered without an exception, as its heading followed by one sentence
    per relationship. *)
Theorem well_formed_relationships_are_rendered :
  forall rels : list pyval,
    rels <> [] ->
    Forall Notions.well_formed_relationship rels ->
    exists lines,
      Bot.related_information (PList rels) = Ret ((nl ++ "Related Information:") :: lines)
      /\ length lines = length rels.
Proof.
  intros rels Hne Hwf.
  assert (H : exists lines, Bot.relationship_lines rels = Ret lines
                            /\ length lines = length rels).
  { clear Hne. induction Hwf as [|rel rels Hrel _ IH].
    - exists []. split; reflexivity.
    - destruct (relationship_line_well_formed rel Hrel) as [s Hs].
      destruct IH as [lines [Hl Hlen]].
      exists (s :: lines). cbn [Bot.relationship_lines]. rewrite Hs, Hl. cbn.
      now rewrite Hlen. }
  destruct H as [lines [Hl Hlen]]. exists lines. split; [|exact Hlen].
  unfold Bot.related_information. destruct rels as [|rel rels]; [contradiction|].
  cbn [truthy py_iter bind]. now rewrite Hl.
Qed.

Lemma well_formed_relationships_are_rendered_witness :
  exists lines,
    Bot.related_information
      (PList [ PDict [ ("type", PStr "FROM_SATELLITE"); ("target_name", PStr "INSAT-3D");
                       ("target_label", PStr "Satellite");
                       ("relationship_props", PDict []) ];
               PDict [ ("type", PStr "HAS_TIME_RESOLUTION"); ("target_name", PStr "Daily");
                       ("target_label", PStr "TimeResolution");
                       ("relationship_props", PDict []) ] ])
    = Ret ((nl ++ "Related Information:") :: lines)
    /\ length lines = 2.
Proof.
  apply (well_formed_relationships_are_rendered
           [ PDict [ ("type", PStr "FROM_SATELLITE"); ("target_name", PStr "INSAT-3D");
                     ("target_label", PStr "Satellite");
                     ("relationship_props", PDict []) ];
             PDict [ ("type", PStr "HAS_TIME_RESOLUTION"); ("target_name", PStr "Daily");
                     ("target_label", PStr "TimeResolution");
                     ("relationship_props", PDict []) ] ]).
  - discriminate.
  - repeat constructor; unfold Notions.well_formed_relationship;
      do 4 eexists; repeat split; reflexivity.
Defined.

(** X15.  A lookup whose first relationship map has a null type, as the
    row of an entity without relationship has it, cannot be described: the
    [get_details] request raises [AttributeError], after the memory has been
    overwritten with the outcome of the lookup. *)
Theorem null_relationship_breaks_get_details :
  forall (nlp : string -> list (string * string)) (driver : option KG.session)
         (llm : string -> pyres pyval) (txt : string) (bot : Bot.ISROBot)
         (name l : string) (d : KG.details) (rel : pyval) (rest : list pyval),
    NLU.main_intent (NLU.process_query nlp txt) = "get_details" ->
    Bot.named (Bot.find_primary_entity (NLU.entities (NLU.process_query nlp txt))
                 Notions.details_labels) = Some (name, l) ->
    KG.get_entity_details driver name (Some l) = Ret (Some d) ->
    KG.relationships d = PList (rel :: rest) ->
    Notions.null_typed_relationship rel ->
    fst (Bot.generate_response_with nlp driver llm txt bot) = Raise AttributeError
    /\ Bot.memory (snd (Bot.generate_response_with nlp driver llm txt bot))
       = Spec.memory_for nlp driver txt.
Proof.
  intros nlp driver llm txt bot name l d rel rest Hi Hn Hd Hr Hnull.
  unfold Spec.memory_for. cbv zeta.
  rewrite (dispatch_get_details _ _ _ _ _ Hi), Hi, String.eqb_refl.
  unfold Bot.handle_get_details. cbv zeta.
  change ["DataProduct"; "Satellite"; "Sensor"; "Parameter"; "ApplicationArea";
          "Service"; "Institution"] with Notions.details_labels.
  rewrite Hn, Hd, Hr.
  unfold Bot.related_information. cbn [truthy py_iter bind Bot.relationship_lines].
  rewrite (relationship_line_null_type rel Hnull). cbn [bind fst snd].
  split; [reflexivity|].
  now destruct (truthy (Bot.dict_get_default "description" (KG.node d) PNone)).
Qed.

(** A store whose entity has no relationship. *)
Lemma null_relationship_breaks_get_details_witness :
  fst (Bot.generate_response_with Fixtures.nlp_none (Some Examples.lonely_store)
         Fixtures.llm_timeout "Tell me about rainfall data" Fixtures.fresh_bot)
  = Raise AttributeError
  /\ Bot.memory
       (snd (Bot.generate_response_with Fixtures.nlp_none (Some Examples.lonely_store)
               Fixtures.llm_timeout "Tell me about rainfall data" Fixtures.fresh_bot))
     = Spec.memory_for Fixtures.nlp_none (Some Examples.lonely_store)
         "Tell me about rainfall data".
Proof.
  apply (null_relationship_breaks_get_details Fixtures.nlp_none (Some Examples.lonely_store)
           Fixtures.llm_timeout "Tell me about rainfall data" Fixtures.fresh_bot
           "rainfall data" "DataProduct"
           (KG.mk_details
              [ ("name", PStr "Rainfall Data");
                ("description", PStr "Gridded rainfall data derived from INSAT satellites.") ]
              (PList [Neo4j.null_relmap]))
           Neo4j.null_relmap []); try reflexivity.
  unfold Notions.null_typed_relationship. do 3 eexists. repeat split; reflexivity.
Defined.

Section ResponseShapeFacts.

Lemma str_app_assoc (a b c : string) : (a ++ b) ++ c = a ++ (b ++ c).
Proof. induction a as [|x a IH]; cbn; [reflexivity | now rewrite IH]. Qed.

Lemma str_app_nil_r (a : string) : a ++ "" = a.
Proof. induction a as [|x a IH]; cbn; [reflexivity | now rewrite IH]. Qed.

(** A joined text starts with its first part. *)
Lemma join_starts_with_first (sep p : string) (rest : list string) :
  exists tail, join sep (p :: rest) = p ++ tail.
Proof.
  destruct rest as [|q rest].
  - exists "". cbn. now rewrite str_app_nil_r.
  - exists (sep ++ join sep (q :: rest)). reflexivity.
Qed.
Lemma two_parts_then_more (a b : string) (more lines : list string) :
  List.app (List.app (a :: [b]) more) lines = a :: b :: List.app more lines.
Proof. reflexivity. Qed.

Lemma join_two_or_more (sep a b : string) (c : list string) :
  join sep (a :: b :: c) = a ++ sep ++ join sep (b :: c).
Proof. reflexivity. Qed.

Lemma returned_text {S} (a r : string) (s s' : S) : (Ret a, s) = (Ret r, s') -> a = r.
Proof. intros H. now inversion H. Qed.
End ResponseShapeFacts.

Lemma memory_for_get_details (nlp : string -> list (string * string))
      (driver : option KG.session) (txt : string) :
  NLU.main_intent (NLU.process_query nlp txt) = "get_details" ->
  Spec.memory_for nlp driver txt
  = match Bot.named (Bot.find_primary_entity (NLU.entities (NLU.process_query nlp txt))
                       ["DataProduct"; "Satellite"; "Sensor"; "Parameter";
                        "ApplicationArea"; "Service"; "Institution"]) with
    | Some (name, l) =>
        match KG.get_entity_details driver name (Some l) with
        | Ret (Some d) =>
            let description := Bot.dict_get_default "description" (KG.node d) PNone in
            if truthy description
            then (description, Bot.dict_get_default "name" (KG.node d) (PStr name))
            else (PNone, PNone)
        | _ => (PNone, PNone)
        end
    | None => (PNone, PNone)
    end.
Proof.
  intros Hi. unfold Spec.memory_for. cbv zeta. now rewrite Hi, String.eqb_refl.
Qed.

Lemma empty_memory_is_not_truthy (d n : pyval) :
  (PNone, PNone) = (d, n) -> truthy d = true -> False.
Proof. intros H. inversion H; subst. discriminate. Qed.

Lemma pair_parts {A B} (a c : A) (b e : B) : (a, b) = (c, e) -> a = c /\ b = e.
Proof. intros H. now inversion H. Qed.

Lemma get_details_answer (driver : option KG.session) (ents : list (string * string))
      (bot bot' : Bot.ISROBot) (r name l : string) (det : KG.details) :
  Bot.handle_get_details driver ents bot = (Ret r, bot') ->
  Bot.named (Bot.find_primary_entity ents
               ["DataProduct"; "Satellite"; "Sensor"; "Parameter";
                "ApplicationArea"; "Service"; "Institution"]) = Some (name, l) ->
  KG.get_entity_details driver name (Some l) = Ret (Some det) ->
  truthy (Bot.dict_get_default "description" (KG.node det) PNone) = true ->
  exists middle,
    r = ("Here's what I know about "
         ++ py_str (Bot.dict_get_default "name" (KG.node det) (PStr name)) ++ ":") ++ nl
        ++ ("- Description: "
            ++ py_str (Bot.dict_get_default "description" (KG.node det) PNone))
        ++ middle ++ Bot.follow_up_offer.
Proof.
  intros H Hn Hd Et.
  unfold Bot.handle_get_details in H. cbv zeta in H.
  rewrite Hn, Hd in H.
  destruct (Bot.related_information (KG.relationships det)) as [lines|e];
    [|discriminate].
  assert (Hc : truthy (Bot.last_detailed_response_content
                         (Bot.set_memory
                            (Bot.dict_get_default "description" (KG.node det) PNone)
                            (Bot.dict_get_default "name" (KG.node det) (PStr name))
                            (Bot.log (Bot.EvDetails name (Some l)) bot))) = true)
    by exact Et.
  rewrite Et in H. rewrite Hc, two_parts_then_more in H.
  apply returned_text in H. rewrite <- H.
  destruct (join_starts_with_first nl
              ("- Description: "
               ++ py_str (Bot.dict_get_default "description" (KG.node det) PNone))
              (Bot.property_lines (KG.node det) ++ lines)%list) as [tail Ht].
  exists tail. rewrite join_two_or_more, Ht. rewrite !str_app_assoc. reflexivity.
Qed.

(** X16.  When a [get_details] request returns after a lookup that gave a
    non-empty description [d] for the entity named [n], the answer starts
    with the heading for [n] and the description line and ends with the
    offer to summarize or to generate use cases. *)
Theorem described_entity_answer_shape :
  forall (nlp : string -> list (string * string)) (driver : option KG.session)
         (llm : string -> pyres pyval) (txt : string) (bot bot' : Bot.ISROBot)
         (r : string) (d n : pyval),
    NLU.main_intent (NLU.process_query nlp txt) = "get_details" ->
    Bot.generate_response_with nlp driver llm txt bot = (Ret r, bot') ->
    Spec.memory_for nlp driver txt = (d, n) ->
    truthy d = true ->
    exists middle,
      r = ("Here's what I know about " ++ py_str n ++ ":") ++ nl
          ++ ("- Description: " ++ py_str d) ++ middle ++ Bot.follow_up_offer.
Proof.
  intros nlp driver llm txt bot bot' r d n Hi H Hm Hd.
  rewrite (dispatch_get_details _ _ _ _ _ Hi) in H.
  rewrite (memory_for_get_details _ _ _ Hi) in Hm. cbv zeta in Hm.
  destruct (Bot.named _) as [[name l]|] eqn:En;
    [|exfalso; now apply (empty_memory_is_not_truthy d n)].
  destruct (KG.get_entity_details driver name (Some l)) as [[det|]|e] eqn:Ed;
    [| exfalso; now apply (empty_memory_is_not_truthy d n)
     | exfalso; now apply (empty_memory_is_not_truthy d n)].
  destruct (truthy (Bot.dict_get_default "description" (KG.node det) PNone)) eqn:Et;
    [|exfalso; now apply (empty_memory_is_not_truthy d n)].
  destruct (get_details_answer driver _ bot bot' r name l det H En Ed Et) as [middle Hr].
  exists middle. apply pair_parts in Hm as [Hd' Hn'].
  now rewrite <- Hd', <- Hn'.
Qed.

Lemma described_entity_answer_shape_witness :
  exists middle,
    "Here's what I know about Sea Surface Temperature:" ++ nl
    ++ "- Description: Global daily sea surface temperature anomaly data." ++ nl ++ nl
    ++ "Related Information:" ++ nl ++ "  - It is derived from the INSAT-3D satellite."
    ++ Bot.follow_up_offer
    = ("Here's what I know about " ++ "Sea Surface Temperature" ++ ":") ++ nl
      ++ ("- Description: " ++ "Global daily sea surface temperature anomaly data.")
      ++ middle ++ Bot.follow_up_offer.
Proof.
  apply (described_entity_answer_shape Fixtures.nlp_none (Some Fixtures.one_product_store)
           Fixtures.llm_timeout "Tell me about sea surface temperature data"
           Fixtures.fresh_bot
           (snd (Bot.generate_response_with Fixtures.nlp_none
                   (Some Fixtures.one_product_store) Fixtures.llm_timeout
                   "Tell me about sea surface temperature data" Fixtures.fresh_bot))
           _
           (PStr "Global daily sea surface temperature anomaly data.")
           (PStr "Sea Surface Temperature")); reflexivity.
Defined.

(* ===================================================================== *)
(** ** The transport layer *)
(* ===================================================================== *)

Section ChatFacts.
Variable nlp : string -> list (string * string).
Variable driver : option KG.session.
Variable requests_post : string -> pyval -> pyres Bot.response.

Lemma no_keyword_intent (txt : string) :
  Spec.keyword_matches txt = [] ->
  NLU.main_intent (NLU.process_query nlp txt) = "general_query".
Proof.
  intros H. rewrite main_intent_eq. pose proof (keyword_matches_nil txt H) as Hno.
  assert (He : filter (Spec.entity_keyword (lower txt)) NLU.mosdac_keywords = []).
  { apply filter_nil_iff. intros kv Hin. unfold Spec.entity_keyword.
    now rewrite (Hno kv Hin). }
  assert (Hs : filter (Spec.is_signal (lower txt)) NLU.mosdac_keywords = []).
  { apply filter_nil_iff. intros kv Hin. unfold Spec.is_signal.
    now rewrite (Hno kv Hin). }
  rewrite He, Hs. reflexivity.
Qed.

Lemma no_keyword_response (txt : string) (bot : Bot.ISROBot) :
  Spec.keyword_matches txt = [] ->
  Bot.generate_response nlp driver requests_post txt bot = (Ret Bot.default_response, bot).
Proof.
  intros H. unfold Bot.generate_response.
  apply dispatch_default. now apply no_keyword_intent.
Qed.
End ChatFacts.

(** X17.  [chat] answers a request whose message is missing, null, empty,
    zero, false or an empty container with status 400 and the error "No
    message provided"; the bot is not called and keeps its memory. *)
Theorem chat_rejects_an_empty_message :
  forall (nlp : string -> list (string * string)) (driver : option KG.session)
         (requests_post : string -> pyval -> pyres Bot.response)
         (body : list (string * pyval)) (bot : Bot.ISROBot),
    truthy (Bot.dict_get_default "message" body PNone) = false ->
    App.chat nlp driver requests_post (PDict body) bot
    = (Ret (400%Z, PDict [("error", PStr "No message provided")]), bot).
Proof.
  intros nlp driver requests_post body bot H.
  unfold App.chat. cbn [py_get].
  change (match dict_get "message" body with Some x => x | None => PNone end)
    with (Bot.dict_get_default "message" body PNone).
  now rewrite H.
Qed.

Lemma chat_rejects_an_empty_message_witness :
  App.chat Fixtures.nlp_none None Fixtures.post_timeout
    (PDict [("message", PStr "")]) Fixtures.bot_after_details
  = (Ret (400%Z, PDict [("error", PStr "No message provided")]), Fixtures.bot_after_details)
  /\ App.chat Fixtures.nlp_none None Fixtures.post_timeout
       (PDict [("text", PStr "hello")]) Fixtures.bot_after_details
     = (Ret (400%Z, PDict [("error", PStr "No message provided")]),
        Fixtures.bot_after_details).
Proof.
  split.
  - apply (chat_rejects_an_empty_message Fixtures.nlp_none None Fixtures.post_timeout
             [("message", PStr "")] Fixtures.bot_after_details). reflexivity.
  - apply (chat_rejects_an_empty_message Fixtures.nlp_none None Fixtures.post_timeout
             [("text", PStr "hello")] Fixtures.bot_after_details). reflexivity.
Defined.

(** X18.  A non-empty message in which no keyword of the table occurs is
    answered by [chat] with status 200 and the default "I'm sorry, I
    couldn't find information..." text, whatever the recogniser, the store
    and the network do; the bot keeps its memory and calls nobody. *)
Theorem chat_answers_unknown_text_with_the_default :
  forall (nlp : string -> list (string * string)) (driver : option KG.session)
         (requests_post : string -> pyval -> pyres Bot.response)
         (body : list (string * pyval)) (s : string) (bot : Bot.ISROBot),
    dict_get "message" body = Some (PStr s) ->
    s <> "" ->
    Spec.keyword_matches s = [] ->
    App.chat nlp driver requests_post (PDict body) bot
    = (Ret (200%Z, PDict [("response", PStr Bot.default_response)]), bot).
Proof.
  intros nlp driver requests_post body s bot Hm Hs Hk.
  unfold App.chat. cbn [py_get]. rewrite Hm. cbn [truthy].
  destruct (String.eqb_spec s "") as [->|_]; [contradiction|]. cbn [negb].
  now rewrite (no_keyword_response nlp driver requests_post s bot Hk).
Qed.

Lemma chat_answers_unknown_text_with_the_default_witness :
  App.chat Fixtures.nlp_india (Some Examples.broken_store) Fixtures.post_timeout
    (PDict [("message", PStr "Good morning from India")]) Fixtures.bot_after_details
  = (Ret (200%Z, PDict [("response", PStr Bot.default_response)]),
     Fixtures.bot_after_details).
Proof.
  apply (chat_answers_unknown_text_with_the_default Fixtures.nlp_india
           (Some Examples.broken_store) Fixtures.post_timeout
           [("message", PStr "Good morning from India")] "Good morning from India"
           Fixtures.bot_after_details).
  - reflexivity.
  - discriminate.
  - reflexivity.
Defined.

(* ===================================================================== *)
(** ** The request part of the generative client *)
(* ===================================================================== *)

(** X19.  The [try] statement of [_call_gemini_llm] returns for every
    outcome of the network: the connectivity apology when the request or
    the decoding of the body raises a request error and when the status is
    in the 4xx or 5xx ranges, the internal-error text when anything else is
    raised, and some value otherwise. *)
Theorem gemini_request_outcomes :
  forall (requests_post : string -> pyval -> pyres Bot.response)
         (url : string) (payload : pyval),
    match requests_post url payload with
    | Raise (RequestException _) =>
        Bot.gemini_request requests_post url payload = Ret (PStr Bot.connectivity_apology)
    | Raise _ =>
        Bot.gemini_request requests_post url payload = Ret (PStr Bot.internal_error_message)
    | Ret r =>
        if ((400 <=? Bot.status_code r) && (Bot.status_code r <? 600))%Z then
          Bot.gemini_request requests_post url payload = Ret (PStr Bot.connectivity_apology)
        else
          match Bot.json r with
          | Raise (RequestException _) =>
              Bot.gemini_request requests_post url payload
              = Ret (PStr Bot.connectivity_apology)
          | Raise _ =>
              Bot.gemini_request requests_post url payload
              = Ret (PStr Bot.internal_error_message)
          | Ret _ => exists v, Bot.gemini_request requests_post url payload = Ret v
          end
    end.
Proof.
  intros requests_post url payload.
  pose proof (gemini_request_returns requests_post url payload) as Hret.
  unfold Bot.gemini_request, Bot.gemini_try, Bot.raise_for_status in *.
  destruct (requests_post url payload) as [r|e]; cbn [bind] in *.
  - destruct ((400 <=? Bot.status_code r)%Z && (Bot.status_code r <? 600)%Z);
      cbn [bind] in *; [reflexivity|].
    destruct (Bot.json r) as [body|e]; cbn [bind] in *; [exact Hret|].
    destruct e; reflexivity.
  - destruct e; reflexivity.
Qed.

(** X20.  From a body of the expected shape the client's request part
    returns the text of the first part of the first candidate. *)
Theorem gemini_request_returns_the_candidate_text :
  forall (requests_post : string -> pyval -> pyres Bot.response)
         (url : string) (payload : pyval) (r : Bot.response)
         (body candidate content part : list (string * pyval))
         (candidates parts : list pyval) (answer : pyval),
    requests_post url payload = Ret r ->
    ((400 <=? Bot.status_code r) && (Bot.status_code r <? 600))%Z = false ->
    Bot.json r = Ret (PDict body) ->
    dict_get "candidates" body = Some (PList (PDict candidate :: candidates)) ->
    dict_get "content" candidate = Some (PDict content) ->
    dict_get "parts" content = Some (PList (PDict part :: parts)) ->
    dict_get "text" part = Some answer ->
    Bot.gemini_request requests_post url payload = Ret answer.
Proof.
  intros requests_post url payload r body candidate content part candidates parts answer
         Hp Hs Hj Hc Hct Hps Ht.
  unfold Bot.gemini_request, Bot.gemini_try, Bot.raise_for_status.
  rewrite Hp. cbn [bind]. rewrite Hs. cbn [bind]. rewrite Hj.
  cbn [bind py_get py_item]. rewrite Hc. cbn [truthy bind py_first py_get py_item].
  rewrite Hct. cbn [bind py_get py_item].
  assert (Hne : truthy (PDict content) = true).
  { destruct content; [discriminate Hps | reflexivity]. }
  rewrite Hne, Hps. cbn [truthy bind py_first py_item]. now rewrite Ht.
Qed.

Lemma gemini_request_returns_the_candidate_text_witness :
  Bot.gemini_request (Examples.post_answer "Rainfall maps help flood warning.")
    (Bot.gemini_api_url "") (PDict [("contents", PList [])])
  = Ret (PStr "Rainfall maps help flood warning.").
Proof.
  apply (gemini_request_returns_the_candidate_text
           (Examples.post_answer "Rainfall maps help flood warning.")
           (Bot.gemini_api_url "") (PDict [("contents", PList [])])
           (Bot.mk_response 200
              (Ret (PDict [ ("candidates",
                             PList [ PDict [ ("content",
                                              PDict [ ("parts",
                                                       PList [PDict [("text", PStr "Rainfall maps help flood warning.")]]) ]) ] ]) ])))
           [ ("candidates",
              PList [ PDict [ ("content",
                               PDict [ ("parts",
                                        PList [PDict [("text", PStr "Rainfall maps help flood warning.")]]) ]) ] ]) ]
           [ ("content",
              PDict [ ("parts", PList [PDict [("text", PStr "Rainfall maps help flood warning.")]]) ]) ]
           [ ("parts", PList [PDict [("text", PStr "Rainfall maps help flood warning.")]]) ]
           [ ("text", PStr "Rainfall maps help flood warning.") ]
           [] []); reflexivity.
Defined.

(* ===================================================================== *)
(** ** The calls of the ingestion helper *)
(* ===================================================================== *)

Section IngestFacts.
Variable name : string.

Lemma pairs_follow_targets (to_label rel_type : string) (targets : list string)
      (rest : list Ingest.kg_call) :
  Notions.entity_first rest ->
  Notions.relations_follow_targets name rest ->
  Notions.entity_first
    (flat_map (Ingest.add_and_relate name to_label rel_type) targets ++ rest)%list
  /\ Notions.relations_follow_targets name
       (flat_map (Ingest.add_and_relate name to_label rel_type) targets ++ rest)%list.
Proof.
  intros Hfirst Hrest. induction targets as [|t targets [IHf IHr]]; [now split|].
  split; [exact I|].
  cbn [flat_map Ingest.add_and_relate List.app].
  cbn [Notions.relations_follow_targets]. split; [repeat split|].
  destruct (flat_map (Ingest.add_and_relate name to_label rel_type) targets ++ rest)%list
    as [|[|] calls]; [exact I | exact IHr | destruct IHf].
Qed.

Lemma for_each_follows_targets (to_label rel_type : string) (xs : option (list string))
      (rest : list Ingest.kg_call) :
  Notions.entity_first rest ->
  Notions.relations_follow_targets name rest ->
  Notions.entity_first
    (Ingest.for_each xs (Ingest.add_and_relate name to_label rel_type) ++ rest)%list
  /\ Notions.relations_follow_targets name
       (Ingest.for_each xs (Ingest.add_and_relate name to_label rel_type) ++ rest)%list.
Proof.
  destruct xs as [l|]; [apply pairs_follow_targets | now split].
Qed.

Lemma for_each_length (to_label rel_type : string) (xs : option (list string)) :
  length (Ingest.for_each xs (Ingest.add_and_relate name to_label rel_type))
  = 2 * Notions.count xs.
Proof.
  destruct xs as [l|]; [|reflexivity]. cbn [Ingest.for_each Notions.count].
  induction l as [|x l IH]; [reflexivity|].
  cbn [flat_map Ingest.add_and_relate List.app length]. rewrite IH. lia.
Qed.
End IngestFacts.

(** X21.  [_ingest_data_product] first adds the product, makes two calls
    for each satellite, parameter and format it is given and two more for
    the institution, and every relationship it adds starts at the product
    and directly follows the call that adds its target under the same
    name. *)
Theorem ingest_relates_what_it_has_added :
  forall (name description link : string)
         (satellites parameters data_formats : option (list string)),
    let calls := Ingest._ingest_data_product name description link
                   satellites parameters data_formats in
    hd_error calls
    = Some (Ingest.AddEntity "DataProduct"
              [("name", name); ("description", description); ("link", link)])
    /\ length calls
       = 3 + 2 * (Notions.count satellites + Notions.count parameters
                  + Notions.count data_formats)
    /\ Notions.relations_follow_targets name calls.
Proof.
  intros name description link satellites parameters data_formats calls.
  split; [reflexivity|]. split.
  - unfold calls, Ingest._ingest_data_product.
    cbn [length]. rewrite !length_app, !for_each_length. cbn [length]. lia.
  - unfold calls, Ingest._ingest_data_product.
    assert (Hf0 : Notions.entity_first
                    [ Ingest.AddEntity "Institution"
                        [("name", "ISRO"); ("type", "Space Agency")];
                      Ingest.AddRelationship "DataProduct" [("name", name)]
                        "Institution" [("name", "ISRO")] "PRODUCED_BY" ]) by exact I.
    assert (Hr0 : Notions.relations_follow_targets name
                    [ Ingest.AddEntity "Institution"
                        [("name", "ISRO"); ("type", "Space Agency")];
                      Ingest.AddRelationship "DataProduct" [("name", name)]
                        "Institution" [("name", "ISRO")] "PRODUCED_BY" ])
      by (cbn; repeat split).
    destruct (for_each_follows_targets name "DataFormat" "AVAILABLE_IN_FORMAT"
                data_formats _ Hf0 Hr0) as [Hf1 Hr1].
    destruct (for_each_follows_targets name "Parameter" "PROVIDES"
                parameters _ Hf1 Hr1) as [Hf2 Hr2].
    destruct (for_each_follows_targets name "Satellite" "FROM_SATELLITE"
                satellites _ Hf2 Hr2) as [Hf3 Hr3].
    match goal with
    | |- Notions.relations_follow_targets name (?c :: ?rest) =>
        destruct rest as [|[|] more]; [exact I | exact Hr3 | destruct Hf3]
    end.
Qed.

(* ===================================================================== *)
(** ** The choice of the primary entity *)
(* ===================================================================== *)

Section PrimaryChoiceFacts.

Lemma first_preferred_none (d : list (string * string)) (prefs : list string) :
  Bot.first_preferred d prefs = None <-> forall p, In p prefs -> dict_get p d = None.
Proof.
  induction prefs as [|q prefs IH]; cbn [Bot.first_preferred].
  - split; [intros _ p [] | reflexivity].
  - destruct (dict_get q d) as [v|] eqn:E.
    + split; [discriminate|]. intros H. specialize (H q (or_introl eq_refl)). congruence.
    + rewrite IH. split.
      * intros H p [<-|Hp]; auto.
      * intros H p Hp. apply H. now right.
Qed.

Lemma first_preferred_priority (d : list (string * string)) (pre post : list string)
      (l n : string) :
  (forall p, In p pre -> dict_get p d = None) ->
  dict_get l d = Some n ->
  Bot.first_preferred d (pre ++ l :: post) = Some (n, l).
Proof.
  intros Hpre Hl. induction pre as [|q pre IH]; cbn [List.app Bot.first_preferred].
  - now rewrite Hl.
  - rewrite (Hpre q (or_introl eq_refl)). apply IH. intros p Hp. apply Hpre. now right.
Qed.

Lemma find_known_none (d : list (string * string)) :
  find (fun kv => in_list (fst kv) KG_SCHEMA_nodes) d = None
  <-> forall k, In k (keys d) -> in_list k KG_SCHEMA_nodes = false.
Proof.
  rewrite find_none_iff. unfold keys. split.
  - intros H k Hk. apply in_map_iff in Hk as [[k0 v] [<- Hin]]. exact (H _ Hin).
  - intros H [k v] Hin. apply H. apply in_map_iff. now exists (k, v).
Qed.
End PrimaryChoiceFacts.

(** X22.  [find_primary_entity] returns an entry of the mapping; it takes
    the first preferred label that is mapped, whatever else is mapped, and
    it finds nothing exactly when no preferred label is mapped and no key
    of the mapping is an entity kind of the schema. *)
Theorem find_primary_entity_choice :
  forall (d : list (string * string)),
    (forall prefs n l,
        Bot.find_primary_entity d prefs = Some (n, l) -> dict_get l d = Some n)
    /\ (forall pre post l n,
          (forall p, In p pre -> dict_get p d = None) ->
          dict_get l d = Some n ->
          Bot.find_primary_entity d (pre ++ l :: post) = Some (n, l))
    /\ (forall prefs,
          Bot.find_primary_entity d prefs = None
          <-> (forall p, In p prefs -> dict_get p d = None)
              /\ (forall k, In k (keys d) -> in_list k KG_SCHEMA_nodes = false)).
Proof.
  intros d. split; [|split].
  - intros prefs n l H. now apply find_primary_entity_sound in H.
  - intros pre post l n Hpre Hl. unfold Bot.find_primary_entity.
    now rewrite (first_preferred_priority d pre post l n Hpre Hl).
  - intros prefs. unfold Bot.find_primary_entity.
    rewrite <- first_preferred_none, <- find_known_none.
    destruct (Bot.first_preferred d prefs) as [[n l]|].
    + split; [discriminate | intros [H _]; discriminate].
    + destruct (find _ d) as [[l n]|].
      * split; [discriminate | intros [_ H]; discriminate].
      * split; [now split | reflexivity].
Qed.

(** A mapping with a parameter and a satellite, asked for a data product,
    a parameter or a satellite. *)
Lemma find_primary_entity_choice_witness :
  Bot.find_primary_entity [("Satellite", "insat-3d"); ("Parameter", "rainfall")]
    (["DataProduct"] ++ "Parameter" :: ["Satellite"])
  = Some ("rainfall", "Parameter").
Proof.
  apply (proj1 (proj2 (find_primary_entity_choice
                         [("Satellite", "insat-3d"); ("Parameter", "rainfall")]))).
  - intros p [<-|[]]. reflexivity.
  - reflexivity.
Defined.

(* ===================================================================== *)
(** ** Questions about resolution *)
(* ===================================================================== *)

Section ResolutionFacts.
Import NLU.

(** A signal whose only keyword does not occur has not fired. *)
Lemma signal_absent (low s k : string) :
  forallb (fun kv => negb (snd kv =? s) || (fst kv =? k)) mosdac_keywords = true ->
  str_in k low = false ->
  in_list s (map snd (filter (Spec.is_signal low) mosdac_keywords)) = false.
Proof.
  intros Htable Hk. apply in_list_not_In. intros Hin.
  apply in_map_iff in Hin as [kv [Hs Hkv]]. apply filter_In in Hkv as [Hin Hsig].
  rewrite forallb_forall in Htable. specialize (Htable kv Hin).
  rewrite Hs, String.eqb_refl in Htable. cbn [negb orb] in Htable.
  apply String.eqb_eq in Htable. unfold Spec.is_signal in Hsig.
  rewrite Htable, Hk in Hsig. discriminate.
Qed.

Lemma resolution_intent (nlp : string -> list (string * string)) (txt : string) :
  str_in "time resolution" (lower txt) = true
  \/ str_in "spatial resolution" (lower txt) = true ->
  str_in "how to download" (lower txt) = false ->
  str_in "format of" (lower txt) = false ->
  main_intent (process_query nlp txt) = "get_time_resolution"
  \/ main_intent (process_query nlp txt) = "get_spatial_resolution".
Proof.
  intros Hres Hd Hf. rewrite main_intent_eq. unfold intent_chain.
  rewrite (signal_absent (lower txt) "Query_Download" "how to download")
    by (vm_compute; reflexivity || assumption).
  rewrite (signal_absent (lower txt) "Query_Format" "format of")
    by (vm_compute; reflexivity || assumption).
  destruct (str_in "time resolution" (lower txt)) eqn:Et.
  - left.
    pose proof (signal_fires (lower txt) ("time resolution", "Query_TimeResolution")) as H.
    cbn [fst snd] in H. rewrite H; [reflexivity | vm_compute; tauto | exact Et | reflexivity].
  - right. destruct Hres as [Hres|Hs]; [discriminate|].
    rewrite (signal_absent (lower txt) "Query_TimeResolution" "time resolution")
      by (vm_compute; reflexivity || assumption).
    pose proof (signal_fires (lower txt) ("spatial resolution", "Query_SpatialResolution"))
      as H.
    cbn [fst snd] in H. rewrite H; [reflexivity | vm_compute; tauto | exact Hs | reflexivity].
Qed.
End ResolutionFacts.

(** X23.  A text that mentions "time resolution" or "spatial resolution",
    and neither "how to download" nor "format of", is never answered from
    the store: [generate_response] returns the default "I'm sorry, I
    couldn't find information..." text, makes no call and leaves the memory
    as it was, whatever else the text names. *)
Theorem resolution_questions_get_the_default_answer :
  forall (nlp : string -> list (string * string)) (driver : option KG.session)
         (llm : string -> pyres pyval) (txt : string) (bot : Bot.ISROBot),
    str_in "time resolution" (lower txt) = true
    \/ str_in "spatial resolution" (lower txt) = true ->
    str_in "how to download" (lower txt) = false ->
    str_in "format of" (lower txt) = false ->
    Bot.generate_response_with nlp driver llm txt bot = (Ret Bot.default_response, bot).
Proof.
  intros nlp driver llm txt bot Hres Hd Hf.
  destruct (resolution_intent nlp txt Hres Hd Hf) as [Hi|Hi];
    unfold Bot.generate_response_with; cbv zeta; rewrite Hi; decide_dispatch; reflexivity.
Qed.

Lemma resolution_questions_get_the_default_answer_witness :
  Bot.generate_response_with Fixtures.nlp_none (Some Fixtures.one_product_store)
    (Fixtures.llm_fixed "- flood warning")
    "What is the spatial resolution of sea surface temperature data?"
    Fixtures.bot_after_details
  = (Ret Bot.default_response, Fixtures.bot_after_details).
Proof.
  apply (resolution_questions_get_the_default_answer Fixtures.nlp_none
           (Some Fixtures.one_product_store) (Fixtures.llm_fixed "- flood warning")
           "What is the spatial resolution of sea surface temperature data?"
           Fixtures.bot_after_details).
  - right. reflexivity.
  - reflexivity.
  - reflexivity.
Defined.
